(** * CampusEase: mass face-recognition attendance workflow

    A shallow embedding of the attendance reconciliation workflow:

    - [Reconcile]: the reconciliation engine (roster + detections to a
      complete decision list);
    - [MassFaceRecognition]: the review component
      (MassFaceRecognitionComponent.tsx): its step state, the manual edit
      [updateStudentStatus], [saveAttendance] and the close button;
    - [AttendancePage]: the attendance page (src/pages/Attendance.tsx):
      [handleFaceRecognitionResults] and the per-student write
      [markAttendance] against the [attendance] table;
    - [Gateway]: the persistence gateway [commit];
    - [ClassPhoto]: the first two steps of the review component
      ([validateFile], [handleFileSelect], [processClassPhoto]), its summary
      counts and whole sessions of its handlers;
    - [AttendanceSheet]: the rest of the marking tab of the page
      ([getAttendanceStatus], [getAttendanceStats], [saveAllAttendance],
      [markAllPresent], [getDepartments]) and the cards of its history tab;
    - [FaceTrainingStatus] and [FaceUpload]: the training card
      ([checkTrainingStatus], [deleteTrainingData]) and the upload form it
      opens ([handleFileSelect], [removeImage], [handleUpload]).

    Confidence scores are JSON numbers; the code only compares them, so they
    are modelled as rationals ([Q]) and a JSON [null] as [None]. *)

From Stdlib Require Import List String Bool Arith Lia QArith.
Import ListNotations.
Close Scope Q_scope.
Local Open Scope string_scope.
Local Open Scope list_scope.

(** ** Shared vocabulary *)

(** [status: 'present' | 'absent' | 'late'] *)
Inductive Status : Type := present | absent | late.

(** JavaScript [a > 0] on a JSON number or [null]: [null > 0] is [false]. *)
Definition Qltb (a b : Q) : bool := negb (Qle_bool b a).

Definition js_gt_zero (c : option Q) : bool :=
  match c with
  | Some q => Qltb 0%Q q
  | None => false
  end.

#[local] Set Warnings "-register-all".

(** JSON values, as [response.json()] yields them. *)
Inductive Json : Type :=
  | JNull
  | JBool (b : bool)
  | JNum (q : Q)
  | JStr (s : string)
  | JArr (items : list Json)
  | JObj (fields : list (string * Json)).

(** Property lookup in a parsed object: the last occurrence of a key wins. *)
Fixpoint lookup_field (k : string) (fields : list (string * Json)) : option Json :=
  match fields with
  | [] => None
  | (k', v) :: rest =>
      match lookup_field k rest with
      | Some v' => Some v'
      | None => if String.eqb k' k then Some v else None
      end
  end.

(** JavaScript truthiness of a value that may be [undefined] ([None]). *)
Definition truthy (v : option Json) : bool :=
  match v with
  | None | Some JNull => false
  | Some (JBool b) => b
  | Some (JNum q) => negb (Qeq_bool q 0%Q)
  | Some (JStr s) => negb (String.eqb s "")
  | Some (JArr _) | Some (JObj _) => true
  end.

(** Text shown to the user or carried by an [Error].  The conversion
    [String(v)] of a value that is not a string is left uninterpreted:
    [StringOfOr v d] stands for [String(v) || d]. *)
Inductive Msg : Type :=
  | Text (s : string)
  | StringOfOr (v : Json) (d : string)
  | CannotRead (k : string)    (* TypeError: cannot read property k of null *)
  | CountOf (n : nat).         (* a number, interpolated into a template *)

(** [j.k]: reading a property of [null] throws a [TypeError]; of the
    properties the code reads, none exists on a boolean, a number, a string
    or an array. *)
Definition read (j : Json) (k : string) : Msg + option Json :=
  match j with
  | JNull => inl (CannotRead k)
  | JObj fields => inr (lookup_field k fields)
  | _ => inr None
  end.

(** [new Error(v || d).message], for [v] read from a JSON body. *)
Definition error_message (v : option Json) (d : string) : Msg :=
  if truthy v then
    match v with
    | Some (JStr s) => Text s
    | Some j => StringOfOr j ""
    | None => Text d
    end
  else Text d.

(** [m || d] on the message of a caught error. *)
Definition or_default (m : Msg) (d : string) : Msg :=
  match m with
  | Text EmptyString => Text d
  | StringOfOr v _ => StringOfOr v d
  | _ => m
  end.

Record Toast : Type := mkToast {
  title : string;
  description : list Msg;
  destructive : bool
}.

(** ** Reconciliation engine

    The engine runs in the recognition service (face_recognition_api.py,
    behind [/mass-recognition]), which is not among the sources: the service
    answers with the finished list [attendance_results].  Everything in this
    module is therefore modelled from the specification of the engine. *)

Module Reconcile.

(** Modelled from the spec: a roster student of the missing service. *)
Record Student : Type := mkStudent {
  sid : string;
  display_name : string;
  roll_number : string
}.

(** Modelled from the spec: a detection of the missing service, one face
    found in the image: a bounding region and, when the recognizer matched it,
    the identity together with its confidence score. *)
Record Detection : Type := mkDetection {
  region : nat * nat * nat * nat;
  matched : option (string * Q)
}.

(** Modelled from the spec: the source of a decision. *)
Inductive Source : Type := auto_detected | manual.

(** Modelled from the spec: the decision the missing service takes for one
    student. *)
Record AttendanceDecision : Type := mkDecision {
  student : string;
  status : Status;
  source : Source;
  confidence : option Q;
  linkage : option nat   (* index of the producing detection *)
}.

(** Modelled from the spec: the failure of [reconcile]. *)
Inductive ReconcileError : Type := EmptyRosterError.

(** Modelled from the spec: the threshold of the missing service's
    configuration, 0.4 when unset. *)
Definition default_threshold : Q := 0.4%Q.

(** Modelled from the spec: the threshold [reconcile] is called with. *)
Definition threshold_of (configured : option Q) : Q :=
  match configured with
  | Some t => t
  | None => default_threshold
  end.

(** Modelled from the spec: the test of the missing [reconcile] on one
    detection, which qualifies for student [s] when it is matched to [s] with
    a confidence of at least the threshold. *)
Definition qualifies (s : string) (t : Q) (d : Detection) : option Q :=
  match matched d with
  | Some (who, c) => if String.eqb who s && Qle_bool t c then Some c else None
  | None => None
  end.

(** Modelled from the spec: the scan of the missing [reconcile] over the
    detections for one student; [i] is
    the index of the head of [ds], [best] the best candidate so far.  A later
    candidate replaces the current one only when strictly more confident. *)
Fixpoint best_detection (s : string) (t : Q) (ds : list Detection) (i : nat)
    (best : option (Q * nat)) : option (Q * nat) :=
  match ds with
  | [] => best
  | d :: rest =>
      let best' :=
        match qualifies s t d with
        | Some c =>
            match best with
            | Some (c0, _) => if Qle_bool c c0 then best else Some (c, i)
            | None => Some (c, i)
            end
        | None => best
        end in
      best_detection s t rest (S i) best'
  end.

(** Modelled from the spec: the decision of the missing [reconcile] for one
    roster student. *)
Definition decide_student (t : Q) (D : list Detection) (s : Student)
    : AttendanceDecision :=
  match best_detection (sid s) t D 0 None with
  | Some (c, i) => mkDecision (sid s) present auto_detected (Some c) (Some i)
  | None => mkDecision (sid s) absent auto_detected None None
  end.

(** Modelled from the spec: the reconciliation engine [reconcile] (the
    recognition service that implements it is not part of the sources).
    Decisions follow roster order; an empty roster is an error. *)
Definition reconcile (R : list Student) (D : list Detection) (t : Q)
    : ReconcileError + list AttendanceDecision :=
  match R with
  | [] => inl EmptyRosterError
  | _ :: _ => inr (map (decide_student t D) R)
  end.

(** Modelled from the spec: detections matched to an identifier that is not
    on the roster, kept for the audit log only. *)
Definition unknown_detections (R : list Student) (D : list Detection)
    : list Detection :=
  filter (fun d =>
            match matched d with
            | Some (who, _) => negb (existsb (fun s => String.eqb (sid s) who) R)
            | None => false
            end) D.

(** The decisions recorded for student [s]. *)
Definition decisions_of (s : string) (ds : list AttendanceDecision)
    : list AttendanceDecision :=
  filter (fun d => String.eqb (student d) s) ds.

End Reconcile.


(** ** The review component (MassFaceRecognitionComponent.tsx) *)

Module MassFaceRecognition.

(** [interface Student]: one row of the recognition result. *)
Record Student : Type := mkStudent {
  student_id : string;
  student_name : string;
  confidence : option Q;          (* JSON number, or null *)
  status : Status;
  detected : bool
}.

(** [MassFaceRecognitionProps] without the two callbacks, which are
    modelled as the effects [OnAttendanceSaved] and [OnClose]. *)
Record Props : Type := mkProps {
  classId : string;
  className : string;
  subject : string;
  classType : string;
  date : string;
  facultyId : string;
  facultyName : string
}.

Inductive Step : Type := Upload | Processing | Review | Saving.

Record File : Type := mkFile { file_type : string; file_size : nat }.

Record State : Type := mkState {
  currentStep : Step;
  classPhoto : option File;
  photoPreview : option string;
  processing : bool;
  progress : nat;
  error : option Msg;
  attendanceResults : list Student;
  editedResults : list Student;
  saving : bool
}.

Definition FACE_RECOGNITION_API_URL : string := "http://localhost:8000".

(** The [attendanceData] object sent with a request. *)
Record AttendanceData : Type := mkAttendanceData {
  class_id : string;
  ad_subject : string;
  class_type : string;
  ad_date : string;
  faculty_id : string;
  faculty_name : string
}.

Inductive Effect : Type :=
  | Post (url : string) (attendance_data : AttendanceData)
         (attendance_results : list Student)
  | ShowToast (t : Toast)
  | ConsoleError (label : string) (m : Msg)
  | OnAttendanceSaved (results : list Student)
  | OnClose.

(** What the awaited [fetch] and [response.json()] produce: [fetch] may
    reject; otherwise there is a response with its [ok] flag whose body
    either parses or makes [json()] reject. *)
Inductive FetchResult : Type :=
  | Rejected (message : string)
  | Response (ok : bool) (body : string + Json).

Definition setEditedResults (f : list Student -> list Student) (s : State) : State :=
  mkState (currentStep s) (classPhoto s) (photoPreview s) (processing s)
          (progress s) (error s) (attendanceResults s) (f (editedResults s))
          (saving s).

Definition setCurrentStep (x : Step) (s : State) : State :=
  mkState x (classPhoto s) (photoPreview s) (processing s)
          (progress s) (error s) (attendanceResults s) (editedResults s)
          (saving s).

Definition setError (e : option Msg) (s : State) : State :=
  mkState (currentStep s) (classPhoto s) (photoPreview s) (processing s)
          (progress s) e (attendanceResults s) (editedResults s) (saving s).

Definition setSaving (b : bool) (s : State) : State :=
  mkState (currentStep s) (classPhoto s) (photoPreview s) (processing s)
          (progress s) (error s) (attendanceResults s) (editedResults s) b.

(** [{ ...student, status: newStatus }] *)
Definition with_status (newStatus : Status) (student : Student) : Student :=
  mkStudent (student_id student) (student_name student) (confidence student)
            newStatus (detected student).

(** [updateStudentStatus] *)
Definition updateStudentStatus (studentId : string) (newStatus : Status)
    (s : State) : State :=
  setEditedResults
    (map (fun student =>
            if String.eqb (student_id student) studentId
            then with_status newStatus student
            else student))
    s.

(** The [catch] and [finally] blocks of [saveAttendance]. *)
Definition saveAttendance_catch (s : State) (m : Msg) : State * list Effect :=
  (setSaving false
     (setCurrentStep Review
        (setError (Some (or_default m "Failed to save attendance")) s)),
   [ConsoleError "Save attendance error:" m;
    ShowToast (mkToast "Save Failed"
                       [or_default m "Failed to save attendance records"] true)]).

(** The [try] block of [saveAttendance] after the request was sent; [s] is
    the state after the three initial updates. *)
Definition saveAttendance_try (s : State) (r : FetchResult) : State * list Effect :=
  match r with
  | Rejected message => saveAttendance_catch s (Text message)
  | Response false (inl message) => saveAttendance_catch s (Text message)
  | Response false (inr errorData) =>
      match read errorData "detail" with
      | inl thrown => saveAttendance_catch s thrown
      | inr detail =>
          saveAttendance_catch s (error_message detail "Failed to save attendance")
      end
  | Response true (inl message) => saveAttendance_catch s (Text message)
  | Response true (inr result) =>
      match read result "success" with
      | inl thrown => saveAttendance_catch s thrown
      | inr success =>
          if truthy success then
            (setSaving false s,
             [ShowToast
                (mkToast "Attendance Saved"
                   [Text "Successfully saved attendance for ";
                    match read result "saved_records" with
                    | inr (Some v) => StringOfOr v ""
                    | _ => Text "undefined"
                    end;
                    Text " students"] false);
              OnAttendanceSaved (editedResults s);
              OnClose])
          else
            match read result "message" with
            | inl thrown => saveAttendance_catch s thrown
            | inr message =>
                saveAttendance_catch s
                  (error_message message "Failed to save attendance")
            end
      end
  end.

(** [saveAttendance]: the request carries the edited results; [r] is what
    the awaited request produced. *)
Definition saveAttendance (p : Props) (s : State) (r : FetchResult)
    : State * list Effect :=
  let s0 := setError None (setCurrentStep Saving (setSaving true s)) in
  let attendanceData :=
    mkAttendanceData (classId p) (subject p) (classType p) (date p)
                     (facultyId p) (facultyName p) in
  let (s', effects) := saveAttendance_try s0 r in
  (s', Post (FACE_RECOGNITION_API_URL ++ "/save-attendance") attendanceData
            (editedResults s) :: effects).

(** The close button of the card header: [onClick={onClose}]. *)
Definition closeButton (s : State) : State * list Effect := (s, [OnClose]).

(** The requests among the effects of a handler. *)
Definition requests (effects : list Effect) : list Effect :=
  filter (fun e => match e with Post _ _ _ => true | _ => false end) effects.

Definition closes (effects : list Effect) : bool :=
  existsb (fun e => match e with OnClose => true | _ => false end) effects.

Definition reports_saved (effects : list Effect) : bool :=
  existsb (fun e => match e with OnAttendanceSaved _ => true | _ => false end)
          effects.

(** The one case in which the [try] block of [saveAttendance] does not
    throw: a response with [ok] set whose body has a truthy [success]. *)
Definition save_succeeded (r : FetchResult) : bool :=
  match r with
  | Response true (inr result) =>
      match read result "success" with
      | inr success => truthy success
      | inl _ => false
      end
  | _ => false
  end.

(** A response body that reports the students whose write failed, in the
    shape of a commit result. *)
Definition partial_failure (message : string) (ids : list string) : FetchResult :=
  Response true
    (inr (JObj [("success", JBool false);
                ("message", JStr message);
                ("failed", JArr (map JStr ids))])).

End MassFaceRecognition.

(** ** Database access (the query client and a table with a unique key)

    The pages talk to a hosted Postgres through a query client; both are
    outside the repository.  [Prog] is what the code does with the client: a
    sequence of awaited calls, each answered by [{ data, error }].  [Backend]
    is anything that answers; [store] is one such backend, a table with a
    UNIQUE key as the schema declares it, whose insert fails with 23505 on a
    present key and whose [.single()] fails unless exactly one row matches. *)

(** Clock readings ([new Date()], [NOW()]), in milliseconds. *)
Definition Time : Type := nat.

Module Db.

Record PgError : Type := mkPgError { code : string; message : string }.

(** SQLSTATE 23505, raised by a UNIQUE constraint. *)
Definition unique_violation : PgError :=
  mkPgError "23505" "duplicate key value violates unique constraint".

(** What [.single()] reports unless exactly one row comes back. *)
Definition not_single : PgError :=
  mkPgError "PGRST116" "JSON object requested, multiple (or no) rows returned".

Section Table.

Variables Row Key Patch : Type.

(** The three statements the code issues, each closed by [.single()]:
    [insert([r]).select()], [update(p).eq(..k..).select()] and
    [select('*').eq(..k..)]. *)
Inductive Call : Type :=
  | Insert (r : Row)
  | Update (p : Patch) (k : Key)
  | Select (k : Key).

Definition is_write (c : Call) : bool :=
  match c with
  | Insert _ | Update _ _ => true
  | Select _ => false
  end.

(** The awaited [{ data, error }]. *)
Record Single : Type := mkSingle {
  data : option Row;
  error : option PgError
}.

(** An asynchronous function, as the sequence of its awaited calls. *)
Inductive Prog (A : Type) : Type :=
  | Ret (a : A)
  | Await (c : Call) (k : Single -> Prog A).

Arguments Ret {A} a.
Arguments Await {A} c k.

Fixpoint bind {A B : Type} (p : Prog A) (f : A -> Prog B) : Prog B :=
  match p with
  | Ret a => f a
  | Await c k => Await c (fun r => bind (k r) f)
  end.

(** Whatever answers the calls. *)
Record Backend : Type := mkBackend {
  world : Type;
  respond : Call -> world -> Single * world
}.

(** Running a program: its value, the final world and the calls issued,
    in order. *)
Fixpoint run {A : Type} (B : Backend) (p : Prog A) (w : world B)
    : A * world B * list Call :=
  match p with
  | Ret a => (a, w, [])
  | Await c k =>
      let (r, w1) := respond B c w in
      let '(a, w2, calls) := run B (k r) w1 in
      (a, w2, c :: calls)
  end.

(** *** A table with a unique key *)

Variable key_of : Row -> Key.
Variable key_eqb : Key -> Key -> bool.
Variable apply_patch : Patch -> Row -> Row.

Definition matching (k : Key) (t : list Row) : list Row :=
  filter (fun r => key_eqb (key_of r) k) t.

Definition has_key (k : Key) (t : list Row) : bool :=
  existsb (fun r => key_eqb (key_of r) k) t.

Definition insert_row (r : Row) (t : list Row) : Single * list Row :=
  if has_key (key_of r) t
  then (mkSingle None (Some unique_violation), t)
  else (mkSingle (Some r) None, t ++ [r]).

Definition update_rows (p : Patch) (k : Key) (t : list Row) : Single * list Row :=
  match matching k t with
  | [r] =>
      (mkSingle (Some (apply_patch p r)) None,
       map (fun x => if key_eqb (key_of x) k then apply_patch p x else x) t)
  | _ => (mkSingle None (Some not_single), t)
  end.

Definition select_row (k : Key) (t : list Row) : Single * list Row :=
  match matching k t with
  | [r] => (mkSingle (Some r) None, t)
  | _ => (mkSingle None (Some not_single), t)
  end.

Definition execute (c : Call) (t : list Row) : Single * list Row :=
  match c with
  | Insert r => insert_row r t
  | Update p k => update_rows p k t
  | Select k => select_row k t
  end.

(** What may happen to a call: nothing special; the call fails with an
    error and leaves the table alone; another session inserts a row just
    before the call is executed. *)
Inductive Event : Type :=
  | Quiet
  | Fault (e : PgError)
  | Rival (r : Row).

(** The table, the number of calls served so far, and the events that
    befall the calls (by call number and call). *)
Record Store : Type := mkStore {
  table : list Row;
  served : nat;
  plan : nat -> Call -> Event
}.

Definition store_respond (c : Call) (s : Store) : Single * Store :=
  match plan s (served s) c with
  | Quiet =>
      let (r, t) := execute c (table s) in
      (r, mkStore t (S (served s)) (plan s))
  | Fault e =>
      (mkSingle None (Some e), mkStore (table s) (S (served s)) (plan s))
  | Rival other =>
      let (r, t) := execute c (snd (insert_row other (table s))) in
      (r, mkStore t (S (served s)) (plan s))
  end.

Definition store : Backend := mkBackend Store store_respond.

Definition quiet : nat -> Call -> Event := fun _ _ => Quiet.

End Table.

Arguments Insert {Row Key Patch} r.
Arguments Update {Row Key Patch} p k.
Arguments Select {Row Key Patch} k.
Arguments is_write {Row Key Patch} c.
Arguments mkSingle {Row} data error.
Arguments data {Row} s.
Arguments error {Row} s.
Arguments Ret {Row Key Patch A} a.
Arguments Await {Row Key Patch A} c k.
Arguments bind {Row Key Patch A B} p f.
Arguments mkBackend {Row Key Patch} world respond.
Arguments world {Row Key Patch} b.
Arguments respond {Row Key Patch} b c w.
Arguments run {Row Key Patch A} B p w.
Arguments matching {Row Key} key_of key_eqb k t.
Arguments has_key {Row Key} key_of key_eqb k t.
Arguments insert_row {Row Key} key_of key_eqb r t.
Arguments update_rows {Row Key Patch} key_of key_eqb apply_patch p k t.
Arguments select_row {Row Key} key_of key_eqb k t.
Arguments execute {Row Key Patch} key_of key_eqb apply_patch c t.
Arguments Quiet {Row}.
Arguments Fault {Row} e.
Arguments Rival {Row} r.
Arguments mkStore {Row Key Patch} table served plan.
Arguments table {Row Key Patch} s.
Arguments served {Row Key Patch} s.
Arguments plan {Row Key Patch} s.
Arguments store_respond {Row Key Patch} key_of key_eqb apply_patch c s.
Arguments store {Row Key Patch} key_of key_eqb apply_patch.
Arguments quiet {Row Key Patch} _ _.

Notation "'let*' r ':=' c 'in' k" := (Await c (fun r => k))
  (at level 10, r name, c at level 100, k at level 200).

End Db.

(** ** The attendance page (src/pages/Attendance.tsx) *)

(** Strings hold the UTF-8 encoding of their text.  [s.trim()] removes
    from both ends the white space and the line terminators of ECMAScript:
    U+0009 to U+000D, U+0020, U+00A0, U+1680, U+2000 to U+200A, U+2028,
    U+2029, U+202F, U+205F, U+3000 and U+FEFF, here in their encodings. *)
Definition WHITE_SPACE : list (list nat) :=
  [[9]; [10]; [11]; [12]; [13]; [32];
   [194; 160];                                     (* U+00A0 *)
   [225; 154; 128]]                                (* U+1680 *)
  ++ map (fun b => [226; 128; b]) (seq 128 11)     (* U+2000 .. U+200A *)
  ++ [[226; 128; 168]; [226; 128; 169];            (* U+2028, U+2029 *)
      [226; 128; 175];                             (* U+202F *)
      [226; 129; 159];                             (* U+205F *)
      [227; 128; 128];                             (* U+3000 *)
      [239; 187; 191]].                            (* U+FEFF *)

Definition bytes_of_string (s : string) : list nat :=
  map Ascii.nat_of_ascii (list_ascii_of_string s).

Definition string_of_bytes (l : list nat) : string :=
  string_of_list_ascii (map Ascii.ascii_of_nat l).

(** [l] without its prefix [p], if it starts with [p]. *)
Fixpoint strip_prefix (p l : list nat) : option (list nat) :=
  match p, l with
  | [], _ => Some l
  | a :: p', b :: l' => if Nat.eqb a b then strip_prefix p' l' else None
  | _ :: _, [] => None
  end.

Fixpoint strip_any (ps : list (list nat)) (l : list nat) : option (list nat) :=
  match ps with
  | [] => None
  | p :: rest =>
      match strip_prefix p l with
      | Some l' => Some l'
      | None => strip_any rest l
      end
  end.

(** [l] without the characters of [ps] it starts with; every round takes
    at least one byte, so a fuel of the length of [l] is never used up. *)
Fixpoint strip_all (ps : list (list nat)) (fuel : nat) (l : list nat)
    : list nat :=
  match fuel with
  | 0 => l
  | S fuel' =>
      match strip_any ps l with
      | Some l' => strip_all ps fuel' l'
      | None => l
      end
  end.

Definition trim_start (l : list nat) : list nat :=
  strip_all WHITE_SPACE (List.length l) l.

Definition trim_end (l : list nat) : list nat :=
  rev (strip_all (map (@rev nat) WHITE_SPACE) (List.length l) (rev l)).

Definition trim (s : string) : string :=
  string_of_bytes (trim_end (trim_start (bytes_of_string s))).

(** [s || d] on strings: the empty string is falsy. *)
Definition str_or (s d : string) : string :=
  match s with EmptyString => d | _ => s end.

Definition status_text (s : Status) : string :=
  match s with
  | present => "present"
  | absent => "absent"
  | late => "late"
  end.

Module ClassDetail.
Record t : Type := mk {
  id : nat;
  class_name : string;
  class_id : string;
  department : string;
  institute : string;
  semester : nat;
  academic_year : string;
  course_taken : string;
  student_count : option nat
}.
End ClassDetail.

Module Student.
Record t : Type := mk {
  id : nat;
  user_id : string;
  fname : string;
  lname : string;
  email : string;
  mobile_num : string;
  roll_no : string;
  dob : string;
  address : string;
  emergency_contact : string;
  course_taken : string;
  class_id : string;
  department : string;
  institute : string;
  semester : nat;
  academic_year : string
}.
End Student.

Module UserData.
Record t : Type := mk {
  user_id : string;
  fname : string;
  lname : string;
  role : string
}.
End UserData.

(** [marked_via], the recognition method of a record. *)
Inductive Method : Type := face_recognition | manual.

Module AttendanceRecord.
(** [interface AttendanceRecord], with the two fields that
    [handleFaceRecognitionResults] adds to its records. *)
Record t : Type := mk {
  id : option string;
  user_id : string;
  student_name : string;
  roll_no : option string;
  department : option string;
  date : string;
  subject : string;
  class_type : string;
  status : Status;
  marked_by : string;
  faculty_name : option string;
  class_id : string;
  created_at : option Time;
  updated_at : option Time;
  face_recognition_confidence : option (option Q);   (* absent, or number/null *)
  marked_via : option Method
}.

(** The columns of the four [.eq] filters of an update or a check. *)
Record Key : Type := mkKey {
  k_user_id : string;
  k_date : string;
  k_subject : string;
  k_marked_by : string
}.

(** The object passed to [.update]. *)
Record Patch : Type := mkPatch {
  p_status : Status;
  p_class_type : string;
  p_updated_at : Time
}.

Definition key_of (r : t) : Key :=
  mkKey (user_id r) (date r) (subject r) (marked_by r).

Definition key_eqb (a b : Key) : bool :=
  String.eqb (k_user_id a) (k_user_id b) &&
  String.eqb (k_date a) (k_date b) &&
  String.eqb (k_subject a) (k_subject b) &&
  String.eqb (k_marked_by a) (k_marked_by b).

(** [{ ...r, status, class_type, updated_at }] *)
Definition apply_patch (p : Patch) (r : t) : t :=
  mk (id r) (user_id r) (student_name r) (roll_no r) (department r) (date r)
     (subject r) (p_class_type p) (p_status p) (marked_by r) (faculty_name r)
     (class_id r) (created_at r) (Some (p_updated_at p))
     (face_recognition_confidence r) (marked_via r).
End AttendanceRecord.

Module AttendancePage.

Import Db.

(** The state of the page that the modelled handlers read or set. *)
Record Page : Type := mkPage {
  students : list Student.t;
  selectedClass : option ClassDetail.t;
  attendance : list AttendanceRecord.t;
  selectedDate : string;
  selectedSubject : string;
  selectedClassType : string;
  activeTab : string;
  showFaceRecognition : bool;
  userData : option UserData.t
}.

Inductive Effect : Type :=
  | ShowToast (t : Toast)
  | Console (label : string)
  | FetchAttendanceHistory.   (* started, not awaited *)

Definition setAttendance (a : list AttendanceRecord.t) (pg : Page) : Page :=
  mkPage (students pg) (selectedClass pg) a (selectedDate pg)
         (selectedSubject pg) (selectedClassType pg) (activeTab pg)
         (showFaceRecognition pg) (userData pg).

Definition setShowFaceRecognition (b : bool) (pg : Page) : Page :=
  mkPage (students pg) (selectedClass pg) (attendance pg) (selectedDate pg)
         (selectedSubject pg) (selectedClassType pg) (activeTab pg)
         b (userData pg).

(** [userData?.user_id || ''] *)
Definition marked_by_value (pg : Page) : string :=
  match userData pg with
  | Some u => UserData.user_id u
  | None => ""
  end.

(** [.eq('marked_by', userData?.user_id)]: an [undefined] value is sent as
    the text [undefined]. *)
Definition marked_by_filter (pg : Page) : string :=
  match userData pg with
  | Some u => UserData.user_id u
  | None => "undefined"
  end.

(** [`${userData?.fname || ''} ${userData?.lname || ''}`.trim() || 'Faculty'] *)
Definition faculty_name_value (pg : Page) : string :=
  let fname := match userData pg with Some u => UserData.fname u | None => "" end in
  let lname := match userData pg with Some u => UserData.lname u | None => "" end in
  str_or (trim (fname ++ " " ++ lname)) "Faculty".

Definition find_student (pg : Page) (studentId : string) : option Student.t :=
  find (fun s => String.eqb (Student.user_id s) studentId) (students pg).

(** [handleFaceRecognitionResults]; [now] is the clock reading. *)
Definition convert_result (pg : Page) (now : Time)
    (result : MassFaceRecognition.Student) : AttendanceRecord.t :=
  let student := find_student pg (MassFaceRecognition.student_id result) in
  AttendanceRecord.mk
    None
    (MassFaceRecognition.student_id result)
    (MassFaceRecognition.student_name result)
    (Some (match student with Some s => Student.roll_no s | None => "" end))
    (Some (str_or (match student with Some s => Student.department s | None => "" end)
                  (match selectedClass pg with
                   | Some c => ClassDetail.department c
                   | None => ""
                   end)))
    (selectedDate pg)
    (selectedSubject pg)
    (selectedClassType pg)
    (MassFaceRecognition.status result)
    (marked_by_value pg)
    (Some (faculty_name_value pg))
    (match selectedClass pg with Some c => ClassDetail.class_id c | None => "" end)
    (Some now)
    (Some now)
    (Some (MassFaceRecognition.confidence result))
    (Some (if js_gt_zero (MassFaceRecognition.confidence result)
           then face_recognition else manual)).

Definition handleFaceRecognitionResults (pg : Page) (now : Time)
    (results : list MassFaceRecognition.Student) : Page * list Effect :=
  let attendanceRecords := map (convert_result pg now) results in
  (setShowFaceRecognition false (setAttendance attendanceRecords pg),
   [ShowToast
      (mkToast "Face Recognition Complete"
         [Text "Processed "; CountOf (List.length results);
          Text " students. Review and save the attendance."] false)]).

(** The [onClose] callback handed to the component. *)
Definition onClose (pg : Page) : Page := setShowFaceRecognition false pg.

(** What the page does with the callbacks a component handler invoked. *)
Fixpoint callbacks (now : Time) (effects : list MassFaceRecognition.Effect)
    (pg : Page) : Page :=
  match effects with
  | [] => pg
  | MassFaceRecognition.OnAttendanceSaved results :: rest =>
      callbacks now rest (fst (handleFaceRecognitionResults pg now results))
  | MassFaceRecognition.OnClose :: rest => callbacks now rest (onClose pg)
  | _ :: rest => callbacks now rest pg
  end.

(** The component is rendered while
    [showFaceRecognition && selectedClass && selectedSubject && selectedClassType]. *)
Definition modal_shown (pg : Page) : bool :=
  showFaceRecognition pg &&
  match selectedClass pg with Some _ => true | None => false end &&
  negb (String.eqb (selectedSubject pg) "") &&
  negb (String.eqb (selectedClassType pg) "").

(** The stages of a review session, read off the page and the component:
    the session is closed when the component is not rendered, and otherwise
    in the stage of the component's step. *)
Inductive SessionState : Type :=
  AwaitingImage | Processing | Reviewing | Persisting | Closed.

Definition session_state (pg : Page) (s : MassFaceRecognition.State) : SessionState :=
  if modal_shown pg then
    match MassFaceRecognition.currentStep s with
    | MassFaceRecognition.Upload => AwaitingImage
    | MassFaceRecognition.Processing => Processing
    | MassFaceRecognition.Review => Reviewing
    | MassFaceRecognition.Saving => Persisting
    end
  else Closed.

(** *** [markAttendance] *)

Definition Program : Type -> Type :=
  Prog AttendanceRecord.t AttendanceRecord.Key AttendanceRecord.Patch.

Definition findIndex (pg : Page) (studentId : string) : option nat :=
  (fix go (l : list AttendanceRecord.t) (i : nat) : option nat :=
     match l with
     | [] => None
     | a :: rest =>
         if String.eqb (AttendanceRecord.user_id a) studentId &&
            String.eqb (AttendanceRecord.date a) (selectedDate pg) &&
            String.eqb (AttendanceRecord.subject a) (selectedSubject pg)
         then Some i else go rest (S i)
     end) (attendance pg) 0.

(** [updated[i] = x] on a copy of the array, for an index in range. *)
Fixpoint set_nth {A : Type} (i : nat) (x : A) (l : list A) : list A :=
  match l, i with
  | [], _ => []
  | _ :: rest, 0 => x :: rest
  | y :: rest, S j => y :: set_nth j x rest
  end.

Definition the_key (pg : Page) (studentId : string) : AttendanceRecord.Key :=
  AttendanceRecord.mkKey studentId (selectedDate pg) (selectedSubject pg)
                         (marked_by_filter pg).

Definition the_patch (pg : Page) (now : Time) (status : Status)
    : AttendanceRecord.Patch :=
  AttendanceRecord.mkPatch status (selectedClassType pg) now.

Definition attendanceRecord (pg : Page) (c : ClassDetail.t) (student : Student.t)
    (studentId : string) (status : Status) : AttendanceRecord.t :=
  AttendanceRecord.mk
    None
    studentId
    (Student.fname student ++ " " ++ Student.lname student)
    (Some (Student.roll_no student))
    (Some (str_or (Student.department student) (ClassDetail.department c)))
    (selectedDate pg)
    (selectedSubject pg)
    (selectedClassType pg)
    status
    (marked_by_value pg)
    (Some (faculty_name_value pg))
    (ClassDetail.class_id c)
    None
    None
    None
    None.

Definition success_toast (student : Student.t) (status : Status) : Effect :=
  ShowToast
    (mkToast "Success"
       [Text ("Marked " ++ Student.fname student ++ " " ++ Student.lname student
              ++ " as " ++ status_text status ++ ".")] false).

Definition error_toast : Effect :=
  ShowToast
    (mkToast "Error" [Text "Failed to mark attendance. Please try again."] true).

(** The end of the [try] block: the new list is stored, the history is
    refreshed when its tab is shown, and success is reported. *)
Definition markAttendance_done (pg : Page) (student : Student.t) (status : Status)
    (updatedAttendance : list AttendanceRecord.t) (log : list Effect)
    : Page * list Effect :=
  (setAttendance updatedAttendance pg,
   log ++ (if String.eqb (activeTab pg) "view" then [FetchAttendanceHistory] else [])
       ++ [success_toast student status]).

(** The [catch] block: the table is asked whether the record is there. *)
Definition markAttendance_catch (pg : Page) (student : Student.t)
    (studentId : string) (status : Status) (log : list Effect)
    : Program (Page * list Effect) :=
  let* check := Select (the_key pg studentId) in
  Ret match data check with
      | Some checkData =>
          let updatedAttendance :=
            match findIndex pg studentId with
            | Some existingIndex => set_nth existingIndex checkData (attendance pg)
            | None => attendance pg ++ [checkData]
            end in
          (setAttendance updatedAttendance pg,
           log ++ [Console "Error marking attendance:"; success_toast student status])
      | None =>
          (pg, log ++ [Console "Error marking attendance:"; error_toast])
      end.

Definition markAttendance (pg : Page) (now : Time) (studentId : string)
    (status : Status) : Program (Page * list Effect) :=
  match selectedSubject pg, selectedClassType pg, selectedClass pg with
  | EmptyString, _, _ | _, EmptyString, _ | _, _, None =>
      Ret (pg, [ShowToast (mkToast "Missing Information"
                  [Text "Please select class, subject and class type."] true)])
  | _, _, Some c =>
      match find_student pg studentId with
      | None =>
          Ret (pg, [ShowToast (mkToast "Student Not Found"
                      [Text "Could not find student record."] true)])
      | Some student =>
          let record := attendanceRecord pg c student studentId status in
          match findIndex pg studentId with
          | Some existingIndex =>
              let* r := Update (the_patch pg now status) (the_key pg studentId) in
              match error r with
              | Some _ =>
                  markAttendance_catch pg student studentId status
                                       [Console "Update error:"]
              | None =>
                  let updated :=
                    match data r with
                    | Some d => d
                    | None =>
                        AttendanceRecord.apply_patch
                          (the_patch pg now status)
                          (nth existingIndex (attendance pg) record)
                    end in
                  Ret (markAttendance_done pg student status
                         (set_nth existingIndex updated (attendance pg)) [])
              end
          | None =>
              let* r := Insert record in
              match error r with
              | Some e =>
                  if String.eqb (code e) "23505" then
                    let* u := Update (the_patch pg now status) (the_key pg studentId) in
                    match error u with
                    | Some _ =>
                        markAttendance_catch pg student studentId status
                          [Console "Duplicate record detected, trying to update instead..."]
                    | None =>
                        Ret (markAttendance_done pg student status
                               (attendance pg ++
                                  [match data u with Some d => d | None => record end])
                               [Console "Duplicate record detected, trying to update instead..."])
                    end
                  else
                    markAttendance_catch pg student studentId status
                                         [Console "Insert error:"]
              | None =>
                  Ret (markAttendance_done pg student status
                         (attendance pg ++
                            [match data r with Some d => d | None => record end])
                         [])
              end
          end
      end
  end.

(** The [attendance] table behind the query client, with the unique key of
    the schema (student, date, subject, marking faculty) that the duplicate-key
    branch of [markAttendance] expects. *)
Definition attendance_table : Backend AttendanceRecord.t AttendanceRecord.Key
                                      AttendanceRecord.Patch :=
  store AttendanceRecord.key_of AttendanceRecord.key_eqb AttendanceRecord.apply_patch.

End AttendancePage.

(** ** Attendance persistence gateway

    The component hands the whole decision list to the recognition service
    ([/save-attendance]), which writes the rows; that service is not among the
    sources.  The gateway of this module is modelled from its specification,
    over the table model of [Db] and the unique key of the schema
    ([UNIQUE(student_id, date, subject, marked_by)]). *)

Module Gateway.

Import Db.

(** Modelled from the spec: the key the missing [commit] is called with. *)
Record CommitKey : Type := mkCommitKey {
  classId : string;
  date : string;
  subject : string;
  classType : string;
  facultyId : string;
  facultyName : string
}.

(** Modelled from the spec: a row the missing [commit] persists, keyed by
    (studentId, date, subject, facultyId), with the fields of the persisted
    state layout; the timestamps are those of [face_recognition_attendance]. *)
Record PersistedAttendanceRecord : Type := mkRecord {
  r_studentId : string;
  r_date : string;
  r_subject : string;
  r_facultyId : string;
  r_status : Status;
  r_classId : string;
  r_classType : string;
  r_confidenceScore : option Q;
  r_recognitionMethod : Method;
  r_facultyName : string;
  r_created_at : Time;
  r_updated_at : Time
}.

(** Modelled from the spec: the unique key of a persisted row. *)
Record RowKey : Type := mkRowKey {
  k_studentId : string;
  k_date : string;
  k_subject : string;
  k_facultyId : string
}.

(** Modelled from the spec: what an overwrite of the missing [commit]
    replaces: status, class type, confidence, timestamp. *)
Record Patch : Type := mkPatch {
  p_status : Status;
  p_classType : string;
  p_confidenceScore : option Q;
  p_updated_at : Time
}.

(** Modelled from the spec: the key columns of a row, their comparison, and
    an overwrite applied to a row of the missing store. *)
Definition key_of (r : PersistedAttendanceRecord) : RowKey :=
  mkRowKey (r_studentId r) (r_date r) (r_subject r) (r_facultyId r).

Definition key_eqb (a b : RowKey) : bool :=
  String.eqb (k_studentId a) (k_studentId b) &&
  String.eqb (k_date a) (k_date b) &&
  String.eqb (k_subject a) (k_subject b) &&
  String.eqb (k_facultyId a) (k_facultyId b).

Definition apply_patch (p : Patch) (r : PersistedAttendanceRecord)
    : PersistedAttendanceRecord :=
  mkRecord (r_studentId r) (r_date r) (r_subject r) (r_facultyId r)
           (p_status p) (r_classId r) (p_classType p) (p_confidenceScore p)
           (r_recognitionMethod r) (r_facultyName r)
           (r_created_at r) (p_updated_at p).

Definition Program : Type -> Type := Prog PersistedAttendanceRecord RowKey Patch.

(** Modelled from the spec: the failure taxonomy of the missing [commit].
    A duplicate-key error is
    a conflict; an error without a database code is a transport failure;
    every other error is a refusal of the backing store. *)
Inductive Reason : Type := Conflict | Rejected | Unavailable.

(** Modelled from the spec: the reason reported for a database error. *)
Definition classify (e : PgError) : Reason :=
  if String.eqb (code e) "23505" then Conflict
  else if String.eqb (code e) "" then Unavailable
  else Rejected.

(** Modelled from the spec: the result of the missing [commit]. *)
Record CommitResult : Type := mkCommitResult {
  succeeded : list string;
  failed : list (string * Reason)
}.

(** Modelled from the spec: the row key of a decision under a commit key. *)
Definition row_key (key : CommitKey) (d : Reconcile.AttendanceDecision) : RowKey :=
  mkRowKey (Reconcile.student d) (date key) (subject key) (facultyId key).

(** Modelled from the spec: the overwrite for a decision. *)
Definition patch_of (key : CommitKey) (now : Time) (d : Reconcile.AttendanceDecision)
    : Patch :=
  mkPatch (Reconcile.status d) (classType key) (Reconcile.confidence d) now.

(** Modelled from the spec: the recognition method recorded for a source. *)
Definition method_of (s : Reconcile.Source) : Method :=
  match s with
  | Reconcile.auto_detected => face_recognition
  | Reconcile.manual => manual
  end.

(** Modelled from the spec: the new row for a decision. *)
Definition row_of (key : CommitKey) (now : Time) (d : Reconcile.AttendanceDecision)
    : PersistedAttendanceRecord :=
  mkRecord (Reconcile.student d) (date key) (subject key) (facultyId key)
           (Reconcile.status d) (classId key) (classType key)
           (Reconcile.confidence d) (method_of (Reconcile.source d))
           (facultyName key) now now.

(** Modelled from the spec: the insert of a new row by the missing
    [commit]; a conflict is retried once as an update before giving up. *)
Definition insert_new (key : CommitKey) (now : Time)
    (d : Reconcile.AttendanceDecision) : Program (option Reason) :=
  let* i := Insert (row_of key now d) in
  match error i with
  | None => Ret None
  | Some e =>
      match classify e with
      | Conflict =>
          let* u := Update (patch_of key now d) (row_key key d) in
          Ret match error u with
              | None => None
              | Some _ => Some Conflict
              end
      | why => Ret (Some why)
      end
  end.

(** Modelled from the spec: the upsert of one decision by the missing
    [commit]: overwrite the row when one exists for the key, insert it
    otherwise.  [None] is success. *)
Definition commit_one (key : CommitKey) (now : Time)
    (d : Reconcile.AttendanceDecision) : Program (option Reason) :=
  let* found := Select (row_key key d) in
  match data found, error found with
  | Some _, _ =>
      let* u := Update (patch_of key now d) (row_key key d) in
      Ret (option_map classify (error u))
  | None, Some e =>
      if String.eqb (code e) "PGRST116"
      then insert_new key now d
      else Ret (Some (classify e))
  | None, None => insert_new key now d
  end.

(** Modelled from the spec: the aggregation of one outcome. *)
Definition record_outcome (d : Reconcile.AttendanceDecision) (o : option Reason)
    (r : CommitResult) : CommitResult :=
  match o with
  | None => mkCommitResult (Reconcile.student d :: succeeded r) (failed r)
  | Some why => mkCommitResult (succeeded r) ((Reconcile.student d, why) :: failed r)
  end.

(** Modelled from the spec: the gateway operation [commit] (the service
    that implements it is not part of the sources): every decision is
    attempted, one after the other, and the outcomes are aggregated. *)
Fixpoint commit (decisions : list Reconcile.AttendanceDecision) (key : CommitKey)
    (now : Time) : Program CommitResult :=
  match decisions with
  | [] => Ret (mkCommitResult [] [])
  | d :: rest =>
      bind (commit_one key now d)
           (fun o => bind (commit rest key now)
                          (fun r => Ret (record_outcome d o r)))
  end.

(** Modelled from the spec: the record store of the missing [commit], a table
    with the unique key of the schema. *)
Definition record_store : Backend PersistedAttendanceRecord RowKey Patch :=
  store key_of key_eqb apply_patch.

(** A row with its update timestamp blanked. *)
Definition untimed (r : PersistedAttendanceRecord) : PersistedAttendanceRecord :=
  mkRecord (r_studentId r) (r_date r) (r_subject r) (r_facultyId r)
           (r_status r) (r_classId r) (r_classType r) (r_confidenceScore r)
           (r_recognitionMethod r) (r_facultyName r) (r_created_at r) 0.

(** The table a commit leaves, and its result. *)
Definition commit_on (t : list PersistedAttendanceRecord)
    (plan : nat -> Call PersistedAttendanceRecord RowKey Patch
            -> Event PersistedAttendanceRecord)
    (decisions : list Reconcile.AttendanceDecision) (key : CommitKey) (now : Time)
    : CommitResult * list PersistedAttendanceRecord :=
  let '(r, w, _) := run record_store (commit decisions key now) (mkStore t 0 plan) in
  (r, table w).

(** The effect of one successful upsert on the table: the row of the key is
    overwritten when there is one, and appended otherwise. *)
Definition upsert (key : CommitKey) (now : Time)
    (t : list PersistedAttendanceRecord) (d : Reconcile.AttendanceDecision)
    : list PersistedAttendanceRecord :=
  if has_key key_of key_eqb (row_key key d) t
  then map (fun x => if key_eqb (key_of x) (row_key key d)
                     then apply_patch (patch_of key now d) x else x) t
  else t ++ [row_of key now d].

(** A row carries the values of a decision. *)
Definition agrees (key : CommitKey) (d : Reconcile.AttendanceDecision)
    (x : PersistedAttendanceRecord) : Prop :=
  r_status x = Reconcile.status d /\
  r_classType x = classType key /\
  r_confidenceScore x = Reconcile.confidence d.

(** The table holds the decision: there is a row for its key, and every
    row of that key carries its values. *)
Definition stored (key : CommitKey) (d : Reconcile.AttendanceDecision)
    (t : list PersistedAttendanceRecord) : Prop :=
  has_key key_of key_eqb (row_key key d) t = true /\
  forall x, In x t -> key_of x = row_key key d -> agrees key d x.

(** The overwrite of a decision, applied to a row of its key only. *)
Definition patch_if (key : CommitKey) (now : Time)
    (d : Reconcile.AttendanceDecision) (x : PersistedAttendanceRecord)
    : PersistedAttendanceRecord :=
  if key_eqb (key_of x) (row_key key d) then apply_patch (patch_of key now d) x else x.

(** The overwrites of a list of decisions, applied to a row one after the
    other. *)
Definition patch_all (key : CommitKey) (now : Time)
    (ds : list Reconcile.AttendanceDecision) (x : PersistedAttendanceRecord)
    : PersistedAttendanceRecord :=
  fold_left (fun y d => patch_if key now d y) ds x.

(** The key a call is about. *)
Definition call_key (c : Call PersistedAttendanceRecord RowKey Patch) : RowKey :=
  match c with
  | Insert r => key_of r
  | Update _ k => k
  | Select k => k
  end.

(** The backing store refuses every write for one key with the error [e];
    everything else is served. *)
Definition refuse_writes_of (k : RowKey) (e : PgError)
    : nat -> Call PersistedAttendanceRecord RowKey Patch
      -> Event PersistedAttendanceRecord :=
  fun _ c => if is_write c && key_eqb (call_key c) k then Fault e else Quiet.

(** Among the calls there is a write for the key of the decision. *)
Definition writes_for (key : CommitKey) (d : Reconcile.AttendanceDecision)
    (calls : list (Call PersistedAttendanceRecord RowKey Patch)) : Prop :=
  exists c, In c calls /\ is_write c = true /\ call_key c = row_key key d.

(** The decision is that of student [s]. *)
Definition is_for (s : string) (d : Reconcile.AttendanceDecision) : bool :=
  String.eqb (Reconcile.student d) s.

End Gateway.

(** ** Sample data *)

Module Samples.

(** A roster of three students and some detections. *)
Definition stu_A : Reconcile.Student := Reconcile.mkStudent "A" "Asha" "24DIT001".
Definition stu_B : Reconcile.Student := Reconcile.mkStudent "B" "Bhavin" "24DIT002".
Definition stu_C : Reconcile.Student := Reconcile.mkStudent "C" "Chirag" "24DIT003".

Definition roster_ABC : list Reconcile.Student := [stu_A; stu_B; stu_C].
Definition roster_AB : list Reconcile.Student := [stu_A; stu_B].

Definition face (who : string) (c : Q) : Reconcile.Detection :=
  Reconcile.mkDetection (0, 0, 10, 10) (Some (who, c)).

Definition unmatched_face : Reconcile.Detection :=
  Reconcile.mkDetection (20, 0, 10, 10) None.

(** Review component: a session in the review step with two students. *)
Definition props0 : MassFaceRecognition.Props :=
  MassFaceRecognition.mkProps "CE-5A" "CE 5A" "Data Structures" "Theory"
                              "2025-01-15" "F001" "Prof Shah".

Definition row_A : MassFaceRecognition.Student :=
  MassFaceRecognition.mkStudent "A" "Asha" (Some 0.9%Q) present true.
Definition row_B : MassFaceRecognition.Student :=
  MassFaceRecognition.mkStudent "B" "Bhavin" (Some 0%Q) absent false.
Definition row_C : MassFaceRecognition.Student :=
  MassFaceRecognition.mkStudent "C" "Chirag" None absent false.

Definition review0 : MassFaceRecognition.State :=
  MassFaceRecognition.mkState MassFaceRecognition.Review
    (Some (MassFaceRecognition.mkFile "image/jpeg" 1000)) (Some "blob:1")
    false 0 None [row_A; row_B; row_C] [row_A; row_B; row_C] false.

(** Attendance page: one class, one student, nothing marked yet. *)
Definition class0 : ClassDetail.t :=
  ClassDetail.mk 1 "CE 5A" "CE-5A" "Computer" "DEPSTAR" 5 "2024-25" "BTech" None.

Definition student0 : Student.t :=
  Student.mk 1 "A" "Asha" "Patel" "asha@example.org" "0000000000" "24DIT001"
             "2005-01-01" "Anand" "0000000001" "BTech" "CE-5A" "" "DEPSTAR" 5
             "2024-25".

Definition faculty0 : UserData.t := UserData.mk "F001" "Harsh" "Shah" "faculty".

Definition page0 : AttendancePage.Page :=
  AttendancePage.mkPage [student0] (Some class0) [] "2025-01-15"
                        "Data Structures" "Theory" "mark" true (Some faculty0).

(** The row another session wrote for the same student, date and subject. *)
Definition rival_row : AttendanceRecord.t :=
  AttendanceRecord.mk (Some "r1") "A" "Asha Patel" (Some "24DIT001")
    (Some "Computer") "2025-01-15" "Data Structures" "Practical" absent "F001"
    (Some "Harsh Shah") "CE-5A" (Some 3) (Some 3) None None.

(** The other session wins the race for the first call. *)
Definition lost_race : nat -> Db.Call AttendanceRecord.t AttendanceRecord.Key
                                      AttendanceRecord.Patch
                       -> Db.Event AttendanceRecord.t :=
  fun n _ => match n with 0 => Db.Rival rival_row | _ => Db.Quiet end.

Definition world0 : Db.world AttendancePage.attendance_table :=
  Db.mkStore [] 0 lost_race.

(** A refusal of the backing store that is no duplicate: a check constraint. *)
Definition check_violation : Db.PgError :=
  Db.mkPgError "23514" "new row violates check constraint".

(** The store refuses the call with the given number. *)
Definition refused_at (k : nat) : nat -> Db.Call AttendanceRecord.t AttendanceRecord.Key
                                               AttendanceRecord.Patch
                                 -> Db.Event AttendanceRecord.t :=
  fun n _ => if Nat.eqb n k then Db.Fault check_violation else Db.Quiet.

(** The page after the student was marked once: the row is in the local
    list. *)
Definition page1 : AttendancePage.Page :=
  AttendancePage.mkPage [student0] (Some class0) [rival_row] "2025-01-15"
                        "Data Structures" "Theory" "mark" true (Some faculty0).

(** Gateway: a commit key and three decisions. *)
Definition key0 : Gateway.CommitKey :=
  Gateway.mkCommitKey "CE-5A" "2025-01-15" "Data Structures" "Theory" "F001"
                      "Prof Shah".

Definition dec_A : Reconcile.AttendanceDecision :=
  Reconcile.mkDecision "A" present Reconcile.auto_detected (Some 0.8%Q) (Some 1).
Definition dec_B : Reconcile.AttendanceDecision :=
  Reconcile.mkDecision "B" absent Reconcile.auto_detected None None.
Definition dec_C : Reconcile.AttendanceDecision :=
  Reconcile.mkDecision "C" late Reconcile.auto_detected None None.

Definition decisions0 : list Reconcile.AttendanceDecision := [dec_A; dec_B; dec_C].

End Samples.

(** ** The review component, continued: choosing and processing the photo

    The first two steps of MassFaceRecognitionComponent.tsx and the summary
    of its review step.  A handler runs from the click to the end of its
    last [await]: while a request is pending the component shows a step
    without controls of its own, so no other handler of the component runs
    in between.

    [State] holds the two result cells at the type [Student[]] the source
    declares for them.  What [processClassPhoto] stores there is the member
    [attendance_results] of the parsed answer, whatever it is; [Component]
    keeps track of that. *)

Module ClassPhoto.

Import MassFaceRecognition.

Definition MAX_FILE_SIZE : nat := 20 * 1024 * 1024.

Definition ACCEPTED_TYPES : list string :=
  ["image/jpeg"; "image/jpg"; "image/png"].

(** [{ valid, error? }] *)
Record Validation : Type := mkValidation {
  valid : bool;
  v_error : option string
}.

(** [validateFile] *)
Definition validateFile (file : File) : Validation :=
  if negb (existsb (String.eqb (file_type file)) ACCEPTED_TYPES) then
    mkValidation false (Some "Only JPEG and PNG images are allowed")
  else if Nat.ltb MAX_FILE_SIZE (file_size file) then
    mkValidation false (Some "File size must be less than 20MB")
  else mkValidation true None.

Definition setClassPhoto (f : option File) (s : State) : State :=
  mkState (currentStep s) f (photoPreview s) (processing s)
          (progress s) (error s) (attendanceResults s) (editedResults s)
          (saving s).

Definition setPhotoPreview (u : option string) (s : State) : State :=
  mkState (currentStep s) (classPhoto s) u (processing s)
          (progress s) (error s) (attendanceResults s) (editedResults s)
          (saving s).

Definition setProcessing (b : bool) (s : State) : State :=
  mkState (currentStep s) (classPhoto s) (photoPreview s) b
          (progress s) (error s) (attendanceResults s) (editedResults s)
          (saving s).

Definition setProgress (n : nat) (s : State) : State :=
  mkState (currentStep s) (classPhoto s) (photoPreview s) (processing s)
          n (error s) (attendanceResults s) (editedResults s) (saving s).

Definition setAttendanceResults (l : list Student) (s : State) : State :=
  mkState (currentStep s) (classPhoto s) (photoPreview s) (processing s)
          (progress s) (error s) l (editedResults s) (saving s).

(** [handleFileSelect]; [url] is what [URL.createObjectURL(file)] hands
    out. *)
Definition handleFileSelect (file : File) (url : string) (s : State) : State :=
  let validation := validateFile file in
  if negb (valid validation) then
    setError
      (Some (Text (str_or (match v_error validation with
                           | Some e => e
                           | None => ""
                           end) "Invalid file"))) s
  else
    setError None (setPhotoPreview (Some url) (setClassPhoto (Some file) s)).

(** [handleDrop], and the [onChange] of the hidden file input, which reads
    [e.target.files[0]] in the same way: the first file, if there is one. *)
Definition handleDrop (files : list File) (url : string) (s : State) : State :=
  match files with
  | file :: _ => handleFileSelect file url s
  | [] => s
  end.

(** The button under the preview:
    [setClassPhoto(null); setPhotoPreview(null)]. *)
Definition chooseDifferentPhoto (s : State) : State :=
  setPhotoPreview None (setClassPhoto None s).

(** The button of the review step: [setCurrentStep('upload')]. *)
Definition uploadDifferentPhoto (s : State) : State :=
  setCurrentStep Upload s.

(** *** The rows of an answer *)

Definition string_of_json (v : option Json) : option string :=
  match v with
  | Some (JStr s) => Some s
  | _ => None
  end.

Definition boolean_of_json (v : option Json) : option bool :=
  match v with
  | Some (JBool b) => Some b
  | _ => None
  end.

(** [confidence]: a number, or [null] as [State] admits it. *)
Definition confidence_of_json (v : option Json) : option (option Q) :=
  match v with
  | Some (JNum q) => Some (Some q)
  | Some JNull => Some None
  | _ => None
  end.

(** ['present' | 'absent' | 'late'] *)
Definition status_of_json (v : option Json) : option Status :=
  match v with
  | Some (JStr s) =>
      if String.eqb s "present" then Some present
      else if String.eqb s "absent" then Some absent
      else if String.eqb s "late" then Some late
      else None
  | _ => None
  end.

(** A parsed value at the type [interface Student]: an object whose five
    members of the interface have the types declared there.  Members the
    interface does not name are left out, as they are in [State]. *)
Definition row_of (j : Json) : option Student :=
  match j with
  | JObj fields =>
      match string_of_json (lookup_field "student_id" fields),
            string_of_json (lookup_field "student_name" fields),
            confidence_of_json (lookup_field "confidence" fields),
            status_of_json (lookup_field "status" fields),
            boolean_of_json (lookup_field "detected" fields) with
      | Some id, Some name, Some c, Some st, Some d =>
          Some (mkStudent id name c st d)
      | _, _, _, _, _ => None
      end
  | _ => None
  end.

(** The elements of a parsed array at the type [Student[]]. *)
Fixpoint rows_of (items : list Json) : option (list Student) :=
  match items with
  | [] => Some []
  | item :: rest =>
      match row_of item, rows_of rest with
      | Some row, Some rows => Some (row :: rows)
      | _, _ => None
      end
  end.

(** [items.filter(r => r.detected).length]: the callback throws on an
    element that is [null]. *)
Fixpoint count_detected (items : list Json) : Msg + nat :=
  match items with
  | [] => inr 0
  | item :: rest =>
      match read item "detected" with
      | inl thrown => inl thrown
      | inr v =>
          match count_detected rest with
          | inl thrown => inl thrown
          | inr n => inr (if truthy v then S n else n)
          end
      end
  end.

(** *** The component and its result cells

    [results_known] and [edited_known] say of the cells [attendanceResults]
    and [editedResults] that they hold the list of [state].  A flag is
    cleared when the value [processClassPhoto] stores in the cell, or
    spreads into it, is not an array of [Student] objects; the list of
    [state] is then the last list the cell held, and what the cell holds is
    not followed.  The seven other cells are those of [state]
    throughout. *)
Record Component : Type := mkComponent {
  state : State;
  results_known : bool;
  edited_known : bool
}.

Definition on_state (f : State -> State) (c : Component) : Component :=
  mkComponent (f (state c)) (results_known c) (edited_known c).

(** A component whose result cells hold the lists of [s]. *)
Definition known (s : State) : Component := mkComponent s true true.

(** What the handlers of this module bring about: the multipart request of
    [processClassPhoto], an effect of the kind [saveAttendance] has, or one
    of the two effects of [saveAttendance] that carry [editedResults] when
    the model does not follow that cell. *)
Inductive Effect : Type :=
  | PostForm (url : string) (attendance_data : AttendanceData)
             (class_photo : File)
  | Other (e : MassFaceRecognition.Effect)
  | PostUnknown (url : string) (attendance_data : AttendanceData)
  | OnAttendanceSavedUnknown.

(** The [catch] and [finally] blocks of [processClassPhoto]. *)
Definition processClassPhoto_catch (s : State) (m : Msg) : State * list Effect :=
  (setProgress 0
     (setProcessing false
        (setCurrentStep Upload
           (setError (Some (or_default m "Failed to process class photo")) s))),
   [Other (ConsoleError "Face recognition error:" m);
    Other (ShowToast
             (mkToast "Recognition Failed"
                [or_default m "Failed to process class photo for face recognition"]
                true))]).

Definition caught (c : Component) (m : Msg) : Component * list Effect :=
  (on_state (fun s => fst (processClassPhoto_catch s m)) c,
   snd (processClassPhoto_catch (state c) m)).

(** [setAttendanceResults(items); setEditedResults([...items])] for an
    array [items]. *)
Definition store_rows (items : list Json) (c : Component) : Component :=
  match rows_of items with
  | Some rows =>
      mkComponent
        (setEditedResults (fun _ => rows) (setAttendanceResults rows (state c)))
        true true
  | None => mkComponent (state c) false false
  end.

(** The branch [if (result.success)] of [processClassPhoto];
    [attendance_results] is the member of that name of the answer and
    [thrown] the message of the [TypeError] of the engine.

    An array is stored in both cells and the step is set; the toast then
    counts the detected elements, which throws on an element that is
    [null].  A string is stored and spread as well, and has no [filter] to
    call.  Nothing else can be spread: [undefined], [null], a boolean, a
    number or an object is stored in [attendanceResults], and the spread
    throws. *)
Definition processClassPhoto_success (c : Component) (result : Json)
    (attendance_results : option Json) (thrown : string)
    : Component * list Effect :=
  match attendance_results with
  | Some (JArr items) =>
      let c1 := on_state (setCurrentStep Review) (store_rows items c) in
      match count_detected items with
      | inl t => caught c1 t
      | inr n =>
          (on_state (fun s => setProgress 0 (setProcessing false s)) c1,
           [Other (ShowToast
              (mkToast "Face Recognition Complete"
                 [Text "Detected ";
                  CountOf n;
                  Text " out of ";
                  match read result "total_students_in_class" with
                  | inr (Some v) => StringOfOr v ""
                  | _ => Text "undefined"
                  end;
                  Text " students"] false))])
      end
  | Some (JStr _) =>
      caught (on_state (setCurrentStep Review) (mkComponent (state c) false false))
             (Text thrown)
  | _ => caught (mkComponent (state c) false (edited_known c)) (Text thrown)
  end.

(** The [try] block of [processClassPhoto] after the request was sent. *)
Definition processClassPhoto_try (c : Component) (r : FetchResult)
    (thrown : string) : Component * list Effect :=
  match r with
  | Rejected message => caught c (Text message)
  | Response false (inl message) =>
      caught (on_state (setProgress 60) c) (Text message)
  | Response false (inr errorData) =>
      match read errorData "detail" with
      | inl t => caught (on_state (setProgress 60) c) t
      | inr detail =>
          caught (on_state (setProgress 60) c)
                 (error_message detail "Face recognition failed")
      end
  | Response true (inl message) =>
      caught (on_state (setProgress 60) c) (Text message)
  | Response true (inr result) =>
      let c1 := on_state (fun s => setProgress 100 (setProgress 60 s)) c in
      match read result "success" with
      | inl t => caught c1 t
      | inr success =>
          if truthy success then
            match read result "attendance_results" with
            | inl t => caught c1 t
            | inr attendance_results =>
                processClassPhoto_success c1 result attendance_results thrown
            end
          else
            match read result "message" with
            | inl t => caught c1 t
            | inr message =>
                caught c1 (error_message message "Face recognition failed")
            end
      end
  end.

(** [processClassPhoto]; [r] is what the awaited request produced and
    [thrown] the message of the [TypeError] the engine raises where the
    rows of the answer cannot be spread or filtered. *)
Definition processClassPhoto (p : Props) (c : Component) (r : FetchResult)
    (thrown : string) : Component * list Effect :=
  match classPhoto (state c) with
  | None =>
      (on_state (setError (Some (Text "Please select a class photo first"))) c,
       [])
  | Some photo =>
      let c0 :=
        on_state
          (fun s =>
             setError None
               (setCurrentStep Processing (setProgress 0 (setProcessing true s))))
          c in
      let attendanceData :=
        mkAttendanceData (classId p) (subject p) (classType p) (date p)
                         (facultyId p) (facultyName p) in
      let (c', effects) :=
        processClassPhoto_try (on_state (setProgress 25) c0) r thrown in
      (c', PostForm (FACE_RECOGNITION_API_URL ++ "/mass-recognition")
                    attendanceData photo :: effects)
  end.

(** The answers with which the [try] block of [processClassPhoto] reaches
    the branch [if (result.success)]: a response with [ok] set whose body
    parses and has a truthy [success].  With any other answer the block
    throws; with these it may still throw, on the rows. *)
Definition recognition_succeeded (r : FetchResult) : bool :=
  match r with
  | Response true (inr result) =>
      match read result "success" with
      | inr success => truthy success
      | inl _ => false
      end
  | _ => false
  end.

(** The rows of an answer that [processClassPhoto] takes to the review
    step at their type: the answer reaches the branch
    [if (result.success)] and its [attendance_results] is an array of
    [Student] values. *)
Definition recognised_rows (r : FetchResult) : option (list Student) :=
  match r with
  | Response true (inr result) =>
      match read result "success", read result "attendance_results" with
      | inr success, inr (Some (JArr items)) =>
          if truthy success then rows_of items else None
      | _, _ => None
      end
  | _ => None
  end.

(** The four numbers of the summary of the review step. *)
Definition has_status (x : Status) (s : Student) : bool :=
  match status s, x with
  | present, present | absent, absent | late, late => true
  | _, _ => false
  end.

Definition presentCount (s : State) : nat :=
  List.length (filter (has_status present) (editedResults s)).
Definition absentCount (s : State) : nat :=
  List.length (filter (has_status absent) (editedResults s)).
Definition lateCount (s : State) : nat :=
  List.length (filter (has_status late) (editedResults s)).
Definition detectedCount (s : State) : nat :=
  List.length (filter detected (editedResults s)).

(** *** Sessions

    What a user can do with the component, with the answer of the service
    where a handler awaits one.  The handlers that read [editedResults]
    are followed while the cell is: otherwise [updateStudentStatus] maps
    over a value that is not followed and leaves the other cells alone, and
    [saveAttendance] sends and hands over that value.  Where rendering such
    a value throws, React unmounts the component and none of its handlers
    runs again: the model then has sessions that the code does not have. *)
Inductive Event : Type :=
  | Drop (files : list File) (url : string)
  | ChooseDifferentPhoto
  | StartFaceRecognition (r : FetchResult) (thrown : string)
  | SetStatus (studentId : string) (newStatus : Status)
  | UploadDifferentPhoto
  | SaveAttendance (r : FetchResult)
  | CloseButton.

(** An effect of [saveAttendance] without the rows it carries. *)
Definition without_rows (e : MassFaceRecognition.Effect) : Effect :=
  match e with
  | Post url attendance_data _ => PostUnknown url attendance_data
  | OnAttendanceSaved _ => OnAttendanceSavedUnknown
  | _ => Other e
  end.

Definition handle (p : Props) (c : Component) (e : Event)
    : Component * list Effect :=
  match e with
  | Drop files url => (on_state (handleDrop files url) c, [])
  | ChooseDifferentPhoto => (on_state chooseDifferentPhoto c, [])
  | StartFaceRecognition r thrown => processClassPhoto p c r thrown
  | SetStatus studentId newStatus =>
      if edited_known c
      then (on_state (updateStudentStatus studentId newStatus) c, [])
      else (c, [])
  | UploadDifferentPhoto => (on_state uploadDifferentPhoto c, [])
  | SaveAttendance r =>
      (on_state (fun s => fst (saveAttendance p s r)) c,
       map (if edited_known c then Other else without_rows)
           (snd (saveAttendance p (state c) r)))
  | CloseButton => (c, map Other (snd (closeButton (state c))))
  end.

(** The component after a sequence of events, and everything they brought
    about, in order. *)
Fixpoint session (p : Props) (c : Component) (events : list Event)
    : Component * list Effect :=
  match events with
  | [] => (c, [])
  | e :: rest =>
      let (c1, effects1) := handle p c e in
      let (c2, effects2) := session p c1 rest in
      (c2, effects1 ++ effects2)
  end.

(** The component as it is mounted: the initial values of its [useState]
    calls. *)
Definition mounted : Component :=
  known (mkState Upload None None false 0 None [] [] false).

(** Two rows that differ in nothing but, possibly, the status. *)
Definition same_student (a b : Student) : Prop :=
  student_id a = student_id b /\
  student_name a = student_name b /\
  confidence a = confidence b /\
  detected a = detected b.

(** The photo the component holds, if any, has passed [validateFile]. *)
Definition photo_accepted (s : State) : Prop :=
  match classPhoto s with
  | Some f => valid (validateFile f) = true
  | None => True
  end.

(** Rows that differ in status only. *)
Definition same_students (l1 l2 : list Student) : Prop :=
  Forall2 same_student l1 l2.


(** The recognition requests among the effects of a handler. *)
Definition posts (effects : list Effect) : list Effect :=
  filter (fun e => match e with PostForm _ _ _ => true | _ => false end) effects.

(** The save requests among the effects of a handler. *)
Definition saves (effects : list Effect) : list Effect :=
  filter (fun e => match e with
                   | Other (Post _ _ _) | PostUnknown _ _ => true
                   | _ => false
                   end) effects.

(** The edits of a review, as the events of a session. *)
Definition edits (l : list (string * Status)) : list Event :=
  map (fun e => SetStatus (fst e) (snd e)) l.

End ClassPhoto.

(** ** The attendance page, continued: the marking sheet

    What the marking tab of src/pages/Attendance.tsx computes from the local
    list and the two buttons above the roster. *)

Module Stats.
(** The object [getAttendanceStats] returns. *)
Record t : Type := mk {
  present : nat;
  absent : nat;
  late : nat;
  total : nat
}.
End Stats.

Module AttendanceSheet.

Import Ascii Db AttendancePage.

(** [a.status === x] *)
Definition status_is (x : Status) (a : AttendanceRecord.t) : bool :=
  match AttendanceRecord.status a, x with
  | present, present | absent, absent | late, late => true
  | _, _ => false
  end.

(** [getAttendanceStatus]: the status of the first local record of the
    student, or the empty text. *)
Definition getAttendanceStatus (pg : Page) (studentId : string) : string :=
  match find (fun a => String.eqb (AttendanceRecord.user_id a) studentId)
             (attendance pg) with
  | Some a => status_text (AttendanceRecord.status a)
  | None => ""
  end.

(** [getAttendanceStats] *)
Definition getAttendanceStats (pg : Page) : Stats.t :=
  match attendance pg with
  | [] => Stats.mk 0 0 0 0
  | _ =>
      Stats.mk (List.length (filter (status_is present) (attendance pg)))
               (List.length (filter (status_is absent) (attendance pg)))
               (List.length (filter (status_is late) (attendance pg)))
               (List.length (attendance pg))
  end.

(** The guard of [markAttendance] and [saveAllAttendance]:
    [selectedSubject && selectedClassType && selectedClass]. *)
Definition ready (pg : Page) : bool :=
  negb (String.eqb (selectedSubject pg) "") &&
  negb (String.eqb (selectedClassType pg) "") &&
  match selectedClass pg with Some _ => true | None => false end.

(** *** [saveAllAttendance]

    The awaited query resolves to [{ data, error }] also when it fails, so
    the [catch] block is not reached.  [loading] and the history are state
    of the page outside [Page]; setting them is an effect here. *)
Inductive SaveEffect : Type :=
  | SetLoading (b : bool)
  | Notify (t : Toast)
  | RefreshHistory.   (* [await fetchAttendanceHistory().then(setAttendanceHistory)]:
                         a read of the 50 latest rows of the faculty member *)

(** The four [.eq] filters of the check of one local record: the student of
    the record with the date and the subject chosen on the page. *)
Definition check_key (pg : Page) (record : AttendanceRecord.t)
    : AttendanceRecord.Key :=
  AttendanceRecord.mkKey (AttendanceRecord.user_id record) (selectedDate pg)
                         (selectedSubject pg) (marked_by_filter pg).

(** The [for] loop over the local records. *)
Fixpoint count_unsaved (pg : Page) (records : list AttendanceRecord.t)
    (unsavedCount : nat) : Program nat :=
  match records with
  | [] => Ret unsavedCount
  | record :: rest =>
      let* r := Select (check_key pg record) in
      count_unsaved pg rest
        (match data r with
         | Some _ => unsavedCount
         | None => S unsavedCount
         end)
  end.

Definition saved_toast (pg : Page) : Toast :=
  mkToast "Attendance Saved Successfully"
    [Text "Total: "; CountOf (List.length (attendance pg));
     Text " students - ";
     CountOf (List.length (filter (status_is present) (attendance pg)));
     Text " present, ";
     CountOf (List.length (filter (status_is absent) (attendance pg)));
     Text " absent, ";
     CountOf (List.length (filter (status_is late) (attendance pg)));
     Text " late."] false.

Definition warning_toast (unsavedCount : nat) : Toast :=
  mkToast "Warning"
    [CountOf unsavedCount;
     Text " attendance records may not be saved properly. Please try marking attendance again."]
    true.

Definition saveAllAttendance (pg : Page) : Program (list SaveEffect) :=
  match selectedSubject pg, selectedClassType pg, selectedClass pg with
  | EmptyString, _, _ | _, EmptyString, _ | _, _, None =>
      Ret [Notify (mkToast "Missing Information"
             [Text "Please select class, subject and class type before saving."]
             true)]
  | _, _, Some _ =>
      match attendance pg with
      | [] =>
          Ret [Notify (mkToast "No Attendance Marked"
                 [Text "Please mark attendance for at least one student before saving."]
                 true)]
      | _ =>
          bind (count_unsaved pg (attendance pg) 0)
            (fun unsavedCount =>
               Ret (SetLoading true ::
                    (if Nat.ltb 0 unsavedCount
                     then [Notify (warning_toast unsavedCount)]
                     else [RefreshHistory; Notify (saved_toast pg)])
                    ++ [SetLoading false]))
      end
  end.

(** The local records that have no row in the table [t] under the key the
    check looks them up by. *)
Definition missing (pg : Page) (t : list AttendanceRecord.t)
    : list AttendanceRecord.t :=
  filter (fun record =>
            negb (has_key AttendanceRecord.key_of AttendanceRecord.key_eqb
                          (check_key pg record) t))
         (attendance pg).

(** *** [markAllPresent]

    The loop awaits [markAttendance] once per student.  All these calls are
    calls of the [markAttendance] of the render in which the button was
    clicked, so each of them reads the state [pg] of that render, whatever
    the calls before it have set; the list the page shows in the end is the
    one the last [setAttendance] stored.  A run of [markAttendance] calls
    [setAttendance] exactly where it goes on to report success. *)
Definition reported_success (effects : list Effect) : bool :=
  existsb (fun e => match e with
                    | ShowToast t => String.eqb (title t) "Success"
                    | _ => false
                    end) effects.

(** [clock i] is the clock reading during the call for the student at
    position [i]; [shown] is the state of the page so far. *)
Fixpoint markAll_loop (pg : Page) (clock : nat -> Time) (i : nat)
    (roster : list Student.t) (shown : Page) (log : list Effect)
    : Program (Page * list Effect) :=
  match roster with
  | [] => Ret (shown, log)
  | student :: rest =>
      bind (markAttendance pg (clock i) (Student.user_id student) present)
        (fun out =>
           markAll_loop pg clock (S i) rest
             (if reported_success (snd out)
              then setAttendance (attendance (fst out)) shown
              else shown)
             (log ++ snd out))
  end.

Definition markAllPresent (pg : Page) (clock : nat -> Time)
    : Program (Page * list Effect) :=
  match selectedClass pg with
  | None =>
      Ret (pg, [ShowToast (mkToast "No Class Selected"
                  [Text "Please select a class first."] true)])
  | Some _ => markAll_loop pg clock 0 (students pg) pg []
  end.

(** *** The class list *)

(** [Array.from(new Set(l))]: the first occurrence of each value, in
    order. *)
Fixpoint distinct (seen : list string) (l : list string) : list string :=
  match l with
  | [] => []
  | x :: rest =>
      if existsb (String.eqb x) seen then distinct seen rest
      else x :: distinct (x :: seen) rest
  end.

(** [getDepartments] *)
Definition getDepartments (classes : list ClassDetail.t) : list string :=
  filter (fun dept => negb (String.eqb dept "") && negb (String.eqb (trim dept) ""))
         (distinct [] (map ClassDetail.department classes)).

(** *** The history tab: one card per date, subject and class type *)

(** [`${record.date}_${record.subject}_${record.class_type}`] *)
Definition group_key (record : AttendanceRecord.t) : string :=
  AttendanceRecord.date record ++ "_" ++ AttendanceRecord.subject record
    ++ "_" ++ AttendanceRecord.class_type record.

(** [key.split('_')] *)
Fixpoint split_on (sep : Ascii.ascii) (s : string) : list string :=
  match s with
  | EmptyString => [EmptyString]
  | String a rest =>
      if Ascii.eqb a sep then EmptyString :: split_on sep rest
      else
        match split_on sep rest with
        | piece :: pieces => String a piece :: pieces
        | [] => [String a EmptyString]
        end
  end.

(** [const [date, subject, classType] = key.split('_')]: the first three
    pieces; a missing one is [undefined]. *)
Definition card_heading (key : string)
    : option string * option string * option string :=
  let pieces := split_on "_"%char key in
  (nth_error pieces 0, nth_error pieces 1, nth_error pieces 2).

(** The property names that the object literal [{}] inherits and that a
    group key, which holds two underscores at least, can be equal to.  Under
    such a key [groups[key]] is not a list of the reducer's own, and
    [groups[key].push] throws. *)
Definition inherited : list string :=
  ["__proto__"; "__defineGetter__"; "__defineSetter__"; "__lookupGetter__";
   "__lookupSetter__"].

(** [if (!groups[key]) groups[key] = []; groups[key].push(record)] on an
    object whose own keys are kept in the order in which they were added. *)
Fixpoint push_to (key : string) (record : AttendanceRecord.t)
    (groups : list (string * list AttendanceRecord.t))
    : list (string * list AttendanceRecord.t) :=
  match groups with
  | [] => [(key, [record])]
  | (k, records) :: rest =>
      if String.eqb k key then (k, records ++ [record]) :: rest
      else (k, records) :: push_to key record rest
  end.

(** [attendanceHistory.reduce(..., {})]; [None] when the reducer throws. *)
Fixpoint group_records (history : list AttendanceRecord.t)
    (groups : list (string * list AttendanceRecord.t))
    : option (list (string * list AttendanceRecord.t)) :=
  match history with
  | [] => Some groups
  | record :: rest =>
      if existsb (String.eqb (group_key record)) inherited then None
      else group_records rest (push_to (group_key record) record groups)
  end.

(** [Object.entries] of the groups: a group key is no array index, so the
    entries come in the order in which the keys were added. *)
Definition history_cards (history : list AttendanceRecord.t)
    : option (list (string * list AttendanceRecord.t)) :=
  group_records history [].

(** *** The review component as the page renders it *)

(** The props of [<MassFaceRecognitionComponent>]; [None] while the
    component is not rendered. *)
Definition componentProps (pg : Page) : option MassFaceRecognition.Props :=
  if modal_shown pg then
    match selectedClass pg with
    | Some c =>
        Some (MassFaceRecognition.mkProps
                (ClassDetail.class_id c) (ClassDetail.class_name c)
                (selectedSubject pg) (selectedClassType pg) (selectedDate pg)
                (marked_by_value pg) (faculty_name_value pg))
    | None => None
    end
  else None.

End AttendanceSheet.

(** ** Face training of one student

    FaceTrainingStatus.tsx, the card that shows whether a student's face is
    trained, and FaceUploadComponent.tsx, the upload form it opens. *)

Module FaceTrainingStatus.

Import MassFaceRecognition.

(** The [trainingStatus] object.  [trained], [training_date] and
    [embedding_available] are copied from the answer of the service as they
    come ([None] is [undefined]). *)
Record TrainingStatus : Type := mkStatus {
  trained : option Json;
  loading : bool;
  error : option string;
  training_date : option Json;
  embedding_available : option Json
}.

(** The initial value of [useState]. *)
Definition initial : TrainingStatus :=
  mkStatus (Some (JBool false)) false None None None.

Inductive Effect : Type :=
  | Get (url : string)
  | Delete (url : string)
  | ShowToast (t : Toast)
  | ConsoleError (label : string) (m : Msg).

(** [j.k] where the read cannot throw any more. *)
Definition member (j : Json) (k : string) : option Json :=
  match read j k with
  | inr v => v
  | inl _ => None
  end.

(** [checkTrainingStatus]; [r] is what the awaited request produced. *)
Definition checkTrainingStatus (studentId : string) (prev : TrainingStatus)
    (r : FetchResult) : TrainingStatus * list Effect :=
  let url := (FACE_RECOGNITION_API_URL ++ "/students/" ++ studentId
              ++ "/face-training-status")%string in
  let s0 := mkStatus (trained prev) true None (training_date prev)
                     (embedding_available prev) in
  let unavailable (m : Msg) :=
    (mkStatus (trained s0) false (Some "Face recognition service unavailable")
              (training_date s0) (embedding_available s0),
     [Get url; ConsoleError "Error checking training status:" m]) in
  match r with
  | Rejected message => unavailable (Text message)
  | Response true (inl message) => unavailable (Text message)
  | Response true (inr data) =>
      match read data "trained" with
      | inl thrown => unavailable thrown
      | inr t =>
          (mkStatus t false None (member data "training_date")
                    (member data "embedding_available"),
           [Get url])
      end
  | Response false _ =>
      (mkStatus (trained s0) false (Some "Unable to check training status")
                (training_date s0) (embedding_available s0),
       [Get url])
  end.

(** The one case in which [checkTrainingStatus] stores an answer. *)
Definition check_answered (r : FetchResult) : bool :=
  match r with
  | Response true (inr data) =>
      match read data "trained" with inr _ => true | inl _ => false end
  | _ => false
  end.

(** [deleteTrainingData]; [confirmed] is the answer to the [confirm]
    dialog, [del] what the DELETE request produced and [refresh] what the
    request of the following [checkTrainingStatus] produced. *)
Definition deleteTrainingData (studentId : string) (prev : TrainingStatus)
    (confirmed : bool) (del refresh : FetchResult) : TrainingStatus * list Effect :=
  let url := (FACE_RECOGNITION_API_URL ++ "/students/" ++ studentId
              ++ "/face-data")%string in
  let failed (m : Msg) :=
    (prev,
     [Delete url;
      ConsoleError "Error deleting training data:" m;
      ShowToast (mkToast "Delete Failed"
                   [Text "Failed to delete face training data."] true)]) in
  if negb confirmed then (prev, [])
  else
    match del with
    | Rejected message => failed (Text message)
    | Response false _ => failed (Text "Failed to delete training data")
    | Response true _ =>
        let (s, effects) := checkTrainingStatus studentId prev refresh in
        (s,
         Delete url ::
         ShowToast (mkToast "Training Data Deleted"
                      [Text "Face recognition training data has been removed."]
                      false) :: effects)
    end.

(** The badge of the card. *)
Inductive Badge : Type := Checking | Trained | NotTrained.

Definition badge (s : TrainingStatus) : Badge :=
  if loading s then Checking
  else if truthy (trained s) then Trained else NotTrained.

Definition deletes (effects : list Effect) : list Effect :=
  filter (fun e => match e with Delete _ => true | _ => false end) effects.

Definition gets (effects : list Effect) : list Effect :=
  filter (fun e => match e with Get _ => true | _ => false end) effects.

(** [response.ok] of an answer to the DELETE request. *)
Definition delete_ok (del : FetchResult) : bool :=
  match del with
  | Response true _ => true
  | _ => false
  end.

End FaceTrainingStatus.

Module FaceUpload.

Import MassFaceRecognition.

Definition MAX_IMAGES : nat := 5.
Definition MAX_FILE_SIZE : nat := 10 * 1024 * 1024.
Definition ACCEPTED_TYPES : list string :=
  ["image/jpeg"; "image/jpg"; "image/png"].

(** [status: 'pending' | 'valid' | 'invalid'] *)
Inductive ImageStatus : Type := pending | valid | invalid.

(** [interface UploadedImage].  The id [`${Date.now()}-${i}`] is kept as
    the pair of its two numbers. *)
Record UploadedImage : Type := mkImage {
  id : Time * nat;
  file : File;
  preview : string;
  status : ImageStatus;
  error : option string
}.

(** [FaceUploadProps]; of the two optional callbacks only whether they
    were passed. *)
Record Props : Type := mkProps {
  studentId : string;
  studentName : string;
  department : option string;
  onTrainingComplete : bool;
  onClose : bool
}.

Record State : Type := mkState {
  images : list UploadedImage;
  uploading : bool;
  uploadProgress : nat;
  s_error : option Msg;
  success : bool
}.

(** [studentData] *)
Record StudentData : Type := mkStudentData {
  name : string;
  student_id : string;
  sd_department : string;
  role : string
}.

Inductive Effect : Type :=
  | PostForm (url : string) (student_data : StudentData) (imgs : list File)
  | ShowToast (t : Toast)
  | ConsoleError (label : string) (m : Msg)
  | Revoke (url : string)
  | OnTrainingComplete.

(** [validateFile]: the error text, or [None] for a valid file. *)
Definition validateFile (f : File) : option string :=
  if negb (existsb (String.eqb (file_type f)) ACCEPTED_TYPES) then
    Some "Only JPEG and PNG images are allowed"
  else if Nat.ltb MAX_FILE_SIZE (file_size f) then
    Some "File size must be less than 10MB"
  else None.

(** The [for] loop of [handleFileSelect]: [held] is [images.length],
    [clock i] the reading of [Date.now()] in round [i] and [url i] the
    object URL made for the file of that round. *)
Fixpoint select_loop (held : nat) (clock : nat -> Time) (url : nat -> string)
    (i : nat) (files : list File) (newImages : list UploadedImage)
    : list UploadedImage :=
  match files with
  | [] => newImages
  | f :: rest =>
      if Nat.ltb (held + List.length newImages) MAX_IMAGES then
        let validation := validateFile f in
        select_loop held clock url (S i) rest
          (newImages ++
             [mkImage (clock i, i) f (url i)
                      (match validation with None => valid | Some _ => invalid end)
                      validation])
      else newImages
  end.

(** [handleFileSelect]: the handler reads [images.length] of the render it
    belongs to, which is the list the update is applied to. *)
Definition handleFileSelect (clock : nat -> Time) (url : nat -> string)
    (files : list File) (s : State) : State * list Effect :=
  let newImages :=
    select_loop (List.length (images s)) clock url 0 files [] in
  (mkState (images s ++ newImages) (uploading s) (uploadProgress s) None
           (success s),
   if Nat.ltb MAX_IMAGES (List.length files + List.length (images s))
   then [ShowToast (mkToast "Too many files"
                      [Text "Maximum "; CountOf MAX_IMAGES;
                       Text " images allowed. Some files were not added."] true)]
   else []).

(** [handleDrop] *)
Definition handleDrop (clock : nat -> Time) (url : nat -> string)
    (files : list File) (s : State) : State * list Effect :=
  match files with
  | [] => (s, [])
  | _ => handleFileSelect clock url files s
  end.

Definition id_eqb (a b : Time * nat) : bool :=
  Nat.eqb (fst a) (fst b) && Nat.eqb (snd a) (snd b).

(** [removeImage] *)
Definition removeImage (i : Time * nat) (s : State) : State * list Effect :=
  (mkState (filter (fun img => negb (id_eqb (id img) i)) (images s))
           (uploading s) (uploadProgress s) (s_error s) (success s),
   match find (fun img => id_eqb (id img) i) (images s) with
   | Some imageToRemove => [Revoke (preview imageToRemove)]
   | None => []
   end).

(** The button [Clear All]. *)
Definition clearAll (s : State) : State * list Effect :=
  (mkState [] (uploading s) (uploadProgress s) None (success s),
   map (fun img => Revoke (preview img)) (images s)).

(** The button [Train More Images]. *)
Definition trainMore (s : State) : State * list Effect :=
  (mkState (images s) (uploading s) (uploadProgress s) None false, []).

Definition is_valid (img : UploadedImage) : bool :=
  match status img with valid => true | _ => false end.

(** The [catch] and [finally] blocks of [handleUpload]. *)
Definition handleUpload_catch (s : State) (m : Msg) : State * list Effect :=
  (mkState (images s) false 0 (Some (or_default m "Failed to upload images"))
           (success s),
   [ConsoleError "Upload error:" m;
    ShowToast (mkToast "Upload Failed"
                 [or_default m "Failed to upload images for face recognition"]
                 true)]).

(** The [try] block of [handleUpload] after the request was sent.  The
    values [uploadProgress] takes on the way are overwritten by the
    [finally] block. *)
Definition handleUpload_try (p : Props) (s : State) (r : FetchResult)
    : State * list Effect :=
  match r with
  | Rejected message => handleUpload_catch s (Text message)
  | Response false (inl message) => handleUpload_catch s (Text message)
  | Response false (inr errorData) =>
      match read errorData "detail" with
      | inl thrown => handleUpload_catch s thrown
      | inr detail => handleUpload_catch s (error_message detail "Upload failed")
      end
  | Response true (inl message) => handleUpload_catch s (Text message)
  | Response true (inr result) =>
      match read result "success" with
      | inl thrown => handleUpload_catch s thrown
      | inr ok =>
          if truthy ok then
            (mkState [] false 0 (s_error s) true,
             [ShowToast
                (mkToast "Face Training Successful"
                   [Text ("Successfully trained face recognition for "
                          ++ studentName p ++ ". ");
                    match read result "images_processed" with
                    | inr (Some v) => StringOfOr v ""
                    | _ => Text "undefined"
                    end;
                    Text " images processed."] false)]
             ++ map (fun img => Revoke (preview img)) (images s)
             ++ (if onTrainingComplete p then [OnTrainingComplete] else []))
          else
            match read result "message" with
            | inl thrown => handleUpload_catch s thrown
            | inr message =>
                handleUpload_catch s (error_message message "Training failed")
            end
      end
  end.

(** [handleUpload]; [r] is what the awaited request produced. *)
Definition handleUpload (p : Props) (s : State) (r : FetchResult)
    : State * list Effect :=
  let validImages := filter is_valid (images s) in
  match validImages with
  | [] =>
      (mkState (images s) (uploading s) (uploadProgress s)
               (Some (Text "Please add at least one valid image")) (success s),
       [])
  | [_] =>
      (mkState (images s) (uploading s) (uploadProgress s)
               (Some (Text "Please add at least 2 images for better accuracy"))
               (success s),
       [])
  | _ =>
      let s0 := mkState (images s) true 0 None (success s) in
      let studentData :=
        mkStudentData (studentName p) (studentId p)
                      (str_or (match department p with Some d => d | None => "" end)
                              "Unknown")
                      "student" in
      let (s', effects) := handleUpload_try p s0 r in
      (s', PostForm (FACE_RECOGNITION_API_URL ++ "/train-student") studentData
                    (map file validImages) :: effects)
  end.

(** *** Sessions

    What a user can do with the form, each handler run from the click to the
    end of its last [await].  (While an upload is pending the form still
    takes files; a session does not interleave them with the upload.) *)

Inductive Event : Type :=
  | Select (clock : nat -> Time) (url : nat -> string) (files : list File)
  | Drop (clock : nat -> Time) (url : nat -> string) (files : list File)
  | Remove (i : Time * nat)
  | ClearAll
  | TrainMore
  | Upload (r : FetchResult).

Definition handle (p : Props) (s : State) (e : Event) : State * list Effect :=
  match e with
  | Select clock url files => handleFileSelect clock url files s
  | Drop clock url files => handleDrop clock url files s
  | Remove i => removeImage i s
  | ClearAll => clearAll s
  | TrainMore => trainMore s
  | Upload r => handleUpload p s r
  end.

Fixpoint session (p : Props) (s : State) (events : list Event)
    : State * list Effect :=
  match events with
  | [] => (s, [])
  | e :: rest =>
      let (s1, effects1) := handle p s e in
      let (s2, effects2) := session p s1 rest in
      (s2, effects1 ++ effects2)
  end.

(** The form as it is mounted. *)
Definition mounted : State := mkState [] false 0 None false.

(** A file passes [validateFile]. *)
Definition accepted (f : File) : Prop :=
  In (file_type f) ACCEPTED_TYPES /\ file_size f <= MAX_FILE_SIZE.

(** The form holds at most [MAX_IMAGES] images, and those it marks valid
    have passed [validateFile]. *)
Definition well_formed (s : State) : Prop :=
  List.length (images s) <= MAX_IMAGES /\
  Forall (fun img => is_valid img = true -> accepted (file img)) (images s).

End FaceUpload.

(** ** Sample data for the photo, the sheet and the training form *)

Module MoreSamples.

Import Samples.

(** A class photo and the component after it was chosen. *)
Definition photo0 : MassFaceRecognition.File :=
  MassFaceRecognition.mkFile "image/png" 1000.

Definition chosen0 : MassFaceRecognition.State :=
  MassFaceRecognition.mkState MassFaceRecognition.Upload (Some photo0)
    (Some "blob:1") false 0 None [] [] false.

(** Answers of the recognition service. *)
Definition service_down : MassFaceRecognition.FetchResult :=
  MassFaceRecognition.Rejected "Failed to fetch".

(** The rows [row_A], [row_B] and [row_C] as the service sends them. *)
Definition json_row (id name : string) (confidence : Json) (status : string)
    (detected : bool) : Json :=
  JObj [("student_id", JStr id); ("student_name", JStr name);
        ("confidence", confidence); ("status", JStr status);
        ("detected", JBool detected)].

Definition recognised : MassFaceRecognition.FetchResult :=
  MassFaceRecognition.Response true
    (inr (JObj [("success", JBool true);
                ("attendance_results",
                 JArr [json_row "A" "Asha" (JNum 0.9%Q) "present" true;
                       json_row "B" "Bhavin" (JNum 0%Q) "absent" false;
                       json_row "C" "Chirag" JNull "absent" false]);
                ("total_students_in_class", JNum 3%Q)])).

(** An answer that reports a success and has no rows, and one whose rows
    hold a [null]. *)
Definition success_without_rows : MassFaceRecognition.FetchResult :=
  MassFaceRecognition.Response true
    (inr (JObj [("success", JBool true);
                ("total_students_in_class", JNum 3%Q)])).

Definition success_with_null_row : MassFaceRecognition.FetchResult :=
  MassFaceRecognition.Response true
    (inr (JObj [("success", JBool true);
                ("attendance_results",
                 JArr [json_row "A" "Asha" (JNum 0.9%Q) "present" true; JNull]);
                ("total_students_in_class", JNum 2%Q)])).

Definition saved : MassFaceRecognition.FetchResult :=
  MassFaceRecognition.Response true
    (inr (JObj [("success", JBool true); ("saved_records", JNum 3%Q)])).

(** The wording of a [TypeError]. *)
Definition type_error : string := "result.attendance_results is not iterable".

(** A photo is dropped and the recognition is started while the service is
    down. *)
Definition drop_and_start : list ClassPhoto.Event :=
  [ClassPhoto.Drop [photo0] "blob:1";
   ClassPhoto.StartFaceRecognition service_down type_error].


(** A second student and a class of two, nothing marked yet. *)
Definition student1 : Student.t :=
  Student.mk 2 "B" "Bhavin" "Mehta" "bhavin@example.org" "0000000002" "24DIT002"
             "2005-02-02" "Anand" "0000000003" "BTech" "CE-5A" "" "DEPSTAR" 5
             "2024-25".

Definition page2 : AttendancePage.Page :=
  AttendancePage.mkPage [student0; student1] (Some class0) [] "2025-01-15"
                        "Data Structures" "Theory" "mark" false (Some faculty0).

(** The sheet of one student for whom a record of an earlier date is still
    in the local list. *)
Definition earlier_row : AttendanceRecord.t :=
  AttendanceRecord.mk (Some "r0") "A" "Asha Patel" (Some "24DIT001")
    (Some "Computer") "2025-01-14" "Data Structures" "Theory" absent "F001"
    (Some "Harsh Shah") "CE-5A" (Some 1) (Some 1) None None.

Definition page3 : AttendancePage.Page :=
  AttendancePage.mkPage [student0] (Some class0) [earlier_row] "2025-01-15"
                        "Data Structures" "Theory" "mark" false (Some faculty0).

(** The sheet of [page0] without user data. *)
Definition page4 : AttendancePage.Page :=
  AttendancePage.mkPage [student0] (Some class0) [] "2025-01-15"
                        "Data Structures" "Theory" "mark" false None.

(** A record whose subject contains an underscore. *)
Definition underscored_row : AttendanceRecord.t :=
  AttendanceRecord.mk (Some "r2") "A" "Asha Patel" (Some "24DIT001")
    (Some "Computer") "2025-01-15" "Data_Structures" "Theory" present "F001"
    (Some "Harsh Shah") "CE-5A" (Some 1) (Some 1) None None.

(** A record whose group key is [__proto__]. *)
Definition odd_row : AttendanceRecord.t :=
  AttendanceRecord.mk (Some "r3") "A" "Asha Patel" (Some "24DIT001")
    (Some "Computer") "" "" "proto__" present "F001"
    (Some "Harsh Shah") "CE-5A" (Some 1) (Some 1) None None.

(** A class of a department, and two blanks that are not ASCII: the
    no-break space U+00A0 and the ideographic space U+3000. *)
Definition class_of (department : string) : ClassDetail.t :=
  ClassDetail.mk 1 "CE 5A" "CE-5A" department "DEPSTAR" 5 "2024-25" "BTech" None.

Definition no_break_space : string := string_of_bytes [194; 160].

Definition ideographic_space : string := string_of_bytes [227; 128; 128].

(** The props the page [page0] renders the review component with. *)
Definition page0_props : MassFaceRecognition.Props :=
  MassFaceRecognition.mkProps "CE-5A" "CE 5A" "Data Structures" "Theory"
                              "2025-01-15" "F001" "Harsh Shah".

(** A card that shows a trained student. *)
Definition trained0 : FaceTrainingStatus.TrainingStatus :=
  FaceTrainingStatus.mkStatus (Some (JBool true)) false None
    (Some (JStr "2025-01-10")) (Some (JBool true)).

(** Files for the training form. *)
Definition portrait (size : nat) : MassFaceRecognition.File :=
  MassFaceRecognition.mkFile "image/jpeg" size.

Definition animation : MassFaceRecognition.File :=
  MassFaceRecognition.mkFile "image/gif" 500.

Definition upload_props : FaceUpload.Props :=
  FaceUpload.mkProps "A" "Asha Patel" None true true.

Definition select_and_upload : list FaceUpload.Event :=
  [FaceUpload.Select (fun _ => 7) (fun _ => "blob:2")
     [portrait 1000; animation; portrait 2000];
   FaceUpload.Upload service_down].

End MoreSamples.
(* ================================================================== *)
(** * Properties *)
(* ================================================================== *)

(** ** Reconciliation *)

Module ReconcileFacts.

Import Reconcile.

Lemma reconcile_nonempty (R : list Student) (D : list Detection) (t : Q) :
R <> [] -> reconcile R D t = inr (map (decide_student t D) R).
Proof. destruct R; [congruence | reflexivity]. Qed.

Lemma decide_student_id (t : Q) (D : list Detection) (s : Student) :
student (decide_student t D s) = sid s.
Proof.
unfold decide_student.
destruct (best_detection (sid s) t D 0 None) as [[c i]|]; reflexivity.
Qed.

Lemma decisions_ids (t : Q) (D : list Detection) (R : list Student) :
map student (map (decide_student t D) R) = map sid R.
Proof.
rewrite map_map. apply map_ext. intros s. apply decide_student_id.
Qed.

Lemma filter_id_once (s : string) (ds : list AttendanceDecision) :
NoDup (map student ds) -> In s (map student ds) ->
List.length (decisions_of s ds) = 1.
Proof.
unfold decisions_of.
induction ds as [|d ds IH]; simpl; intros Hnd Hin; [contradiction|].
inversion Hnd as [|x xs Hnotin Hnd']; subst.
destruct (String.eqb_spec (student d) s) as [Heq|Hne].
- simpl. f_equal. subst s.
  clear IH Hin Hnd Hnd'. induction ds as [|e ds IH]; simpl; [reflexivity|].
  destruct (String.eqb_spec (student e) (student d)) as [E|E].
  + exfalso. apply Hnotin. simpl. left. exact E.
  + apply IH. intros H. apply Hnotin. simpl. right. exact H.
- destruct Hin as [Hin|Hin]; [congruence|]. apply IH; assumption.
Qed.

(** C1 — coverage: for a non-empty roster, [reconcile] succeeds with one
  decision per roster entry, in roster order, whatever the detections and
  the threshold are; with the roster's identifiers distinct, no student has
  two decisions and every student has exactly one. *)
Theorem reconcile_coverage (R : list Student) (D : list Detection) (t : Q) :
R <> [] ->
exists ds,
  reconcile R D t = inr ds /\
  List.length ds = List.length R /\
  map student ds = map sid R /\
  (NoDup (map sid R) ->
     NoDup (map student ds) /\
     forall s, In s R -> List.length (decisions_of (sid s) ds) = 1).
Proof.
intros Hne. exists (map (decide_student t D) R).
split; [apply reconcile_nonempty; exact Hne|].
split; [apply List.length_map|].
split; [apply decisions_ids|].
intros Hnd. rewrite decisions_ids. split; [exact Hnd|].
intros s Hs. apply filter_id_once.
- rewrite decisions_ids. exact Hnd.
- rewrite decisions_ids. apply in_map. exact Hs.
Qed.

(** *** The scan for the best detection *)

Lemma qualifies_spec (s : string) (t : Q) (d : Detection) (c : Q) :
qualifies s t d = Some c <-> matched d = Some (s, c) /\ (t <= c)%Q.
Proof.
unfold qualifies. destruct (matched d) as [[who c']|].
- destruct (String.eqb_spec who s) as [E|E]; simpl.
  + destruct (Qle_bool t c') eqn:Hle.
    * apply Qle_bool_iff in Hle. split.
      -- intros H. inversion H; subst. split; [reflexivity | exact Hle].
      -- intros [H _]. inversion H; subst. reflexivity.
    * split; [discriminate|]. intros [H Hle']. inversion H; subst.
      apply Qle_bool_iff in Hle'. congruence.
  + split; [discriminate|]. intros [H _]. inversion H; subst. congruence.
- split; [discriminate|]. intros [H _]. discriminate.
Qed.

Lemma best_detection_none (s : string) (t : Q) (ds : list Detection) :
forall i best,
  best_detection s t ds i best = None <->
  best = None /\ forall d, In d ds -> qualifies s t d = None.
Proof.
induction ds as [|d rest IH]; intros i best; simpl.
- split; [intros H; split; [exact H | intros d []] | intros [H _]; exact H].
- rewrite IH. split.
  + intros [Hb Hrest]. destruct (qualifies s t d) as [c|] eqn:Hq.
    * destruct best as [[c0 j0]|]; [|discriminate].
      destruct (Qle_bool c c0); discriminate.
    * split; [exact Hb|]. intros d' [<-|Hin]; [exact Hq | apply Hrest, Hin].
  + intros [Hb Hall]. subst best.
    rewrite (Hall d (or_introl eq_refl)).
    split; [reflexivity|]. intros d' Hin. apply Hall. right. exact Hin.
Qed.

Lemma best_detection_some (s : string) (t : Q) (ds : list Detection) :
forall i best c j,
  best_detection s t ds i best = Some (c, j) ->
  (best = Some (c, j) \/
   exists d, i <= j /\ nth_error ds (j - i) = Some d /\ qualifies s t d = Some c)
  /\ (forall c0 j0, best = Some (c0, j0) -> (c0 <= c)%Q)
  /\ (forall d c', In d ds -> qualifies s t d = Some c' -> (c' <= c)%Q).
Proof.
induction ds as [|d rest IH]; intros i best c j H; simpl in H.
- subst best. split; [left; reflexivity|]. split.
  + intros c0 j0 E. inversion E; subst. apply Qle_refl.
  + intros d c' [].
- apply IH in H. destruct H as (Hwhere & Hacc & Hrest).
  assert (Hshift : forall d', S i <= j -> nth_error rest (j - S i) = Some d' ->
                               nth_error (d :: rest) (j - i) = Some d').
  { intros d' Hle Hn. replace (j - i) with (S (j - S i)) by lia. exact Hn. }
  destruct (qualifies s t d) as [cd|] eqn:Hq.
  + destruct best as [[c0 j0]|].
    * destruct (Qle_bool cd c0) eqn:Hle.
      -- apply Qle_bool_iff in Hle. split; [|split].
         ++ destruct Hwhere as [E|(d' & Hij & Hn & Hq')]; [left; exact E|].
            right. exists d'. split; [lia|]. split; [apply Hshift; assumption | exact Hq'].
         ++ exact Hacc.
         ++ intros d' c' [<-|Hin] Hq'.
            ** rewrite Hq in Hq'. inversion Hq'; subst.
               eapply Qle_trans; [exact Hle | eapply Hacc; reflexivity].
            ** eapply Hrest; eassumption.
      -- assert (Hlt : (c0 < cd)%Q).
         { apply Qnot_le_lt. intros Hc. apply Qle_bool_iff in Hc. congruence. }
         split; [|split].
         ++ right. destruct Hwhere as [E|(d' & Hij & Hn & Hq')].
            ** inversion E; subst. exists d. split; [lia|].
               rewrite Nat.sub_diag. split; [reflexivity | exact Hq].
            ** exists d'. split; [lia|]. split; [apply Hshift; assumption | exact Hq'].
         ++ intros c1 j1 E. inversion E; subst.
            eapply Qle_trans; [apply Qlt_le_weak; exact Hlt | eapply Hacc; reflexivity].
         ++ intros d' c' [<-|Hin] Hq'.
            ** rewrite Hq in Hq'. inversion Hq'; subst. eapply Hacc; reflexivity.
            ** eapply Hrest; eassumption.
    * split; [|split].
      -- right. destruct Hwhere as [E|(d' & Hij & Hn & Hq')].
         ++ inversion E; subst. exists d. split; [lia|].
            rewrite Nat.sub_diag. split; [reflexivity | exact Hq].
         ++ exists d'. split; [lia|]. split; [apply Hshift; assumption | exact Hq'].
      -- intros c0 j0 E. discriminate.
      -- intros d' c' [<-|Hin] Hq'.
         ++ rewrite Hq in Hq'. inversion Hq'; subst. eapply Hacc; reflexivity.
         ++ eapply Hrest; eassumption.
  + split; [|split].
    * destruct Hwhere as [E|(d' & Hij & Hn & Hq')]; [left; exact E|].
      right. exists d'. split; [lia|]. split; [apply Hshift; assumption | exact Hq'].
    * exact Hacc.
    * intros d' c' [<-|Hin] Hq'; [congruence | eapply Hrest; eassumption].
Qed.

Lemma reconcile_decisions (R : list Student) (D : list Detection) (t : Q)
  (ds : list AttendanceDecision) (dec : AttendanceDecision) :
reconcile R D t = inr ds -> In dec ds ->
exists s, In s R /\ dec = decide_student t D s.
Proof.
destruct R as [|s0 R']; simpl; [discriminate|].
intros H Hin. inversion H; subst ds. clear H.
change (In dec (map (decide_student t D) (s0 :: R'))) in Hin.
apply in_map_iff in Hin. destruct Hin as (s & E & Hs).
exists s. split; [exact Hs | symmetry; exact E].
Qed.

(** A student with a qualifying detection is present, with the confidence
  and the index of a most confident detection matched to that student. *)
Lemma decide_student_present (t : Q) (D : list Detection) (s : Student) :
(exists d c, In d D /\ matched d = Some (sid s, c) /\ (t <= c)%Q) ->
exists cmax i dmax,
  decide_student t D s = mkDecision (sid s) present auto_detected (Some cmax) (Some i) /\
  nth_error D i = Some dmax /\
  matched dmax = Some (sid s, cmax) /\
  (t <= cmax)%Q /\
  forall d c, In d D -> matched d = Some (sid s, c) -> (c <= cmax)%Q.
Proof.
intros (d & c & Hin & Hm & Hle). unfold decide_student.
destruct (best_detection (sid s) t D 0 None) as [[cmax i]|] eqn:Hb.
- apply best_detection_some in Hb. destruct Hb as (Hwhere & _ & Hmax).
  destruct Hwhere as [E|(dmax & _ & Hn & Hq)]; [discriminate|].
  rewrite Nat.sub_0_r in Hn. apply qualifies_spec in Hq. destruct Hq as [Hm' Hle'].
  exists cmax, i, dmax. repeat split; try assumption.
  intros d' c' Hin' Hm''.
  destruct (Qle_bool t c') eqn:Hq'.
  + apply (Hmax d' c' Hin'). apply qualifies_spec. split; [exact Hm''|].
    apply Qle_bool_iff. exact Hq'.
  + assert (Hlt : (c' < t)%Q).
    { apply Qnot_le_lt. intros Hc. apply Qle_bool_iff in Hc. congruence. }
    eapply Qle_trans; [apply Qlt_le_weak; exact Hlt | exact Hle'].
- apply best_detection_none in Hb. destruct Hb as [_ Hall].
  specialize (Hall d Hin).
  assert (Hq : qualifies (sid s) t d = Some c) by (apply qualifies_spec; split; assumption).
  congruence.
Qed.

(** A student none of whose detections reaches the threshold is absent. *)
Lemma decide_student_absent (t : Q) (D : list Detection) (s : Student) :
(forall d c, In d D -> matched d = Some (sid s, c) -> (c < t)%Q) ->
decide_student t D s = mkDecision (sid s) absent auto_detected None None.
Proof.
intros Hall. unfold decide_student.
destruct (best_detection (sid s) t D 0 None) as [[cmax i]|] eqn:Hb; [|reflexivity].
exfalso. apply best_detection_some in Hb. destruct Hb as (Hwhere & _ & _).
destruct Hwhere as [E|(dmax & _ & Hn & Hq)]; [discriminate|].
apply qualifies_spec in Hq. destruct Hq as [Hm Hle].
apply nth_error_In in Hn. specialize (Hall dmax cmax Hn Hm).
apply (Qlt_not_le _ _ Hall). exact Hle.
Qed.

(** C4 — threshold boundary: in the result of [reconcile], a student with a
  detection whose confidence equals the threshold is present (the test is
  [>=]); a student all of whose detections are strictly below the threshold
  is absent, with no confidence and no linked detection. *)
Theorem threshold_boundary (R : list Student) (D : list Detection) (t : Q)
  (ds : list AttendanceDecision) (dec : AttendanceDecision) :
reconcile R D t = inr ds -> In dec ds ->
((exists d c, In d D /\ matched d = Some (student dec, c) /\ (c == t)%Q) ->
   status dec = present /\ source dec = auto_detected /\
   exists c', confidence dec = Some c' /\ (t <= c')%Q)
/\
((forall d c, In d D -> matched d = Some (student dec, c) -> (c < t)%Q) ->
   status dec = absent /\ confidence dec = None /\ linkage dec = None).
Proof.
intros Hrec Hin.
destruct (reconcile_decisions R D t ds dec Hrec Hin) as (s & _ & ->).
rewrite decide_student_id. split.
- intros (d & c & Hd & Hm & Heq).
  destruct (decide_student_present t D s) as (cmax & i & dmax & E & _ & _ & Hle & _).
  { exists d, c. repeat split; try assumption. rewrite Heq. apply Qle_refl. }
  rewrite E. simpl. repeat split. exists cmax. split; [reflexivity | exact Hle].
- intros Hall. rewrite (decide_student_absent t D s Hall). simpl. repeat split.
Qed.

(** C5 — duplicate-match resolution: when detections matched to a roster
  student clear the threshold, the student's decision is present, carries
  the greatest confidence among all detections matched to that student and
  is linked to a detection that has this confidence. *)
Theorem duplicate_match_resolution (R : list Student) (D : list Detection) (t : Q)
  (ds : list AttendanceDecision) (dec : AttendanceDecision) :
reconcile R D t = inr ds -> In dec ds ->
(exists d c, In d D /\ matched d = Some (student dec, c) /\ (t <= c)%Q) ->
exists cmax i dmax,
  status dec = present /\
  confidence dec = Some cmax /\
  linkage dec = Some i /\
  nth_error D i = Some dmax /\
  matched dmax = Some (student dec, cmax) /\
  forall d c, In d D -> matched d = Some (student dec, c) -> (c <= cmax)%Q.
Proof.
intros Hrec Hin.
destruct (reconcile_decisions R D t ds dec Hrec Hin) as (s & _ & ->).
rewrite decide_student_id. intros Hex.
destruct (decide_student_present t D s Hex) as (cmax & i & dmax & E & Hn & Hm & _ & Hmax).
exists cmax, i, dmax. rewrite E. simpl. repeat split; assumption.
Qed.

End ReconcileFacts.

(** ** The review component *)

Module ComponentFacts.

Import MassFaceRecognition.

Lemma updated_row (studentId : string) (newStatus : Status) (l : list Student)
    (i : nat) :
  nth_error
    (map (fun student =>
            if String.eqb (student_id student) studentId
            then with_status newStatus student else student) l) i
  = option_map
      (fun student =>
         if String.eqb (student_id student) studentId
         then with_status newStatus student else student)
      (nth_error l i).
Proof. apply nth_error_map. Qed.

(** C6 — a manual edit keeps the step and every other piece of state, keeps
    the list of students and their order, leaves the rows of other students
    as they are and replaces only the status of the rows of [studentId]. *)
Theorem updateStudentStatus_frame (studentId : string) (newStatus : Status)
    (s : State) :
  let s' := updateStudentStatus studentId newStatus s in
  currentStep s' = currentStep s /\
  attendanceResults s' = attendanceResults s /\
  error s' = error s /\
  saving s' = saving s /\
  List.length (editedResults s') = List.length (editedResults s) /\
  map student_id (editedResults s') = map student_id (editedResults s) /\
  (forall i student,
      nth_error (editedResults s) i = Some student ->
      student_id student <> studentId ->
      nth_error (editedResults s') i = Some student) /\
  (forall i student,
      nth_error (editedResults s) i = Some student ->
      student_id student = studentId ->
      nth_error (editedResults s') i =
        Some (mkStudent (student_id student) (student_name student)
                        (confidence student) newStatus (detected student))).
Proof.
  cbn zeta. unfold updateStudentStatus, setEditedResults. simpl.
  repeat split.
  - apply List.length_map.
  - rewrite map_map. apply map_ext. intros a.
    destruct (String.eqb (student_id a) studentId); reflexivity.
  - intros i student Hi Hne. rewrite updated_row, Hi. simpl.
    destruct (String.eqb_spec (student_id student) studentId); [contradiction | reflexivity].
  - intros i student Hi He. rewrite updated_row, Hi. simpl.
    destruct (String.eqb_spec (student_id student) studentId); [reflexivity | contradiction].
Qed.

Lemma saveAttendance_catch_state (s : State) (m : Msg) :
  let s' := fst (saveAttendance_catch s m) in
  currentStep s' = Review /\
  editedResults s' = editedResults s /\
  attendanceResults s' = attendanceResults s /\
  saving s' = false /\
  error s' = Some (or_default m "Failed to save attendance") /\
  closes (snd (saveAttendance_catch s m)) = false /\
  reports_saved (snd (saveAttendance_catch s m)) = false /\
  requests (snd (saveAttendance_catch s m)) = [].
Proof. cbn. repeat split. Qed.

(** Every way in which the request does not succeed ends in the [catch]
    block. *)
Lemma saveAttendance_try_fails (s : State) (r : FetchResult) :
  save_succeeded r = false ->
  exists m, saveAttendance_try s r = saveAttendance_catch s m.
Proof.
  intros H. destruct r as [message | ok body]; simpl.
  - eexists; reflexivity.
  - destruct ok, body as [message | j]; simpl in *.
    + eexists; reflexivity.
    + destruct (read j "success") as [thrown | success]; [eexists; reflexivity|].
      rewrite H.
      destruct (read j "message") as [thrown | message]; eexists; reflexivity.
    + eexists; reflexivity.
    + destruct (read j "detail") as [thrown | detail]; eexists; reflexivity.
Qed.

Lemma saveAttendance_unfold (p : Props) (s : State) (r : FetchResult) :
  saveAttendance p s r =
  (fst (saveAttendance_try (setError None (setCurrentStep Saving (setSaving true s))) r),
   Post (FACE_RECOGNITION_API_URL ++ "/save-attendance")
        (mkAttendanceData (classId p) (subject p) (classType p) (date p)
                          (facultyId p) (facultyName p))
        (editedResults s)
     :: snd (saveAttendance_try
               (setError None (setCurrentStep Saving (setSaving true s))) r)).
Proof.
  unfold saveAttendance.
  destruct (saveAttendance_try _ r) as [s' effects]. reflexivity.
Qed.

(** The request of a save: the edited results go to the save endpoint. *)
Lemma saveAttendance_requests (p : Props) (s : State) (r : FetchResult) :
  requests (snd (saveAttendance p s r)) =
  [Post (FACE_RECOGNITION_API_URL ++ "/save-attendance")
        (mkAttendanceData (classId p) (subject p) (classType p) (date p)
                          (facultyId p) (facultyName p))
        (editedResults s)].
Proof.
  rewrite saveAttendance_unfold. cbn [snd requests filter]. f_equal.
  destruct r as [message | ok body]; [reflexivity|].
  destruct ok, body as [message | j]; simpl; try reflexivity.
  - destruct (read j "success") as [thrown | success]; [reflexivity|].
    destruct (truthy success); [reflexivity|].
    destruct (read j "message"); reflexivity.
  - destruct (read j "detail"); reflexivity.
Qed.

End ComponentFacts.

(** ** The attendance page *)

Module PageFacts.

Import Db AttendancePage.

Lemma Qltb_lt (a b : Q) : Qltb a b = true <-> (a < b)%Q.
Proof.
  unfold Qltb. rewrite negb_true_iff. split.
  - intros H. apply Qnot_le_lt. intros Hle.
    apply Qle_bool_iff in Hle. congruence.
  - intros H. destruct (Qle_bool b a) eqn:E; [|reflexivity].
    apply Qle_bool_iff in E. exfalso. exact (Qlt_not_le _ _ H E).
Qed.

Lemma js_gt_zero_spec (c : option Q) :
  js_gt_zero c = true <-> exists q, c = Some q /\ (0 < q)%Q.
Proof.
  destruct c as [q|]; simpl.
  - rewrite Qltb_lt. split.
    + intros H. exists q. split; [reflexivity | exact H].
    + intros (q' & E & H). inversion E; subst. exact H.
  - split; [discriminate|]. intros (q & E & _). discriminate.
Qed.

(** C10 — in the records that [handleFaceRecognitionResults] builds, in the
    order of the results, [marked_via] is ['face_recognition'] exactly when
    the result's confidence is a number greater than 0, and ['manual'] in
    every other case, in particular for a confidence of 0 or [null]. *)
Theorem marked_via_face_recognition_iff (pg : Page) (now : Time)
    (results : list MassFaceRecognition.Student) (i : nat)
    (result : MassFaceRecognition.Student) :
  nth_error results i = Some result ->
  exists record,
    nth_error (attendance (fst (handleFaceRecognitionResults pg now results))) i
      = Some record /\
    AttendanceRecord.user_id record = MassFaceRecognition.student_id result /\
    AttendanceRecord.face_recognition_confidence record
      = Some (MassFaceRecognition.confidence result) /\
    (AttendanceRecord.marked_via record = Some face_recognition <->
       exists q, MassFaceRecognition.confidence result = Some q /\ (0 < q)%Q) /\
    (AttendanceRecord.marked_via record <> Some face_recognition ->
       AttendanceRecord.marked_via record = Some manual) /\
    (MassFaceRecognition.confidence result = None \/
     (exists q, MassFaceRecognition.confidence result = Some q /\ (q == 0)%Q) ->
       AttendanceRecord.marked_via record = Some manual).
Proof.
  intros Hi. exists (convert_result pg now result). split.
  - simpl. rewrite nth_error_map, Hi. reflexivity.
  - unfold convert_result. simpl.
    split; [reflexivity|]. split; [reflexivity|].
    destruct (js_gt_zero (MassFaceRecognition.confidence result)) eqn:E.
    + apply js_gt_zero_spec in E. split; [|split].
      * split; [intros _; exact E | reflexivity].
      * intros H. congruence.
      * destruct E as (q & Eq & Hq).
        intros [Hn | (q' & Eq' & Hz)]; [congruence|].
        rewrite Eq in Eq'. inversion Eq'; subst q'.
        exfalso. rewrite Hz in Hq. exact (Qlt_irrefl _ Hq).
    + split; [|split].
      * split; [discriminate|]. intros H. apply js_gt_zero_spec in H. congruence.
      * reflexivity.
      * reflexivity.
Qed.

(** The page ignores every effect of the component but its two callbacks. *)
Lemma callbacks_none (now : Time) (effects : list MassFaceRecognition.Effect)
    (pg : Page) :
  MassFaceRecognition.closes effects = false ->
  MassFaceRecognition.reports_saved effects = false ->
  callbacks now effects pg = pg.
Proof.
  induction effects as [|e effects IH]; intros Hc Hr; [reflexivity|].
  destruct e; simpl in *; try discriminate; apply IH; assumption.
Qed.

(** C8, as the component has it — when the save does not succeed (the
    request is rejected, the response is not ok, its body does not parse or
    its [success] is falsy), the component is back in the review step with
    the edited results untouched, an error message set and the saving flag
    cleared; neither callback is invoked, so the page is as it was and a
    session under review stays under review; and a second save sends the
    same results again to the save endpoint, nothing else. *)
Theorem save_failure_returns_to_review (p : MassFaceRecognition.Props)
    (s : MassFaceRecognition.State) (r : MassFaceRecognition.FetchResult)
    (pg : Page) (now : Time) :
  MassFaceRecognition.save_succeeded r = false ->
  let s' := fst (MassFaceRecognition.saveAttendance p s r) in
  let effects := snd (MassFaceRecognition.saveAttendance p s r) in
  MassFaceRecognition.currentStep s' = MassFaceRecognition.Review /\
  MassFaceRecognition.editedResults s' = MassFaceRecognition.editedResults s /\
  MassFaceRecognition.attendanceResults s' = MassFaceRecognition.attendanceResults s /\
  MassFaceRecognition.saving s' = false /\
  (exists m, MassFaceRecognition.error s' = Some m) /\
  MassFaceRecognition.closes effects = false /\
  MassFaceRecognition.reports_saved effects = false /\
  callbacks now effects pg = pg /\
  (modal_shown pg = true -> session_state (callbacks now effects pg) s' = Reviewing) /\
  forall r',
    MassFaceRecognition.requests (snd (MassFaceRecognition.saveAttendance p s' r')) =
    [MassFaceRecognition.Post
       (MassFaceRecognition.FACE_RECOGNITION_API_URL ++ "/save-attendance")
       (MassFaceRecognition.mkAttendanceData
          (MassFaceRecognition.classId p) (MassFaceRecognition.subject p)
          (MassFaceRecognition.classType p) (MassFaceRecognition.date p)
          (MassFaceRecognition.facultyId p) (MassFaceRecognition.facultyName p))
       (MassFaceRecognition.editedResults s)].
Proof.
  intros H. cbn zeta.
  rewrite ComponentFacts.saveAttendance_unfold. cbn [fst snd].
  destruct (ComponentFacts.saveAttendance_try_fails
              (MassFaceRecognition.setError None
                 (MassFaceRecognition.setCurrentStep MassFaceRecognition.Saving
                    (MassFaceRecognition.setSaving true s))) r H)
    as [m Hm].
  rewrite Hm.
  destruct (ComponentFacts.saveAttendance_catch_state
              (MassFaceRecognition.setError None
                 (MassFaceRecognition.setCurrentStep MassFaceRecognition.Saving
                    (MassFaceRecognition.setSaving true s))) m)
    as (H1 & H2 & H3 & H4 & H5 & H6 & H7 & H8).
  split; [exact H1|]. split; [exact H2|]. split; [exact H3|]. split; [exact H4|].
  split; [eexists; exact H5|]. split; [exact H6|]. split; [exact H7|].
  assert (Hsame : callbacks now
            (MassFaceRecognition.Post
               (MassFaceRecognition.FACE_RECOGNITION_API_URL ++ "/save-attendance")
               (MassFaceRecognition.mkAttendanceData
                  (MassFaceRecognition.classId p) (MassFaceRecognition.subject p)
                  (MassFaceRecognition.classType p) (MassFaceRecognition.date p)
                  (MassFaceRecognition.facultyId p) (MassFaceRecognition.facultyName p))
               (MassFaceRecognition.editedResults s)
             :: snd (MassFaceRecognition.saveAttendance_catch
                       (MassFaceRecognition.setError None
                          (MassFaceRecognition.setCurrentStep
                             MassFaceRecognition.Saving
                             (MassFaceRecognition.setSaving true s))) m)) pg = pg).
  { apply callbacks_none; [exact H6 | exact H7]. }
  split; [exact Hsame|].
  split.
  { intros Hshown. rewrite Hsame. unfold session_state. rewrite Hshown, H1.
    reflexivity. }
  intros r'. rewrite ComponentFacts.saveAttendance_requests. rewrite H2. reflexivity.
Qed.

(** C9 — the close button in the review step invokes [onClose] and nothing
    else: no request is sent and the component state is as it was; on the
    page, [onClose] hides the component and keeps the attendance list, so the
    session is closed. *)
Theorem close_in_review_sends_nothing (s : MassFaceRecognition.State)
    (pg : Page) (now : Time) :
  MassFaceRecognition.currentStep s = MassFaceRecognition.Review ->
  let effects := snd (MassFaceRecognition.closeButton s) in
  effects = [MassFaceRecognition.OnClose] /\
  MassFaceRecognition.requests effects = [] /\
  MassFaceRecognition.reports_saved effects = false /\
  fst (MassFaceRecognition.closeButton s) = s /\
  callbacks now effects pg = onClose pg /\
  showFaceRecognition (callbacks now effects pg) = false /\
  attendance (callbacks now effects pg) = attendance pg /\
  session_state (callbacks now effects pg) (fst (MassFaceRecognition.closeButton s))
    = Closed.
Proof. intros _. cbn. repeat split. Qed.

(** A successful save hands the edited results to the page and closes the
    session: the page's attendance list becomes the converted results. *)
Theorem save_success_hands_over (p : MassFaceRecognition.Props)
    (s : MassFaceRecognition.State) (r : MassFaceRecognition.FetchResult)
    (pg : Page) (now : Time) :
  MassFaceRecognition.save_succeeded r = true ->
  let effects := snd (MassFaceRecognition.saveAttendance p s r) in
  MassFaceRecognition.closes effects = true /\
  attendance (callbacks now effects pg)
    = map (convert_result pg now) (MassFaceRecognition.editedResults s) /\
  showFaceRecognition (callbacks now effects pg) = false /\
  session_state (callbacks now effects pg)
                (fst (MassFaceRecognition.saveAttendance p s r)) = Closed.
Proof.
  intros H. cbn zeta. rewrite ComponentFacts.saveAttendance_unfold.
  destruct r as [message | [|] [message | j]]; simpl in H; try discriminate.
  cbn [MassFaceRecognition.saveAttendance_try fst snd].
  destruct (read j "success") as [thrown | success]; [discriminate|].
  rewrite H. cbn. repeat split.
Qed.

(** *** [markAttendance] after a duplicate-key error *)

Section Conflict.

Variable B : Backend AttendanceRecord.t AttendanceRecord.Key AttendanceRecord.Patch.
Variables (pg : Page) (now : Time) (studentId : string) (status : Status).
Variables (c : ClassDetail.t) (student : Student.t).

Hypothesis subject_chosen : selectedSubject pg <> "".
Hypothesis class_type_chosen : selectedClassType pg <> "".
Hypothesis class_chosen : selectedClass pg = Some c.
Hypothesis student_found : find_student pg studentId = Some student.
Hypothesis not_marked_locally : findIndex pg studentId = None.

Local Abbreviation record := (attendanceRecord pg c student studentId status).
Local Abbreviation key := (the_key pg studentId).
Local Abbreviation patch := (the_patch pg now status).

Lemma markAttendance_inserts :
  markAttendance pg now studentId status =
  Await (Insert record)
    (fun r =>
       match error r with
       | Some e =>
           if String.eqb (code e) "23505" then
             Await (Update patch key)
               (fun u =>
                  match error u with
                  | Some _ =>
                      markAttendance_catch pg student studentId status
                        [Console "Duplicate record detected, trying to update instead..."]
                  | None =>
                      Ret (markAttendance_done pg student status
                             (attendance pg ++
                                [match data u with Some d => d | None => record end])
                             [Console "Duplicate record detected, trying to update instead..."])
                  end)
           else
             markAttendance_catch pg student studentId status [Console "Insert error:"]
       | None =>
           Ret (markAttendance_done pg student status
                  (attendance pg ++
                     [match data r with Some d => d | None => record end]) [])
       end).
Proof.
  unfold markAttendance.
  destruct (selectedSubject pg) as [|a1 s1] eqn:E1; [congruence|].
  destruct (selectedClassType pg) as [|a2 s2] eqn:E2; [congruence|].
  rewrite class_chosen, student_found, not_marked_locally.
  reflexivity.
Qed.

(** C7, with the check read — when the insert is answered with the
    duplicate-key error 23505, [markAttendance] issues exactly one further
    write, an update of the row with the record's key.  If the update succeeds
    no other call follows and success is reported.  If it fails too, the only
    call that follows is the check read, and when that finds no row the page
    is left as it was and the failure is reported. *)
Theorem conflict_retried_once_as_update (w : world B) (e : PgError) :
  let i := respond B (Insert record) w in
  let u := respond B (Update patch key) (snd i) in
  let check := respond B (Select key) (snd u) in
  let out := run B (markAttendance pg now studentId status) w in
  let calls := snd out in
  let result := fst (fst out) in
  error (fst i) = Some e ->
  code e = "23505" ->
  filter is_write calls = [Insert record; Update patch key] /\
  (error (fst u) = None ->
     calls = [Insert record; Update patch key] /\
     In (success_toast student status) (snd result)) /\
  (error (fst u) <> None ->
     calls = [Insert record; Update patch key; Select key] /\
     (data (fst check) = None ->
        fst result = pg /\
        In error_toast (snd result) /\
        ~ In (success_toast student status) (snd result))).
Proof.
  cbn zeta. intros Hi He.
  rewrite markAttendance_inserts. cbn [run].
  destruct (respond B (Insert record) w) as [ri w1] eqn:Ei.
  cbn [fst snd] in *. rewrite Hi, He. cbn [String.eqb Ascii.eqb Bool.eqb].
  cbn [run].
  destruct (respond B (Update patch key) w1) as [ru w2] eqn:Eu.
  cbn [fst snd].
  destruct (error ru) as [eu|] eqn:Heu.
  - unfold markAttendance_catch. cbn [run].
    destruct (respond B (Select key) w2) as [rc w3] eqn:Ec.
    cbn [fst snd filter is_write].
    split; [reflexivity|]. split; [discriminate|].
    intros _. split; [reflexivity|].
    intros Hd. rewrite Hd. cbn [fst snd]. split; [reflexivity|]. split.
    + apply in_or_app. right. right. left. reflexivity.
    + intros H. apply in_app_or in H.
      destruct H as [[H|[]] | [H|[H|[]]]]; discriminate.
  - cbn [fst snd filter is_write].
    split; [reflexivity|]. split.
    + intros _. split; [reflexivity|].
      unfold markAttendance_done. cbn [snd].
      apply in_or_app. right. apply in_or_app. right. left. reflexivity.
    + intros H. congruence.
Qed.

(** An insert error other than the duplicate key is not retried: the check
    read is the only call that follows, and no second write is issued. *)
Theorem insert_error_not_retried (w : world B) (e : PgError) :
  let i := respond B (Insert record) w in
  let out := run B (markAttendance pg now studentId status) w in
  error (fst i) = Some e ->
  code e <> "23505" ->
  snd out = [Insert record; Select key] /\
  filter is_write (snd out) = [Insert record].
Proof.
  cbn zeta. intros Hi He.
  rewrite markAttendance_inserts. cbn [run].
  destruct (respond B (Insert record) w) as [ri w1] eqn:Ei.
  cbn [fst snd] in *. rewrite Hi.
  apply String.eqb_neq in He. rewrite He.
  unfold markAttendance_catch. cbn [run].
  destruct (respond B (Select key) w1) as [rc w2].
  cbn [fst snd filter is_write]. split; reflexivity.
Qed.

(** After a failed retry the check read decides what is reported: when it
    finds a row, that row (as stored, not as requested) is appended to the
    local list and success is reported. *)
Theorem failed_retry_reports_what_check_finds (w : world B) (e : PgError)
    (found : AttendanceRecord.t) :
  let i := respond B (Insert record) w in
  let u := respond B (Update patch key) (snd i) in
  let check := respond B (Select key) (snd u) in
  let result := fst (fst (run B (markAttendance pg now studentId status) w)) in
  error (fst i) = Some e ->
  code e = "23505" ->
  error (fst u) <> None ->
  data (fst check) = Some found ->
  attendance (fst result) = attendance pg ++ [found] /\
  In (success_toast student status) (snd result) /\
  ~ In error_toast (snd result).
Proof.
  cbn zeta. intros Hi He Hu Hc.
  rewrite markAttendance_inserts. cbn [run].
  destruct (respond B (Insert record) w) as [ri w1] eqn:Ei.
  cbn [fst snd] in *. rewrite Hi, He. cbn [String.eqb Ascii.eqb Bool.eqb].
  cbn [run].
  destruct (respond B (Update patch key) w1) as [ru w2] eqn:Eu.
  cbn [fst snd] in *.
  destruct (error ru) as [eu|]; [|congruence].
  unfold markAttendance_catch. cbn [run].
  destruct (respond B (Select key) w2) as [rc w3] eqn:Ec.
  cbn [fst snd] in *. rewrite Hc, not_marked_locally. cbn [fst snd attendance setAttendance].
  split; [reflexivity|]. split.
  - apply in_or_app. right. right. left. reflexivity.
  - intros H. apply in_app_or in H.
    destruct H as [[H|[]] | [H|[H|[]]]]; discriminate.
Qed.

End Conflict.

(** *** [markAttendance] for a student already in the local list *)

Section Known.

Variable B : Backend AttendanceRecord.t AttendanceRecord.Key AttendanceRecord.Patch.
Variables (pg : Page) (now : Time) (studentId : string) (status : Status).
Variables (c : ClassDetail.t) (student : Student.t) (existingIndex : nat).

Hypothesis subject_chosen : selectedSubject pg <> "".
Hypothesis class_type_chosen : selectedClassType pg <> "".
Hypothesis class_chosen : selectedClass pg = Some c.
Hypothesis student_found : find_student pg studentId = Some student.
Hypothesis marked_locally : findIndex pg studentId = Some existingIndex.

(** A student with a record in the local list is written by an update, never
    by an insert; a failed update is followed by the check read only. *)
Theorem known_record_is_updated (w : world B) :
  let u := respond B (Update (the_patch pg now status) (the_key pg studentId)) w in
  let calls := snd (run B (markAttendance pg now studentId status) w) in
  filter is_write calls = [Update (the_patch pg now status) (the_key pg studentId)] /\
  (error (fst u) = None ->
     calls = [Update (the_patch pg now status) (the_key pg studentId)]) /\
  (error (fst u) <> None ->
     calls = [Update (the_patch pg now status) (the_key pg studentId);
              Select (the_key pg studentId)]).
Proof.
  cbn zeta. unfold markAttendance.
  destruct (selectedSubject pg) as [|a1 s1] eqn:E1; [congruence|].
  destruct (selectedClassType pg) as [|a2 s2] eqn:E2; [congruence|].
  rewrite class_chosen, student_found, marked_locally. cbn [run].
  destruct (respond B (Update (the_patch pg now status) (the_key pg studentId)) w)
    as [ru w1].
  cbn [fst snd].
  destruct (error ru) as [eu|].
  - unfold markAttendance_catch. cbn [run].
    destruct (respond B (Select (the_key pg studentId)) w1) as [rc w2].
    cbn [fst snd filter is_write].
    split; [reflexivity|]. split; [discriminate | intros _; reflexivity].
  - cbn [run fst snd filter is_write].
    split; [reflexivity|]. split; [intros _; reflexivity | congruence].
Qed.

End Known.

End PageFacts.

(** ** Programs and tables *)

Module DbFacts.

Import Db.

Section Programs.

Variables Row Key Patch : Type.
Variable B : Backend Row Key Patch.

Lemma run_bind {X Y : Type} (p : Prog Row Key Patch X)
    (f : X -> Prog Row Key Patch Y) (w : world B) :
  run B (bind p f) w =
  (fst (fst (run B (f (fst (fst (run B p w)))) (snd (fst (run B p w))))),
   snd (fst (run B (f (fst (fst (run B p w)))) (snd (fst (run B p w))))),
   snd (run B p w)
     ++ snd (run B (f (fst (fst (run B p w)))) (snd (fst (run B p w))))).
Proof.
  revert w. induction p as [a | c k IH]; intros w; simpl.
  - destruct (run B (f a) w) as [[y w'] calls]. reflexivity.
  - destruct (respond B c w) as [r w1]. rewrite IH.
    destruct (run B (k r) w1) as [[x w2] calls1]. simpl.
    destruct (run B (f x) w2) as [[y w3] calls2]. reflexivity.
Qed.

End Programs.

Section Tables.

Variables Row Key : Type.
Variable key_of : Row -> Key.
Variable key_eqb : Key -> Key -> bool.
Hypothesis key_eqb_spec : forall a b, key_eqb a b = true <-> a = b.

Lemma has_key_in (k : Key) (t : list Row) :
  has_key key_of key_eqb k t = true <-> In k (map key_of t).
Proof.
  unfold has_key. rewrite existsb_exists, in_map_iff. split.
  - intros (r & Hin & E). exists r. split; [apply key_eqb_spec, E | exact Hin].
  - intros (r & E & Hin). exists r. split; [exact Hin | apply key_eqb_spec, E].
Qed.

Lemma matching_absent (k : Key) (t : list Row) :
  has_key key_of key_eqb k t = false -> matching key_of key_eqb k t = [].
Proof.
  unfold has_key, matching. induction t as [|r t IH]; simpl; [reflexivity|].
  intros H. apply orb_false_iff in H. destruct H as [H1 H2].
  rewrite H1. apply IH, H2.
Qed.

Lemma matching_unique (k : Key) (t : list Row) :
  NoDup (map key_of t) -> has_key key_of key_eqb k t = true ->
  exists r, matching key_of key_eqb k t = [r] /\ In r t /\ key_of r = k.
Proof.
  induction t as [|r t IH]; simpl; intros Hnd H; [discriminate|].
  inversion Hnd as [|x xs Hnotin Hnd']; subst.
  unfold matching. simpl.
  destruct (key_eqb (key_of r) k) eqn:E.
  - apply key_eqb_spec in E. exists r.
    split; [|split; [left; reflexivity | exact E]].
    f_equal. apply matching_absent.
    destruct (has_key key_of key_eqb k t) eqn:Hk; [|reflexivity].
    apply has_key_in in Hk. subst k. contradiction.
  - simpl in H. destruct (IH Hnd' H) as (r' & Hm & Hin & Hk).
    exists r'. split; [exact Hm | split; [right; exact Hin | exact Hk]].
Qed.

End Tables.

End DbFacts.

(** ** The persistence gateway *)

Module GatewayFacts.

Import Db Gateway DbFacts.

Lemma key_eqb_spec (a b : RowKey) : key_eqb a b = true <-> a = b.
Proof.
  destruct a as [a1 a2 a3 a4], b as [b1 b2 b3 b4]. unfold key_eqb. simpl.
  rewrite !andb_true_iff, !String.eqb_eq. split.
  - intros [[[-> ->] ->] ->]. reflexivity.
  - intros H. inversion H. auto.
Qed.

Lemma key_eqb_refl (k : RowKey) : key_eqb k k = true.
Proof. apply key_eqb_spec. reflexivity. Qed.

Lemma key_eqb_neq (a b : RowKey) : a <> b -> key_eqb a b = false.
Proof.
  intros H. destruct (key_eqb a b) eqn:E; [|reflexivity].
  apply key_eqb_spec in E. contradiction.
Qed.

Lemma row_key_inj (key : CommitKey) (d e : Reconcile.AttendanceDecision) :
  row_key key d = row_key key e -> Reconcile.student d = Reconcile.student e.
Proof. unfold row_key. intros H. inversion H. reflexivity. Qed.

(** *** One upsert on the table *)

Lemma upsert_keys (key : CommitKey) (now : Time)
    (t : list PersistedAttendanceRecord) (d : Reconcile.AttendanceDecision) :
  map key_of (upsert key now t d) =
  if has_key key_of key_eqb (row_key key d) t
  then map key_of t else map key_of t ++ [row_key key d].
Proof.
  unfold upsert. destruct (has_key key_of key_eqb (row_key key d) t).
  - rewrite map_map. apply map_ext. intros x.
    destruct (key_eqb (key_of x) (row_key key d)); reflexivity.
  - rewrite map_app. reflexivity.
Qed.

Lemma upsert_nodup (key : CommitKey) (now : Time)
    (t : list PersistedAttendanceRecord) (d : Reconcile.AttendanceDecision) :
  NoDup (map key_of t) -> NoDup (map key_of (upsert key now t d)).
Proof.
  intros Hnd. rewrite upsert_keys.
  destruct (has_key key_of key_eqb (row_key key d) t) eqn:E; [exact Hnd|].
  apply NoDup_app; [exact Hnd | repeat constructor; intros [] |].
  intros k Hin [<-|[]].
  apply (has_key_in _ _ key_of key_eqb key_eqb_spec) in Hin. congruence.
Qed.

Lemma fold_upsert_nodup (key : CommitKey) (now : Time)
    (ds : list Reconcile.AttendanceDecision) :
  forall t, NoDup (map key_of t) ->
            NoDup (map key_of (fold_left (upsert key now) ds t)).
Proof.
  induction ds as [|d ds IH]; intros t Hnd; simpl; [exact Hnd|].
  apply IH, upsert_nodup, Hnd.
Qed.

Lemma upsert_stored (key : CommitKey) (now : Time)
    (t : list PersistedAttendanceRecord) (d : Reconcile.AttendanceDecision) :
  stored key d (upsert key now t d).
Proof.
  unfold stored, upsert.
  destruct (has_key key_of key_eqb (row_key key d) t) eqn:E.
  - split.
    + apply (has_key_in _ _ key_of key_eqb key_eqb_spec).
      apply (has_key_in _ _ key_of key_eqb key_eqb_spec) in E.
      rewrite map_map. rewrite (map_ext _ key_of); [exact E|].
      intros x. destruct (key_eqb (key_of x) (row_key key d)); reflexivity.
    + intros x Hin Hk. apply in_map_iff in Hin. destruct Hin as (y & Ey & Hy).
      destruct (key_eqb (key_of y) (row_key key d)) eqn:Eq.
      * subst x. repeat split.
      * subst x. apply key_eqb_spec in Hk. congruence.
  - split.
    + apply (has_key_in _ _ key_of key_eqb key_eqb_spec).
      rewrite map_app. apply in_or_app. right. left. reflexivity.
    + intros x Hin Hk. apply in_app_or in Hin. destruct Hin as [Hin|[<-|[]]].
      * exfalso.
        assert (H : has_key key_of key_eqb (row_key key d) t = true).
        { apply (has_key_in _ _ key_of key_eqb key_eqb_spec).
          rewrite <- Hk. apply in_map. exact Hin. }
        congruence.
      * repeat split.
Qed.

Lemma upsert_other_stored (key : CommitKey) (now : Time)
    (t : list PersistedAttendanceRecord) (d e : Reconcile.AttendanceDecision) :
  Reconcile.student e <> Reconcile.student d ->
  stored key d t -> stored key d (upsert key now t e).
Proof.
  intros Hne [Hhas Hall].
  assert (Hk : row_key key e <> row_key key d).
  { intros H. apply row_key_inj in H. contradiction. }
  unfold stored, upsert.
  destruct (has_key key_of key_eqb (row_key key e) t) eqn:E.
  - split.
    + apply (has_key_in _ _ key_of key_eqb key_eqb_spec).
      apply (has_key_in _ _ key_of key_eqb key_eqb_spec) in Hhas.
      rewrite map_map. rewrite (map_ext _ key_of); [exact Hhas|].
      intros x. destruct (key_eqb (key_of x) (row_key key e)); reflexivity.
    + intros x Hin Hx. apply in_map_iff in Hin. destruct Hin as (y & Ey & Hy).
      destruct (key_eqb (key_of y) (row_key key e)) eqn:Eq.
      * apply key_eqb_spec in Eq. subst x. simpl in Hx.
        change (key_of y = row_key key d) in Hx. congruence.
      * subst y. apply Hall; assumption.
  - split.
    + apply (has_key_in _ _ key_of key_eqb key_eqb_spec).
      apply (has_key_in _ _ key_of key_eqb key_eqb_spec) in Hhas.
      rewrite map_app. apply in_or_app. left. exact Hhas.
    + intros x Hin Hx. apply in_app_or in Hin. destruct Hin as [Hin|[<-|[]]].
      * apply Hall; assumption.
      * simpl in Hx. exfalso. apply Hk. exact Hx.
Qed.

Lemma fold_upsert_other_stored (key : CommitKey) (now : Time)
    (d : Reconcile.AttendanceDecision) (ds : list Reconcile.AttendanceDecision) :
  ~ In (Reconcile.student d) (map Reconcile.student ds) ->
  forall t, stored key d t -> stored key d (fold_left (upsert key now) ds t).
Proof.
  induction ds as [|e ds IH]; intros Hnotin t Hs; simpl; [exact Hs|].
  apply IH.
  - intros H. apply Hnotin. right. exact H.
  - apply upsert_other_stored; [|exact Hs].
    intros H. apply Hnotin. left. exact H.
Qed.

(** After the upserts of a list of decisions for distinct students, the
    table holds every one of them. *)
Lemma fold_upsert_stored (key : CommitKey) (now : Time)
    (ds : list Reconcile.AttendanceDecision) :
  NoDup (map Reconcile.student ds) ->
  forall t d, In d ds -> stored key d (fold_left (upsert key now) ds t).
Proof.
  induction ds as [|e ds IH]; intros Hnd t d Hin; [contradiction|].
  simpl in Hnd. inversion Hnd as [|x xs Hnotin Hnd']; subst.
  simpl. destruct Hin as [<-|Hin].
  - apply fold_upsert_other_stored; [exact Hnotin | apply upsert_stored].
  - apply IH; assumption.
Qed.

Lemma upsert_other_matching (key : CommitKey) (now : Time) (k : RowKey)
    (t : list PersistedAttendanceRecord) (d : Reconcile.AttendanceDecision) :
  row_key key d <> k ->
  matching key_of key_eqb k (upsert key now t d) = matching key_of key_eqb k t.
Proof.
  intros Hne. unfold upsert, matching.
  destruct (has_key key_of key_eqb (row_key key d) t).
  - induction t as [|x t IH]; simpl; [reflexivity|].
    destruct (key_eqb (key_of x) (row_key key d)) eqn:E.
    + apply key_eqb_spec in E.
      change (key_of (apply_patch (patch_of key now d) x)) with (key_of x).
      rewrite E, (key_eqb_neq _ _ Hne). exact IH.
    + destruct (key_eqb (key_of x) k); [f_equal|]; exact IH.
  - rewrite filter_app. simpl.
    change (key_of (row_of key now d)) with (row_key key d).
    rewrite (key_eqb_neq _ _ Hne). apply app_nil_r.
Qed.

(** *** A second pass of upserts *)

Lemma has_key_upsert (key : CommitKey) (now : Time) (k : RowKey)
    (t : list PersistedAttendanceRecord) (d : Reconcile.AttendanceDecision) :
  has_key key_of key_eqb k t = true ->
  has_key key_of key_eqb k (upsert key now t d) = true.
Proof.
  intros H. apply (has_key_in _ _ key_of key_eqb key_eqb_spec).
  apply (has_key_in _ _ key_of key_eqb key_eqb_spec) in H.
  rewrite upsert_keys.
  destruct (has_key key_of key_eqb (row_key key d) t); [exact H|].
  apply in_or_app. left. exact H.
Qed.

Lemma has_key_fold_upsert (key : CommitKey) (now : Time) (k : RowKey)
    (ds : list Reconcile.AttendanceDecision) :
  forall t, has_key key_of key_eqb k t = true ->
            has_key key_of key_eqb k (fold_left (upsert key now) ds t) = true.
Proof.
  induction ds as [|d ds IH]; intros t H; simpl; [exact H|].
  apply IH, has_key_upsert, H.
Qed.

(** After the upserts of a list of decisions the table has a row for each. *)
Lemma fold_upsert_has_keys (key : CommitKey) (now : Time)
    (ds : list Reconcile.AttendanceDecision) :
  forall t d, In d ds ->
              has_key key_of key_eqb (row_key key d)
                      (fold_left (upsert key now) ds t) = true.
Proof.
  induction ds as [|e ds IH]; intros t d Hin; [contradiction|].
  simpl. destruct Hin as [<-|Hin].
  - apply has_key_fold_upsert. apply (proj1 (upsert_stored key now t e)).
  - apply IH. exact Hin.
Qed.

Lemma patch_all_cons (key : CommitKey) (now : Time)
    (d : Reconcile.AttendanceDecision) (ds : list Reconcile.AttendanceDecision)
    (x : PersistedAttendanceRecord) :
  patch_all key now (d :: ds) x = patch_all key now ds (patch_if key now d x).
Proof. reflexivity. Qed.

(** On a table that has a row for every decision, the upserts only
    overwrite: each row receives the overwrites of its key, in order. *)
Lemma fold_upsert_overwrites (key : CommitKey) (now : Time)
    (ds : list Reconcile.AttendanceDecision) :
  forall t,
    (forall d, In d ds -> has_key key_of key_eqb (row_key key d) t = true) ->
    fold_left (upsert key now) ds t = map (patch_all key now ds) t.
Proof.
  induction ds as [|d ds IH]; intros t Hall.
  - simpl. symmetry. apply map_id.
  - simpl. rewrite IH.
    + unfold upsert. rewrite (Hall d (or_introl eq_refl)).
      rewrite map_map. apply map_ext. intros x. rewrite patch_all_cons.
      reflexivity.
    + intros e He. apply has_key_upsert. apply Hall. right. exact He.
Qed.

(** An overwrite leaves nothing of an earlier overwrite of the same row. *)
Lemma patch_all_overrides (key : CommitKey) (now : Time)
    (ds : list Reconcile.AttendanceDecision) :
  forall (x : PersistedAttendanceRecord) (p : Patch),
    (exists e, In e ds /\ key_of x = row_key key e) ->
    patch_all key now ds (apply_patch p x) = patch_all key now ds x.
Proof.
  induction ds as [|d ds IH]; intros x p (e & He & Hk); [contradiction|].
  rewrite !patch_all_cons. unfold patch_if.
  change (key_of (apply_patch p x)) with (key_of x).
  destruct (key_eqb (key_of x) (row_key key d)) eqn:E; [reflexivity|].
  apply IH. destruct He as [->|He].
  - apply key_eqb_spec in Hk. congruence.
  - exists e. split; assumption.
Qed.

(** Rows whose key no decision names come from the table as it was. *)
Lemma fold_upsert_foreign (key : CommitKey) (now : Time)
    (ds : list Reconcile.AttendanceDecision) (x : PersistedAttendanceRecord) :
  (forall e, In e ds -> key_of x <> row_key key e) ->
  forall t, In x (fold_left (upsert key now) ds t) -> In x t.
Proof.
  induction ds as [|d ds IH]; intros Hall t Hin; [exact Hin|].
  simpl in Hin. apply IH in Hin; [|intros e He; apply Hall; right; exact He].
  pose proof (Hall d (or_introl eq_refl)) as Hd.
  unfold upsert in Hin.
  destruct (has_key key_of key_eqb (row_key key d) t).
  - apply in_map_iff in Hin. destruct Hin as (y & Ey & Hy).
    destruct (key_eqb (key_of y) (row_key key d)) eqn:E.
    + apply key_eqb_spec in E. subst x. exfalso. apply Hd. exact E.
    + subst y. exact Hy.
  - apply in_app_or in Hin. destruct Hin as [Hin|[<-|[]]]; [exact Hin|].
    exfalso. apply Hd. reflexivity.
Qed.

(** A row of the table after an upsert is a fixed point of its overwrite. *)
Lemma upsert_settled (key : CommitKey) (now : Time)
    (t : list PersistedAttendanceRecord) (d : Reconcile.AttendanceDecision)
    (x : PersistedAttendanceRecord) :
  In x (upsert key now t d) -> patch_if key now d x = x.
Proof.
  unfold upsert. intros Hin.
  destruct (has_key key_of key_eqb (row_key key d) t) eqn:E.
  - apply in_map_iff in Hin. destruct Hin as (y & Ey & Hy).
    destruct (key_eqb (key_of y) (row_key key d)) eqn:Eq.
    + subst x. unfold patch_if.
      change (key_of (apply_patch (patch_of key now d) y)) with (key_of y).
      rewrite Eq. reflexivity.
    + subst y. unfold patch_if. rewrite Eq. reflexivity.
  - apply in_app_or in Hin. destruct Hin as [Hin|[<-|[]]].
    + unfold patch_if. destruct (key_eqb (key_of x) (row_key key d)) eqn:Eq;
        [|reflexivity].
      exfalso. apply key_eqb_spec in Eq.
      assert (H : has_key key_of key_eqb (row_key key d) t = true).
      { apply (has_key_in _ _ key_of key_eqb key_eqb_spec).
        rewrite <- Eq. apply in_map. exact Hin. }
      congruence.
    + unfold patch_if.
      change (key_of (row_of key now d)) with (row_key key d).
      rewrite key_eqb_refl. reflexivity.
Qed.

Lemma names_key_dec (key : CommitKey) (ds : list Reconcile.AttendanceDecision)
    (k : RowKey) :
  (exists e, In e ds /\ k = row_key key e) \/
  (forall e, In e ds -> k <> row_key key e).
Proof.
  induction ds as [|d ds IH].
  - right. intros e [].
  - destruct (key_eqb k (row_key key d)) eqn:E.
    + left. exists d. split; [left; reflexivity | apply key_eqb_spec, E].
    + destruct IH as [(e & He & Hk) | Hnone].
      * left. exists e. split; [right; exact He | exact Hk].
      * right. intros e [<-|He]; [|apply Hnone, He].
        intros H. apply key_eqb_spec in H. congruence.
Qed.

(** Every row of the table after the upserts of a list of decisions is a
    fixed point of the list's overwrites at the same clock reading. *)
Lemma fold_upsert_settled (key : CommitKey) (now : Time)
    (ds : list Reconcile.AttendanceDecision) :
  forall t x, In x (fold_left (upsert key now) ds t) ->
              patch_all key now ds x = x.
Proof.
  induction ds as [|d ds IH]; intros t x Hin; [reflexivity|].
  simpl in Hin. pose proof (IH _ x Hin) as Hrest.
  rewrite patch_all_cons.
  destruct (names_key_dec key ds (key_of x)) as [Hnamed | Hforeign].
  - unfold patch_if. destruct (key_eqb (key_of x) (row_key key d)).
    + rewrite patch_all_overrides; assumption.
    + exact Hrest.
  - rewrite (upsert_settled key now t d x).
    + exact Hrest.
    + apply (fold_upsert_foreign key now ds x Hforeign). exact Hin.
Qed.

(** *** Overwrites and the timestamps *)

Lemma patch_if_untimed (key : CommitKey) (now now' : Time)
    (d : Reconcile.AttendanceDecision) (x y : PersistedAttendanceRecord) :
  untimed x = untimed y ->
  untimed (patch_if key now d x) = untimed (patch_if key now' d y).
Proof.
  intros H. unfold patch_if.
  assert (Hk : key_of x = key_of y).
  { change (key_of (untimed x) = key_of (untimed y)). rewrite H. reflexivity. }
  rewrite Hk. destruct (key_eqb (key_of y) (row_key key d)); [|exact H].
  unfold untimed, apply_patch, patch_of in *. simpl in *.
  inversion H. reflexivity.
Qed.

Lemma patch_all_untimed (key : CommitKey) (now now' : Time)
    (ds : list Reconcile.AttendanceDecision) :
  forall x y, untimed x = untimed y ->
              untimed (patch_all key now ds x) = untimed (patch_all key now' ds y).
Proof.
  induction ds as [|d ds IH]; intros x y H; [exact H|].
  rewrite !patch_all_cons.
  apply IH. apply patch_if_untimed. exact H.
Qed.

(** A second pass of the same upserts changes nothing but update
    timestamps, and nothing at all at the same clock reading. *)
Lemma fold_upsert_again (key : CommitKey) (now1 now2 : Time)
    (ds : list Reconcile.AttendanceDecision) (t : list PersistedAttendanceRecord) :
  let t1 := fold_left (upsert key now1) ds t in
  let t2 := fold_left (upsert key now2) ds t1 in
  map untimed t2 = map untimed t1 /\ (now1 = now2 -> t2 = t1).
Proof.
  cbn zeta.
  rewrite (fold_upsert_overwrites key now2 ds (fold_left (upsert key now1) ds t)).
  - split.
    + rewrite map_map. apply map_ext_in. intros x Hin.
      rewrite (patch_all_untimed key now2 now1 ds x x eq_refl).
      rewrite (fold_upsert_settled key now1 ds t x Hin). reflexivity.
    + intros <-. rewrite <- (map_id (fold_left (upsert key now1) ds t)) at 2.
      apply map_ext_in. intros x Hin.
      apply (fold_upsert_settled key now1 ds t x Hin).
  - intros d Hd. apply fold_upsert_has_keys. exact Hd.
Qed.

(** *** Running one upsert against the record store *)

Lemma commit_one_served (key : CommitKey) (now : Time)
    (d : Reconcile.AttendanceDecision) (t : list PersistedAttendanceRecord)
    (n : nat) (pl : nat -> Call PersistedAttendanceRecord RowKey Patch
                    -> Event PersistedAttendanceRecord) :
  NoDup (map key_of t) ->
  (forall m c, call_key c = row_key key d -> pl m c = Quiet) ->
  exists n' calls,
    run record_store (commit_one key now d) (mkStore t n pl)
    = (None, mkStore (upsert key now t d) n' pl, calls)
    /\ writes_for key d calls.
Proof.
  intros Hnd Hq. unfold commit_one, upsert. cbn [run respond record_store store].
  unfold store_respond at 1. cbn [plan served table].
  rewrite (Hq n (Select (row_key key d)) eq_refl). cbn [execute]. unfold select_row.
  destruct (has_key key_of key_eqb (row_key key d) t) eqn:E.
  - destruct (matching_unique _ _ key_of key_eqb key_eqb_spec _ t Hnd E)
      as (r & Hm & _ & _).
    rewrite Hm. cbn [data error run respond record_store store].
    unfold store_respond at 1. cbn [plan served table].
    rewrite (Hq (S n) (Update (patch_of key now d) (row_key key d)) eq_refl).
    cbn [execute]. unfold update_rows. rewrite Hm. cbn [error option_map run].
    eexists _, _. split; [reflexivity|].
    exists (Update (patch_of key now d) (row_key key d)).
    split; [right; left; reflexivity | split; reflexivity].
  - rewrite (matching_absent _ _ key_of key_eqb _ t E).
    cbn [data error code not_single]. cbn [String.eqb Ascii.eqb Bool.eqb].
    unfold insert_new. cbn [run respond record_store store].
    unfold store_respond at 1. cbn [plan served table].
    rewrite (Hq (S n) (Insert (row_of key now d)) eq_refl).
    cbn [execute]. unfold insert_row.
    change (key_of (row_of key now d)) with (row_key key d). rewrite E.
    cbn [error run].
    eexists _, _. split; [reflexivity|].
    exists (Insert (row_of key now d)).
    split; [right; left; reflexivity | split; reflexivity].
Qed.

Lemma commit_one_refused (key : CommitKey) (now : Time)
    (d : Reconcile.AttendanceDecision) (t : list PersistedAttendanceRecord)
    (n : nat) (e : PgError) :
  classify e = Rejected ->
  NoDup (map key_of t) ->
  exists n' calls,
    run record_store (commit_one key now d)
        (mkStore t n (refuse_writes_of (row_key key d) e))
    = (Some Rejected, mkStore t n' (refuse_writes_of (row_key key d) e), calls)
    /\ writes_for key d calls.
Proof.
  intros He Hnd. unfold commit_one. cbn [run respond record_store store].
  unfold store_respond at 1. cbn [plan served table].
  unfold refuse_writes_of at 1. cbn [is_write andb execute]. unfold select_row.
  destruct (has_key key_of key_eqb (row_key key d) t) eqn:E.
  - destruct (matching_unique _ _ key_of key_eqb key_eqb_spec _ t Hnd E)
      as (r & Hm & _ & _).
    rewrite Hm. cbn [data error run respond record_store store].
    unfold store_respond at 1. cbn [plan served table].
    unfold refuse_writes_of at 1. cbn [is_write andb call_key].
    rewrite key_eqb_refl. cbn [error option_map run]. rewrite He.
    eexists _, _. split; [reflexivity|].
    exists (Update (patch_of key now d) (row_key key d)).
    split; [right; left; reflexivity | split; reflexivity].
  - rewrite (matching_absent _ _ key_of key_eqb _ t E).
    cbn [data error code not_single]. cbn [String.eqb Ascii.eqb Bool.eqb].
    unfold insert_new. cbn [run respond record_store store].
    unfold store_respond at 1. cbn [plan served table].
    unfold refuse_writes_of at 1. cbn [is_write andb call_key].
    change (key_of (row_of key now d)) with (row_key key d).
    rewrite key_eqb_refl. cbn [error]. rewrite He. cbn [run].
    eexists _, _. split; [reflexivity|].
    exists (Insert (row_of key now d)).
    split; [right; left; reflexivity | split; reflexivity].
Qed.

Lemma commit_step (key : CommitKey) (now : Time)
    (d : Reconcile.AttendanceDecision) (ds : list Reconcile.AttendanceDecision)
    (w : world record_store) :
  run record_store (commit (d :: ds) key now) w =
  let one := run record_store (commit_one key now d) w in
  let more := run record_store (commit ds key now) (snd (fst one)) in
  (record_outcome d (fst (fst one)) (fst (fst more)),
   snd (fst more),
   snd one ++ snd more).
Proof.
  cbn [commit]. rewrite run_bind. cbn zeta.
  destruct (run record_store (commit_one key now d) w) as [[o w1] calls1].
  cbn [fst snd]. rewrite run_bind.
  destruct (run record_store (commit ds key now) w1) as [[r w2] calls2].
  cbn [fst snd run]. rewrite app_nil_r. reflexivity.
Qed.

(** *** A commit that nothing disturbs *)

Lemma commit_quiet (key : CommitKey) (now : Time)
    (ds : list Reconcile.AttendanceDecision) :
  forall t n,
    NoDup (map key_of t) ->
    exists n' calls,
      run record_store (commit ds key now) (mkStore t n quiet)
      = (mkCommitResult (map Reconcile.student ds) [],
         mkStore (fold_left (upsert key now) ds t) n' quiet, calls).
Proof.
  induction ds as [|d ds IH]; intros t n Hnd.
  - exists n, []. reflexivity.
  - rewrite commit_step. cbn zeta.
    destruct (commit_one_served key now d t n quiet Hnd (fun _ _ _ => eq_refl))
      as (n1 & calls1 & E1 & _).
    rewrite E1. cbn [fst snd].
    destruct (IH (upsert key now t d) n1 (upsert_nodup key now t d Hnd))
      as (n2 & calls2 & E2).
    rewrite E2. cbn [fst snd record_outcome succeeded failed map fold_left].
    eexists _, _. reflexivity.
Qed.

Lemma commit_on_quiet (key : CommitKey) (now : Time)
    (ds : list Reconcile.AttendanceDecision) (t : list PersistedAttendanceRecord) :
  NoDup (map key_of t) ->
  commit_on t quiet ds key now =
  (mkCommitResult (map Reconcile.student ds) [], fold_left (upsert key now) ds t).
Proof.
  intros Hnd. unfold commit_on.
  destruct (commit_quiet key now ds t 0 Hnd) as (n' & calls & E).
  rewrite E. reflexivity.
Qed.

(** C2 — on a table that respects its unique key, two undisturbed commits
    of the same decisions under the same key both succeed for every student,
    in the same order; the second leaves the same rows as the first, none
    added or duplicated, with the same status, class type and confidence.
    The update timestamp is the one field the upsert of section 4.3
    overwrites with the clock reading of the call: at the same reading the
    two tables are equal. *)
Theorem commit_twice_same_rows (t0 : list PersistedAttendanceRecord)
    (ds : list Reconcile.AttendanceDecision) (key : CommitKey) (now1 now2 : Time) :
  NoDup (map key_of t0) ->
  let first := commit_on t0 quiet ds key now1 in
  let second := commit_on (snd first) quiet ds key now2 in
  succeeded (fst first) = map Reconcile.student ds /\
  failed (fst first) = [] /\
  succeeded (fst second) = succeeded (fst first) /\
  failed (fst second) = [] /\
  NoDup (map key_of (snd first)) /\
  NoDup (map key_of (snd second)) /\
  map key_of (snd second) = map key_of (snd first) /\
  map untimed (snd second) = map untimed (snd first) /\
  (now1 = now2 -> snd second = snd first) /\
  (NoDup (map Reconcile.student ds) ->
     forall d, In d ds -> stored key d (snd second)).
Proof.
  intros Ht. cbn zeta.
  rewrite (commit_on_quiet key now1 ds t0 Ht). cbn [fst snd succeeded failed].
  pose proof (fold_upsert_nodup key now1 ds t0 Ht) as Ht1.
  rewrite (commit_on_quiet key now2 ds _ Ht1). cbn [fst snd succeeded failed].
  destruct (fold_upsert_again key now1 now2 ds t0) as [Hsame Hequal].
  split; [reflexivity|]. split; [reflexivity|].
  split; [reflexivity|]. split; [reflexivity|].
  split; [exact Ht1|].
  split; [apply fold_upsert_nodup; exact Ht1|].
  split.
  { apply (f_equal (map key_of)) in Hsame. rewrite !map_map in Hsame.
    exact Hsame. }
  split; [exact Hsame|].
  split; [exact Hequal|].
  intros Hds d Hin. apply fold_upsert_stored; assumption.
Qed.

(** *** A commit with one refused student *)

(** Decisions of one list with distinct students are told apart by the
    student. *)
Lemma same_student_same_decision (ds : list Reconcile.AttendanceDecision)
    (x y : Reconcile.AttendanceDecision) :
  NoDup (map Reconcile.student ds) -> In x ds -> In y ds ->
  Reconcile.student x = Reconcile.student y -> x = y.
Proof.
  intros Hnd. revert x y.
  induction ds as [|a ds IH]; intros x y Hx Hy E; [destruct Hx|].
  simpl in Hnd. apply NoDup_cons_iff in Hnd. destruct Hnd as [Hfresh Hnd].
  destruct Hx as [Hx|Hx], Hy as [Hy|Hy].
  - congruence.
  - subst a. exfalso. apply Hfresh. rewrite E. apply in_map. exact Hy.
  - subst a. exfalso. apply Hfresh. rewrite <- E. apply in_map. exact Hx.
  - apply IH; assumption.
Qed.

(** Leaving decisions out keeps the students distinct. *)
Lemma kept_decisions_distinct (keep : Reconcile.AttendanceDecision -> bool)
    (ds : list Reconcile.AttendanceDecision) :
  NoDup (map Reconcile.student ds) ->
  NoDup (map Reconcile.student (filter keep ds)).
Proof.
  induction ds as [|a ds IH]; intros Hnd; [exact Hnd|].
  simpl in Hnd. apply NoDup_cons_iff in Hnd. destruct Hnd as [Hfresh Hnd].
  simpl. destruct (keep a); [|apply IH; exact Hnd].
  simpl. apply NoDup_cons; [|apply IH; exact Hnd].
  intros H. apply Hfresh. apply in_map_iff in H. destruct H as (x & E & Hx).
  apply filter_In in Hx. rewrite <- E. apply in_map. apply Hx.
Qed.

Lemma only_one_is_for (b : Reconcile.AttendanceDecision)
    (ds : list Reconcile.AttendanceDecision) :
  NoDup (map Reconcile.student ds) -> In b ds ->
  filter (is_for (Reconcile.student b)) ds = [b].
Proof.
  induction ds as [|d ds IH]; simpl; intros Hnd Hin; [contradiction|].
  inversion Hnd as [|z zs Hnotin Hnd']; subst.
  assert (Hnone : forall l, ~ In (Reconcile.student b) (map Reconcile.student l) ->
                            filter (is_for (Reconcile.student b)) l = []).
  { induction l as [|x l IHl]; simpl; intros H; [reflexivity|].
    unfold is_for at 1. destruct (String.eqb_spec (Reconcile.student x) (Reconcile.student b)) as [E|E].
    - exfalso. apply H. left. exact E.
    - apply IHl. intros H'. apply H. right. exact H'. }
  destruct Hin as [->|Hin].
  - unfold is_for at 1. rewrite String.eqb_refl. f_equal. apply Hnone. exact Hnotin.
  - unfold is_for at 1.
    destruct (String.eqb_spec (Reconcile.student d) (Reconcile.student b)) as [E|E].
    + exfalso. apply Hnotin. rewrite E. apply in_map. exact Hin.
    + apply IH; assumption.
Qed.

Lemma fold_upsert_other_matching (key : CommitKey) (now : Time) (k : RowKey)
    (ds : list Reconcile.AttendanceDecision) :
  (forall d, In d ds -> row_key key d <> k) ->
  forall t, matching key_of key_eqb k (fold_left (upsert key now) ds t)
            = matching key_of key_eqb k t.
Proof.
  induction ds as [|d ds IH]; intros Hall t; simpl; [reflexivity|].
  rewrite IH.
  - apply upsert_other_matching. apply Hall. left. reflexivity.
  - intros d' Hin. apply Hall. right. exact Hin.
Qed.

Lemma commit_refusing (key : CommitKey) (now : Time)
    (b : Reconcile.AttendanceDecision) (e : PgError)
    (ds : list Reconcile.AttendanceDecision) :
  classify e = Rejected ->
  forall t n,
    NoDup (map key_of t) ->
    exists n' calls,
      run record_store (commit ds key now)
          (mkStore t n (refuse_writes_of (row_key key b) e))
      = (mkCommitResult
           (map Reconcile.student
                (filter (fun d => negb (is_for (Reconcile.student b) d)) ds))
           (map (fun d => (Reconcile.student d, Rejected))
                (filter (is_for (Reconcile.student b)) ds)),
         mkStore (fold_left (upsert key now)
                    (filter (fun d => negb (is_for (Reconcile.student b) d)) ds) t)
                 n' (refuse_writes_of (row_key key b) e),
         calls)
      /\ forall d, In d ds -> writes_for key d calls.
Proof.
  intros He. induction ds as [|d ds IH]; intros t n Hnd.
  - exists n, []. split; [reflexivity | intros d []].
  - rewrite commit_step. cbn zeta. cbn [filter].
    destruct (is_for (Reconcile.student b) d) eqn:Ed; cbn [negb].
    + assert (Hk : row_key key d = row_key key b).
      { unfold is_for in Ed. apply String.eqb_eq in Ed.
        unfold row_key. rewrite Ed. reflexivity. }
      destruct (commit_one_refused key now d t n e He Hnd)
        as (n1 & calls1 & E1 & W1).
      rewrite Hk in E1. rewrite E1. cbn [fst snd].
      destruct (IH t n1 Hnd) as (n2 & calls2 & E2 & W2).
      rewrite E2. cbn [fst snd record_outcome succeeded failed map].
      eexists _, _. split; [reflexivity|].
      intros d' [<-|Hin].
      * destruct W1 as (c & Hc & Hw & Hck). exists c.
        split; [apply in_or_app; left; exact Hc | split; assumption].
      * destruct (W2 d' Hin) as (c & Hc & Hw & Hck). exists c.
        split; [apply in_or_app; right; exact Hc | split; assumption].
    + assert (Hk : row_key key d <> row_key key b).
      { intros H. apply row_key_inj in H. unfold is_for in Ed.
        apply String.eqb_neq in Ed. contradiction. }
      destruct (commit_one_served key now d t n
                  (refuse_writes_of (row_key key b) e) Hnd)
        as (n1 & calls1 & E1 & W1).
      { intros m c Hc. unfold refuse_writes_of. rewrite Hc.
        rewrite (key_eqb_neq _ _ Hk). rewrite andb_false_r. reflexivity. }
      rewrite E1. cbn [fst snd].
      destruct (IH (upsert key now t d) n1 (upsert_nodup key now t d Hnd))
        as (n2 & calls2 & E2 & W2).
      rewrite E2. cbn [fst snd record_outcome succeeded failed map fold_left].
      eexists _, _. split; [reflexivity|].
      intros d' [<-|Hin].
      * destruct W1 as (c & Hc & Hw & Hck). exists c.
        split; [apply in_or_app; left; exact Hc | split; assumption].
      * destruct (W2 d' Hin) as (c & Hc & Hw & Hck). exists c.
        split; [apply in_or_app; right; exact Hc | split; assumption].
Qed.

(** C3 — isolation of a refused student: when the store refuses the writes
    of one student of the list (one decision per student) and serves all
    the others, a write is attempted for every decision; [succeeded] lists
    exactly the other students, in order; [failed] holds the refused student
    with the reason [Rejected]; every other decision is in the table after
    the commit, and the rows of the refused student are as they were. *)
Theorem commit_isolates_refused_student (t0 : list PersistedAttendanceRecord)
    (ds : list Reconcile.AttendanceDecision) (key : CommitKey) (now : Time)
    (b : Reconcile.AttendanceDecision) (e : PgError) :
  NoDup (map key_of t0) ->
  NoDup (map Reconcile.student ds) ->
  In b ds ->
  classify e = Rejected ->
  let out := run record_store (commit ds key now)
                 (mkStore t0 0 (refuse_writes_of (row_key key b) e)) in
  let result := fst (fst out) in
  let t := table (snd (fst out)) in
  let calls := snd out in
  succeeded result =
    map Reconcile.student
        (filter (fun d => negb (is_for (Reconcile.student b) d)) ds) /\
  failed result = [(Reconcile.student b, Rejected)] /\
  (forall d, In d ds -> writes_for key d calls) /\
  (forall d, In d ds -> d <> b ->
             In (Reconcile.student d) (succeeded result) /\ stored key d t) /\
  ~ In (Reconcile.student b) (succeeded result) /\
  matching key_of key_eqb (row_key key b) t
    = matching key_of key_eqb (row_key key b) t0 /\
  NoDup (map key_of t).
Proof.
  intros Ht Hds Hb He. cbn zeta.
  destruct (commit_refusing key now b e ds He t0 0 Ht) as (n' & calls & E & W).
  rewrite E. cbn [fst snd succeeded failed table].
  set (others := filter (fun d => negb (is_for (Reconcile.student b) d)) ds).
  assert (Hother : forall d, In d ds -> d <> b -> In d others).
  { intros d Hd Hne. apply filter_In. split; [exact Hd|].
    unfold is_for. apply negb_true_iff. apply String.eqb_neq.
    intros Heq. apply Hne.
    apply (same_student_same_decision ds d b Hds Hd Hb Heq). }
  split; [reflexivity|].
  split; [rewrite (only_one_is_for b ds Hds Hb); reflexivity|].
  split; [exact W|].
  split.
  { intros d Hd Hne. split.
    - apply in_map. apply Hother; assumption.
    - apply fold_upsert_stored.
      + apply kept_decisions_distinct. exact Hds.
      + apply Hother; assumption. }
  split.
  { intros H. apply in_map_iff in H. destruct H as (d & Ed & Hd).
    apply filter_In in Hd. destruct Hd as [_ Hd].
    unfold is_for in Hd. apply negb_true_iff in Hd.
    apply String.eqb_neq in Hd. contradiction. }
  split.
  { apply fold_upsert_other_matching. intros d Hd H.
    apply filter_In in Hd. destruct Hd as [_ Hd].
    unfold is_for in Hd. apply negb_true_iff in Hd.
    apply String.eqb_neq in Hd. apply row_key_inj in H. contradiction. }
  apply fold_upsert_nodup. exact Ht.
Qed.

End GatewayFacts.

(** ** The claims on sample data *)

Module Checks.

Import Samples.

(** The two scenarios of the testable properties. *)
Example scenario_one_detection :
  Reconcile.reconcile roster_ABC [face "A" 0.6%Q] (Reconcile.threshold_of None)
  = inr [Reconcile.mkDecision "A" present Reconcile.auto_detected (Some 0.6%Q) (Some 0);
         Reconcile.mkDecision "B" absent Reconcile.auto_detected None None;
         Reconcile.mkDecision "C" absent Reconcile.auto_detected None None].
Proof. reflexivity. Qed.

Example scenario_two_detections :
  Reconcile.reconcile roster_AB [face "A" 0.3%Q; face "A" 0.5%Q] 0.4%Q
  = inr [Reconcile.mkDecision "A" present Reconcile.auto_detected (Some 0.5%Q) (Some 1);
         Reconcile.mkDecision "B" absent Reconcile.auto_detected None None].
Proof. reflexivity. Qed.

Example scenario_duplicates :
  Reconcile.reconcile roster_AB [face "A" 0.6%Q; face "A" 0.8%Q] 0.4%Q
  = inr [Reconcile.mkDecision "A" present Reconcile.auto_detected (Some 0.8%Q) (Some 1);
         Reconcile.mkDecision "B" absent Reconcile.auto_detected None None].
Proof. reflexivity. Qed.

Example scenario_empty_roster :
  Reconcile.reconcile [] [face "A" 0.6%Q] 0.4%Q = inl Reconcile.EmptyRosterError.
Proof. reflexivity. Qed.

Example scenario_unknown_identity :
  Reconcile.reconcile roster_AB [face "Z" 0.9%Q; unmatched_face] 0.4%Q
  = inr [Reconcile.mkDecision "A" absent Reconcile.auto_detected None None;
         Reconcile.mkDecision "B" absent Reconcile.auto_detected None None]
  /\ Reconcile.unknown_detections roster_AB [face "Z" 0.9%Q; unmatched_face]
     = [face "Z" 0.9%Q].
Proof. split; reflexivity. Qed.

(** C1 on the roster A, B, C with one detection. *)
Lemma reconcile_coverage_witness :
  roster_ABC <> [] /\
  exists ds,
    Reconcile.reconcile roster_ABC [face "A" 0.6%Q; face "Z" 0.9%Q] 0.4%Q = inr ds /\
    List.length ds = 3 /\
    map Reconcile.student ds = ["A"; "B"; "C"].
Proof.
  assert (H : roster_ABC <> []) by discriminate.
  split; [exact H|].
  destruct (ReconcileFacts.reconcile_coverage roster_ABC
              [face "A" 0.6%Q; face "Z" 0.9%Q] 0.4%Q H)
    as (ds & E & L & M & _).
  exists ds. split; [exact E|]. split; [exact L | exact M].
Defined.

(** C4 with a detection exactly at the threshold. *)
Lemma threshold_boundary_witness :
  Reconcile.reconcile roster_AB [face "A" 0.4%Q; face "B" 0.39%Q] (2 # 5)%Q
    = inr [Reconcile.mkDecision "A" present Reconcile.auto_detected (Some 0.4%Q) (Some 0);
           Reconcile.mkDecision "B" absent Reconcile.auto_detected None None] /\
  Reconcile.status
    (Reconcile.mkDecision "A" present Reconcile.auto_detected (Some 0.4%Q) (Some 0))
    = present.
Proof.
  assert (E : Reconcile.reconcile roster_AB [face "A" 0.4%Q; face "B" 0.39%Q] (2 # 5)%Q
              = inr [Reconcile.mkDecision "A" present Reconcile.auto_detected
                                          (Some 0.4%Q) (Some 0);
                     Reconcile.mkDecision "B" absent Reconcile.auto_detected None None])
    by reflexivity.
  split; [exact E|].
  refine (proj1 (proj1 (ReconcileFacts.threshold_boundary _ _ _ _ _ E
                          (or_introl eq_refl)) _)).
  exists (face "A" 0.4%Q), 0.4%Q.
  split; [left; reflexivity|]. split; [reflexivity|]. reflexivity.
Defined.

(** C5 with confidences 0.6 and 0.8. *)
Lemma duplicate_match_resolution_witness :
  Reconcile.reconcile roster_AB [face "A" 0.6%Q; face "A" 0.8%Q] 0.4%Q
    = inr [Reconcile.mkDecision "A" present Reconcile.auto_detected (Some 0.8%Q) (Some 1);
           Reconcile.mkDecision "B" absent Reconcile.auto_detected None None] /\
  exists cmax i dmax,
    Some 0.8%Q = Some cmax /\
    Some 1 = Some i /\
    nth_error [face "A" 0.6%Q; face "A" 0.8%Q] i = Some dmax /\
    Reconcile.matched dmax = Some ("A", cmax) /\
    (0.6 <= cmax)%Q.
Proof.
  assert (E : Reconcile.reconcile roster_AB [face "A" 0.6%Q; face "A" 0.8%Q] 0.4%Q
              = inr [Reconcile.mkDecision "A" present Reconcile.auto_detected
                                          (Some 0.8%Q) (Some 1);
                     Reconcile.mkDecision "B" absent Reconcile.auto_detected None None])
    by reflexivity.
  split; [exact E|].
  destruct (ReconcileFacts.duplicate_match_resolution _ _ _ _ _ E (or_introl eq_refl))
    as (cmax & i & dmax & _ & Hc & Hl & Hn & Hm & Hmax).
  { exists (face "A" 0.6%Q), 0.6%Q.
    split; [left; reflexivity|]. split; [reflexivity|]. discriminate. }
  exists cmax, i, dmax. repeat split; try assumption.
  apply (Hmax (face "A" 0.6%Q)); [left; reflexivity | reflexivity].
Defined.

(** C8 as stated asks for the failed subset to be flagged.  The component
    keeps no such flag: whichever students a response reports as failed, the
    state after the failure is the same, so no reading of the state can tell
    the failed subset. *)
Lemma save_failure_flags_no_subset :
  fst (MassFaceRecognition.saveAttendance props0 review0
         (MassFaceRecognition.partial_failure "1 of 3 records failed" ["A"]))
  = fst (MassFaceRecognition.saveAttendance props0 review0
           (MassFaceRecognition.partial_failure "1 of 3 records failed" ["B"]))
  /\
  ~ exists flagged : MassFaceRecognition.State -> list string,
      forall ids,
        flagged (fst (MassFaceRecognition.saveAttendance props0 review0
                        (MassFaceRecognition.partial_failure
                           "1 of 3 records failed" ids)))
        = ids.
Proof.
  split; [reflexivity|].
  intros [flagged H].
  pose proof (H ["A"]) as HA. pose proof (H ["B"]) as HB.
  change (fst (MassFaceRecognition.saveAttendance props0 review0
                 (MassFaceRecognition.partial_failure "1 of 3 records failed" ["B"])))
    with (fst (MassFaceRecognition.saveAttendance props0 review0
                 (MassFaceRecognition.partial_failure "1 of 3 records failed" ["A"])))
    in HB.
  rewrite HA in HB. discriminate HB.
Qed.

(** C8 on a response that reports one failed record. *)
Lemma save_failure_returns_to_review_witness :
  MassFaceRecognition.save_succeeded
    (MassFaceRecognition.partial_failure "1 of 3 records failed" ["B"]) = false /\
  MassFaceRecognition.currentStep
    (fst (MassFaceRecognition.saveAttendance props0 review0
            (MassFaceRecognition.partial_failure "1 of 3 records failed" ["B"])))
  = MassFaceRecognition.Review /\
  MassFaceRecognition.editedResults
    (fst (MassFaceRecognition.saveAttendance props0 review0
            (MassFaceRecognition.partial_failure "1 of 3 records failed" ["B"])))
  = [row_A; row_B; row_C].
Proof.
  assert (H : MassFaceRecognition.save_succeeded
                (MassFaceRecognition.partial_failure "1 of 3 records failed" ["B"])
              = false) by reflexivity.
  split; [exact H|].
  destruct (PageFacts.save_failure_returns_to_review props0 review0 _ page0 7 H)
    as (H1 & H2 & _).
  split; [exact H1 | exact H2].
Defined.

(** The other failures end the same way; a success closes the session. *)
Example save_outcomes :
  MassFaceRecognition.currentStep
    (fst (MassFaceRecognition.saveAttendance props0 review0
            (MassFaceRecognition.Rejected "Failed to fetch")))
  = MassFaceRecognition.Review /\
  MassFaceRecognition.error
    (fst (MassFaceRecognition.saveAttendance props0 review0
            (MassFaceRecognition.Response false
               (inr (JObj [("detail", JStr "Database error")])))))
  = Some (Text "Database error") /\
  MassFaceRecognition.closes
    (snd (MassFaceRecognition.saveAttendance props0 review0
            (MassFaceRecognition.Response true
               (inr (JObj [("success", JBool true); ("saved_records", JNum 3%Q)])))))
  = true.
Proof. repeat split. Qed.

(** C9 on the sample session. *)
Lemma close_in_review_sends_nothing_witness :
  MassFaceRecognition.currentStep review0 = MassFaceRecognition.Review /\
  MassFaceRecognition.requests (snd (MassFaceRecognition.closeButton review0)) = [] /\
  AttendancePage.showFaceRecognition
    (AttendancePage.callbacks 7 (snd (MassFaceRecognition.closeButton review0)) page0)
  = false /\
  AttendancePage.attendance
    (AttendancePage.callbacks 7 (snd (MassFaceRecognition.closeButton review0)) page0)
  = [].
Proof.
  assert (H : MassFaceRecognition.currentStep review0 = MassFaceRecognition.Review)
    by reflexivity.
  split; [exact H|].
  destruct (PageFacts.close_in_review_sends_nothing review0 page0 7 H)
    as (_ & H2 & _ & _ & _ & H6 & H7 & _).
  split; [exact H2|]. split; [exact H6 | exact H7].
Defined.

(** C10 on the three sample rows: confidence 0.9, 0 and null. *)
Lemma marked_via_face_recognition_iff_witness :
  nth_error [row_A; row_B; row_C] 0 = Some row_A /\
  map AttendanceRecord.marked_via
      (AttendancePage.attendance
         (fst (AttendancePage.handleFaceRecognitionResults page0 7
                 [row_A; row_B; row_C])))
  = [Some face_recognition; Some manual; Some manual] /\
  exists record,
    nth_error (AttendancePage.attendance
                 (fst (AttendancePage.handleFaceRecognitionResults page0 7
                         [row_A; row_B; row_C]))) 0 = Some record /\
    (AttendanceRecord.marked_via record = Some face_recognition <->
       exists q, MassFaceRecognition.confidence row_A = Some q /\ (0 < q)%Q).
Proof.
  assert (H : nth_error [row_A; row_B; row_C] 0 = Some row_A) by reflexivity.
  split; [exact H|]. split; [reflexivity|].
  destruct (PageFacts.marked_via_face_recognition_iff page0 7 _ 0 row_A H)
    as (record & H1 & _ & _ & H4 & _).
  exists record. split; [exact H1 | exact H4].
Defined.

(** C7 on a lost race: another session inserts the row of the same student,
    date and subject just before the page's insert. *)
Lemma conflict_retried_once_as_update_witness :
  AttendancePage.selectedSubject page0 <> "" /\
  AttendancePage.selectedClassType page0 <> "" /\
  AttendancePage.selectedClass page0 = Some class0 /\
  AttendancePage.find_student page0 "A" = Some student0 /\
  AttendancePage.findIndex page0 "A" = None /\
  Db.error (fst (Db.respond AttendancePage.attendance_table
                   (Db.Insert (AttendancePage.attendanceRecord page0 class0 student0
                                                              "A" late))
                   world0))
    = Some Db.unique_violation /\
  Db.code Db.unique_violation = "23505" /\
  filter Db.is_write
         (snd (Db.run AttendancePage.attendance_table
                 (AttendancePage.markAttendance page0 9 "A" late) world0))
  = [Db.Insert (AttendancePage.attendanceRecord page0 class0 student0 "A" late);
     Db.Update (AttendancePage.the_patch page0 9 late)
               (AttendancePage.the_key page0 "A")].
Proof.
  assert (H1 : AttendancePage.selectedSubject page0 <> "") by discriminate.
  assert (H2 : AttendancePage.selectedClassType page0 <> "") by discriminate.
  assert (H3 : AttendancePage.selectedClass page0 = Some class0) by reflexivity.
  assert (H4 : AttendancePage.find_student page0 "A" = Some student0) by reflexivity.
  assert (H5 : AttendancePage.findIndex page0 "A" = None) by reflexivity.
  assert (H6 : Db.error (fst (Db.respond AttendancePage.attendance_table
                   (Db.Insert (AttendancePage.attendanceRecord page0 class0 student0
                                                              "A" late))
                   world0))
               = Some Db.unique_violation) by reflexivity.
  assert (H7 : Db.code Db.unique_violation = "23505") by reflexivity.
  repeat (split; [assumption|]).
  exact (proj1 (PageFacts.conflict_retried_once_as_update
                  AttendancePage.attendance_table page0 9 "A" late class0 student0
                  H1 H2 H3 H4 H5 world0 Db.unique_violation H6 H7)).
Defined.

(** C7 as stated has a failed retry end in a reported failure.  Here the
    insert hits the other session's row, the update is refused, nothing is
    written, and yet the check read finds the row and success is reported. *)
Lemma failed_retry_can_report_success :
  let w := Db.mkStore [rival_row] 0 (refused_at 1) in
  let out := Db.run AttendancePage.attendance_table
                    (AttendancePage.markAttendance page0 9 "A" late) w in
  Db.error (fst (Db.respond AttendancePage.attendance_table
                   (Db.Insert (AttendancePage.attendanceRecord page0 class0 student0
                                                              "A" late)) w))
    = Some Db.unique_violation /\
  snd out
    = [Db.Insert (AttendancePage.attendanceRecord page0 class0 student0 "A" late);
       Db.Update (AttendancePage.the_patch page0 9 late)
                 (AttendancePage.the_key page0 "A");
       Db.Select (AttendancePage.the_key page0 "A")] /\
  Db.table (snd (fst out)) = [rival_row] /\
  AttendanceRecord.status rival_row = absent /\
  In (AttendancePage.success_toast student0 late) (snd (fst (fst out))) /\
  ~ In AttendancePage.error_toast (snd (fst (fst out))).
Proof.
  cbv zeta. split; [reflexivity|]. split; [reflexivity|].
  split; [reflexivity|]. split; [reflexivity|]. split.
  - vm_compute. right. right. left. reflexivity.
  - vm_compute. intros [H|[H|[H|[]]]]; discriminate H.
Qed.

(** A refused insert is not retried. *)
Lemma insert_error_not_retried_witness :
  AttendancePage.selectedSubject page0 <> "" /\
  AttendancePage.selectedClassType page0 <> "" /\
  AttendancePage.selectedClass page0 = Some class0 /\
  AttendancePage.find_student page0 "A" = Some student0 /\
  AttendancePage.findIndex page0 "A" = None /\
  Db.code check_violation <> "23505" /\
  snd (Db.run AttendancePage.attendance_table
         (AttendancePage.markAttendance page0 9 "A" late)
         (Db.mkStore [] 0 (refused_at 0)))
  = [Db.Insert (AttendancePage.attendanceRecord page0 class0 student0 "A" late);
     Db.Select (AttendancePage.the_key page0 "A")].
Proof.
  assert (H1 : AttendancePage.selectedSubject page0 <> "") by discriminate.
  assert (H2 : AttendancePage.selectedClassType page0 <> "") by discriminate.
  assert (H3 : AttendancePage.selectedClass page0 = Some class0) by reflexivity.
  assert (H4 : AttendancePage.find_student page0 "A" = Some student0) by reflexivity.
  assert (H5 : AttendancePage.findIndex page0 "A" = None) by reflexivity.
  assert (H6 : Db.code check_violation <> "23505") by discriminate.
  repeat (split; [assumption|]).
  exact (proj1 (PageFacts.insert_error_not_retried
                  AttendancePage.attendance_table page0 9 "A" late class0 student0
                  H1 H2 H3 H4 H5 (Db.mkStore [] 0 (refused_at 0)) check_violation
                  eq_refl H6)).
Defined.

(** A failed retry whose check read finds the other session's row. *)
Lemma failed_retry_reports_what_check_finds_witness :
  AttendancePage.attendance
    (fst (fst (fst (Db.run AttendancePage.attendance_table
                      (AttendancePage.markAttendance page0 9 "A" late)
                      (Db.mkStore [rival_row] 0 (refused_at 1))))))
  = [rival_row] /\
  AttendanceRecord.status rival_row = absent.
Proof.
  assert (H1 : AttendancePage.selectedSubject page0 <> "") by discriminate.
  assert (H2 : AttendancePage.selectedClassType page0 <> "") by discriminate.
  assert (H3 : AttendancePage.selectedClass page0 = Some class0) by reflexivity.
  assert (H4 : AttendancePage.find_student page0 "A" = Some student0) by reflexivity.
  assert (H5 : AttendancePage.findIndex page0 "A" = None) by reflexivity.
  split; [|reflexivity].
  refine (proj1 (PageFacts.failed_retry_reports_what_check_finds
                   AttendancePage.attendance_table page0 9 "A" late class0 student0
                   H1 H2 H3 H4 H5 (Db.mkStore [rival_row] 0 (refused_at 1))
                   Db.unique_violation rival_row eq_refl eq_refl _ eq_refl)).
  discriminate.
Defined.

(** A student in the local list is updated. *)
Lemma known_record_is_updated_witness :
  AttendancePage.findIndex page1 "A" = Some 0 /\
  snd (Db.run AttendancePage.attendance_table
         (AttendancePage.markAttendance page1 9 "A" late)
         (Db.mkStore [rival_row] 0 Db.quiet))
  = [Db.Update (AttendancePage.the_patch page1 9 late)
               (AttendancePage.the_key page1 "A")].
Proof.
  assert (H1 : AttendancePage.selectedSubject page1 <> "") by discriminate.
  assert (H2 : AttendancePage.selectedClassType page1 <> "") by discriminate.
  assert (H3 : AttendancePage.selectedClass page1 = Some class0) by reflexivity.
  assert (H4 : AttendancePage.find_student page1 "A" = Some student0) by reflexivity.
  assert (H5 : AttendancePage.findIndex page1 "A" = Some 0) by reflexivity.
  split; [exact H5|].
  refine (proj1 (proj2 (PageFacts.known_record_is_updated
                          AttendancePage.attendance_table page1 9 "A" late class0
                          student0 0 H1 H2 H3 H4 H5
                          (Db.mkStore [rival_row] 0 Db.quiet))) _).
  reflexivity.
Defined.

(** A successful save on the sample session. *)
Lemma save_success_hands_over_witness :
  MassFaceRecognition.save_succeeded
    (MassFaceRecognition.Response true
       (inr (JObj [("success", JBool true); ("saved_records", JNum 3%Q)]))) = true /\
  map AttendanceRecord.user_id
      (AttendancePage.attendance
         (AttendancePage.callbacks 7
            (snd (MassFaceRecognition.saveAttendance props0 review0
                    (MassFaceRecognition.Response true
                       (inr (JObj [("success", JBool true);
                                   ("saved_records", JNum 3%Q)])))))
            page0))
  = ["A"; "B"; "C"].
Proof.
  assert (H : MassFaceRecognition.save_succeeded
                (MassFaceRecognition.Response true
                   (inr (JObj [("success", JBool true); ("saved_records", JNum 3%Q)])))
              = true) by reflexivity.
  split; [exact H|].
  destruct (PageFacts.save_success_hands_over props0 review0 _ page0 7 H)
    as (_ & H2 & _).
  rewrite H2. reflexivity.
Defined.

(** The one field a repeated commit touches: a second commit of the same
    decisions, one clock tick later, overwrites the update timestamps, as
    the upsert of section 4.3 does, and leaves everything else as it was. *)
Example second_commit_overwrites_timestamps :
  let first := Gateway.commit_on [] Db.quiet decisions0 key0 1 in
  let second := Gateway.commit_on (snd first) Db.quiet decisions0 key0 2 in
  map Gateway.r_updated_at (snd first) = [1; 1; 1] /\
  map Gateway.r_updated_at (snd second) = [2; 2; 2] /\
  map Gateway.untimed (snd second) = map Gateway.untimed (snd first).
Proof.
  cbv zeta. split; [reflexivity|]. split; reflexivity.
Qed.

(** C2 on three decisions and an empty table. *)
Lemma commit_twice_same_rows_witness :
  NoDup (map Gateway.key_of []) /\
  Gateway.succeeded
    (fst (Gateway.commit_on
            (snd (Gateway.commit_on [] Db.quiet decisions0 key0 1))
            Db.quiet decisions0 key0 2))
  = Gateway.succeeded (fst (Gateway.commit_on [] Db.quiet decisions0 key0 1)) /\
  map Gateway.untimed
      (snd (Gateway.commit_on
              (snd (Gateway.commit_on [] Db.quiet decisions0 key0 1))
              Db.quiet decisions0 key0 2))
  = map Gateway.untimed (snd (Gateway.commit_on [] Db.quiet decisions0 key0 1)).
Proof.
  assert (H1 : NoDup (map Gateway.key_of [])) by constructor.
  split; [exact H1|].
  destruct (GatewayFacts.commit_twice_same_rows [] decisions0 key0 1 2 H1)
    as (_ & _ & H5 & _ & _ & _ & _ & H10 & _).
  split; [exact H5 | exact H10].
Defined.

(** C3 on three decisions, the second of which the store refuses. *)
Lemma commit_isolates_refused_student_witness :
  NoDup (map Gateway.key_of []) /\
  NoDup (map Reconcile.student decisions0) /\
  In dec_B decisions0 /\
  Gateway.classify check_violation = Gateway.Rejected /\
  Gateway.succeeded
    (fst (fst (Db.run Gateway.record_store (Gateway.commit decisions0 key0 1)
                 (Db.mkStore [] 0
                    (Gateway.refuse_writes_of (Gateway.row_key key0 dec_B)
                                              check_violation)))))
  = ["A"; "C"] /\
  Gateway.failed
    (fst (fst (Db.run Gateway.record_store (Gateway.commit decisions0 key0 1)
                 (Db.mkStore [] 0
                    (Gateway.refuse_writes_of (Gateway.row_key key0 dec_B)
                                              check_violation)))))
  = [("B", Gateway.Rejected)].
Proof.
  assert (H1 : NoDup (map Gateway.key_of [])) by constructor.
  assert (H2 : NoDup (map Reconcile.student decisions0)).
  { repeat constructor; simpl; intuition discriminate. }
  assert (H3 : In dec_B decisions0) by (right; left; reflexivity).
  assert (H4 : Gateway.classify check_violation = Gateway.Rejected) by reflexivity.
  repeat (split; [assumption|]).
  destruct (GatewayFacts.commit_isolates_refused_student [] decisions0 key0 1
              dec_B check_violation H1 H2 H3 H4)
    as (H5 & H6 & _).
  split; [exact H5 | exact H6].
Defined.

(** The table after that commit: the rows of A and C, none for B. *)
Example refused_student_not_written :
  map Gateway.r_studentId
      (Db.table
         (snd (fst (Db.run Gateway.record_store (Gateway.commit decisions0 key0 1)
                      (Db.mkStore [] 0
                         (Gateway.refuse_writes_of (Gateway.row_key key0 dec_B)
                                                   check_violation))))))
  = ["A"; "C"].
Proof. reflexivity. Qed.

End Checks.

(** ** The review component: the photo, the recognition and the summary *)

Module PhotoFacts.

Import MassFaceRecognition ClassPhoto.

(** A file passes [validateFile] exactly when its type is one of the three
    accepted ones and it has at most [MAX_FILE_SIZE] bytes. *)
Lemma validateFile_accepts (f : File) :
  valid (validateFile f) = true <->
  In (file_type f) ACCEPTED_TYPES /\ file_size f <= MAX_FILE_SIZE.
Proof.
  unfold validateFile.
  destruct (existsb (String.eqb (file_type f)) ACCEPTED_TYPES) eqn:Ht; simpl.
  - apply existsb_exists in Ht. destruct Ht as (x & Hin & Hx).
    apply String.eqb_eq in Hx. subst x.
    destruct (Nat.ltb MAX_FILE_SIZE (file_size f)) eqn:Hs; simpl.
    + apply Nat.ltb_lt in Hs. split; [discriminate|]. intros [_ H]. lia.
    + apply Nat.ltb_ge in Hs. split; [intros _; split; assumption | reflexivity].
  - split; [discriminate|]. intros [Hin _]. exfalso.
    assert (H : existsb (String.eqb (file_type f)) ACCEPTED_TYPES = true).
    { apply existsb_exists. exists (file_type f). split; [exact Hin|].
      apply String.eqb_refl. }
    congruence.
Qed.

(** On an array of rows the toast counts the rows with the detected flag,
    and counting does not throw. *)
Lemma count_detected_rows (items : list Json) (rows : list Student) :
  rows_of items = Some rows ->
  count_detected items = inr (List.length (filter detected rows)).
Proof.
  revert rows. induction items as [|item rest IH]; intros rows H; simpl in H.
  - inversion H. reflexivity.
  - destruct (row_of item) as [row|] eqn:Hr; [|discriminate].
    destruct (rows_of rest) as [rows'|] eqn:Hrest; [|discriminate].
    inversion H; subst rows. clear H.
    cbn [count_detected]. rewrite (IH rows' eq_refl).
    destruct item as [| b | q | t | items | fields]; try discriminate.
    cbn [row_of] in Hr. cbn [read].
    destruct (string_of_json (lookup_field "student_id" fields)); [|discriminate].
    destruct (string_of_json (lookup_field "student_name" fields)); [|discriminate].
    destruct (confidence_of_json (lookup_field "confidence" fields)); [|discriminate].
    destruct (status_of_json (lookup_field "status" fields)); [|discriminate].
    destruct (lookup_field "detected" fields) as [[| d | q | t | items | fs]|];
      try discriminate.
    cbn [boolean_of_json] in Hr. inversion Hr; subst row.
    cbn [truthy filter detected]. destruct d; reflexivity.
Qed.

(** The [catch] and [finally] blocks leave the photo, the result cells and
    the saving flag alone. *)
Lemma caught_cells (c : Component) (m : Msg) :
  let c' := fst (caught c m) in
  classPhoto (state c') = classPhoto (state c) /\
  photoPreview (state c') = photoPreview (state c) /\
  saving (state c') = saving (state c) /\
  processing (state c') = false /\
  progress (state c') = 0 /\
  attendanceResults (state c') = attendanceResults (state c) /\
  editedResults (state c') = editedResults (state c) /\
  results_known c' = results_known c /\
  edited_known c' = edited_known c /\
  currentStep (state c') = Upload /\
  exists m', error (state c') = Some m'.
Proof.
  cbn zeta. simpl. repeat split. eexists. reflexivity.
Qed.

Lemma caught_sends_nothing (c : Component) (m : Msg) :
  posts (snd (caught c m)) = [].
Proof. reflexivity. Qed.

(** The branch [if (result.success)]: what it leaves of the cells it does
    not store the rows in, and what it stores. *)
Lemma processClassPhoto_success_cells (c : Component) (result : Json)
    (v : option Json) (thrown : string) :
  let c' := fst (processClassPhoto_success c result v thrown) in
  classPhoto (state c') = classPhoto (state c) /\
  photoPreview (state c') = photoPreview (state c) /\
  saving (state c') = saving (state c) /\
  processing (state c') = false /\
  progress (state c') = 0 /\
  posts (snd (processClassPhoto_success c result v thrown)) = [] /\
  match v with
  | Some (JArr items) =>
      match rows_of items with
      | Some rows =>
          attendanceResults (state c') = rows /\
          editedResults (state c') = rows /\
          results_known c' = true /\
          edited_known c' = true /\
          currentStep (state c') = Review /\
          error (state c') = error (state c)
      | None => edited_known c' = false
      end
  | Some (JStr _) => edited_known c' = false
  | _ =>
      edited_known c' = edited_known c /\
      editedResults (state c') = editedResults (state c) /\
      currentStep (state c') = Upload
  end.
Proof.
  cbn zeta.
  destruct v as [[| b | q | t | items | fields]|]; cbn [processClassPhoto_success];
    try (simpl; repeat split; reflexivity).
  unfold store_rows.
  destruct (rows_of items) as [rows|] eqn:Hrows.
  - rewrite (count_detected_rows items rows Hrows). simpl. repeat split.
  - destruct (count_detected items) as [t | n]; simpl; repeat split.
Qed.

(** With a truthy [success] the [try] block is the branch
    [if (result.success)] on the rows of the answer. *)
Lemma processClassPhoto_try_success (c : Component) (r : FetchResult)
    (thrown : string) :
  recognition_succeeded r = true ->
  exists result v,
    r = Response true (inr result) /\
    read result "attendance_results" = inr v /\
    processClassPhoto_try c r thrown =
    processClassPhoto_success
      (on_state (fun s => setProgress 100 (setProgress 60 s)) c) result v thrown.
Proof.
  intros H. destruct r as [message | [|] [message | j]]; try discriminate.
  simpl in H. exists j.
  destruct j as [| b | q | t | items | fields]; simpl in H; try discriminate.
  exists (lookup_field "attendance_results" fields).
  split; [reflexivity|]. split; [reflexivity|].
  cbn [processClassPhoto_try read]. rewrite H. reflexivity.
Qed.

(** Any other answer takes the [try] block to its [catch]. *)
Lemma processClassPhoto_try_failed (c : Component) (r : FetchResult)
    (thrown : string) :
  recognition_succeeded r = false ->
  exists c0 m,
    processClassPhoto_try c r thrown = caught c0 m /\
    classPhoto (state c0) = classPhoto (state c) /\
    photoPreview (state c0) = photoPreview (state c) /\
    saving (state c0) = saving (state c) /\
    attendanceResults (state c0) = attendanceResults (state c) /\
    editedResults (state c0) = editedResults (state c) /\
    results_known c0 = results_known c /\
    edited_known c0 = edited_known c.
Proof.
  intros H.
  destruct r as [message | [|] [message | j]]; cbn [processClassPhoto_try].
  - eexists _, _. split; [reflexivity|]. repeat split.
  - eexists _, _. split; [reflexivity|]. repeat split.
  - simpl in H. destruct (read j "success") as [t | success].
    + eexists _, _. split; [reflexivity|]. repeat split.
    + rewrite H. destruct (read j "message") as [t | message];
        eexists _, _; (split; [reflexivity|]); repeat split.
  - eexists _, _. split; [reflexivity|]. repeat split.
  - destruct (read j "detail") as [t | detail];
      eexists _, _; (split; [reflexivity|]); repeat split.
Qed.

Lemma recognised_rows_succeeded (r : FetchResult) (rows : list Student) :
  recognised_rows r = Some rows -> recognition_succeeded r = true.
Proof.
  destruct r as [message | [|] [message | j]]; try discriminate.
  simpl. destruct (read j "success") as [t | success]; [discriminate|].
  destruct (read j "attendance_results") as [t | [[| b | q | t | items | fields]|]];
    try discriminate.
  destruct (truthy success); [reflexivity | discriminate].
Qed.

(** What the [try] block of [processClassPhoto] leaves of the component it
    was given: the photo and the saving flag in any case; after an answer
    without a truthy [success] also the result cells; after an answer with
    rows of the declared type these rows in both cells; and after any other
    answer either the edited rows as they were, or rows that are not
    followed. *)
Lemma processClassPhoto_try_cells (c : Component) (r : FetchResult)
    (thrown : string) :
  let c' := fst (processClassPhoto_try c r thrown) in
  classPhoto (state c') = classPhoto (state c) /\
  photoPreview (state c') = photoPreview (state c) /\
  saving (state c') = saving (state c) /\
  processing (state c') = false /\
  progress (state c') = 0 /\
  posts (snd (processClassPhoto_try c r thrown)) = [] /\
  (recognition_succeeded r = false ->
     attendanceResults (state c') = attendanceResults (state c) /\
     editedResults (state c') = editedResults (state c) /\
     results_known c' = results_known c /\
     edited_known c' = edited_known c /\
     currentStep (state c') = Upload /\
     exists m, error (state c') = Some m) /\
  match recognised_rows r with
  | Some rows =>
      attendanceResults (state c') = rows /\
      editedResults (state c') = rows /\
      results_known c' = true /\
      edited_known c' = true /\
      currentStep (state c') = Review /\
      error (state c') = error (state c)
  | None =>
      edited_known c' = true ->
      edited_known c = true /\
      editedResults (state c') = editedResults (state c)
  end.
Proof.
  cbn zeta. destruct (recognition_succeeded r) eqn:Hr.
  - destruct (processClassPhoto_try_success c r thrown Hr)
      as (result & v & -> & Hv & ->).
    pose proof (processClassPhoto_success_cells
                  (on_state (fun s => setProgress 100 (setProgress 60 s)) c)
                  result v thrown) as H.
    cbn zeta in H. destruct H as (H1 & H2 & H3 & H4 & H5 & H6 & H7).
    split; [exact H1|]. split; [exact H2|]. split; [exact H3|].
    split; [exact H4|]. split; [exact H5|]. split; [exact H6|].
    split; [discriminate|].
    cbn [recognised_rows]. simpl in Hr.
    destruct (read result "success") as [t | success]; [discriminate|].
    rewrite Hv, Hr.
    destruct v as [[| b | q | t | items | fields]|];
      try (intros Hk; destruct H7 as (E1 & E2 & _); rewrite E1 in Hk;
           split; [exact Hk | exact E2]).
    + intros Hk. rewrite H7 in Hk. discriminate.
    + destruct (rows_of items) as [rows|].
      * exact H7.
      * intros Hk. rewrite H7 in Hk. discriminate.
  - destruct (processClassPhoto_try_failed c r thrown Hr)
      as (c0 & m & -> & E1 & E2 & E3 & E4 & E5 & E6 & E7).
    destruct (caught_cells c0 m)
      as (K1 & K2 & K3 & K4 & K5 & K6 & K7 & K8 & K9 & K10 & K11).
    split; [congruence|]. split; [congruence|]. split; [congruence|].
    split; [exact K4|]. split; [exact K5|]. split; [reflexivity|].
    split.
    { intros _. split; [congruence|]. split; [congruence|].
      split; [congruence|]. split; [congruence|]. split; [exact K10 | exact K11]. }
    destruct (recognised_rows r) as [rows|] eqn:Hrows.
    + apply recognised_rows_succeeded in Hrows. congruence.
    + intros Hk. split; congruence.
Qed.

Lemma processClassPhoto_unfold (p : Props) (c : Component) (r : FetchResult)
    (thrown : string) (photo : File) :
  classPhoto (state c) = Some photo ->
  processClassPhoto p c r thrown =
  (fst (processClassPhoto_try
          (on_state (setProgress 25)
             (on_state
                (fun s =>
                   setError None
                     (setCurrentStep Processing
                        (setProgress 0 (setProcessing true s)))) c)) r thrown),
   PostForm (FACE_RECOGNITION_API_URL ++ "/mass-recognition")
            (mkAttendanceData (classId p) (subject p) (classType p) (date p)
                              (facultyId p) (facultyName p))
            photo
     :: snd (processClassPhoto_try
               (on_state (setProgress 25)
                  (on_state
                     (fun s =>
                        setError None
                          (setCurrentStep Processing
                             (setProgress 0 (setProcessing true s)))) c))
               r thrown)).
Proof.
  intros H. unfold processClassPhoto. rewrite H.
  destruct (processClassPhoto_try _ r thrown) as [c' effects]. reflexivity.
Qed.

(** [saveAttendance] touches neither the photo nor the two lists. *)
Lemma saveAttendance_keeps_lists (p : Props) (s : State) (r : FetchResult) :
  let s' := fst (saveAttendance p s r) in
  classPhoto s' = classPhoto s /\
  attendanceResults s' = attendanceResults s /\
  editedResults s' = editedResults s.
Proof.
  cbn zeta. rewrite ComponentFacts.saveAttendance_unfold. cbn [fst].
  destruct r as [message | [|] [message | j]]; simpl; try (repeat split).
  - destruct (read j "success") as [thrown | ok]; simpl; [repeat split|].
    destruct (truthy ok); simpl; [repeat split|].
    destruct (read j "message"); simpl; repeat split.
  - destruct (read j "success") as [thrown | ok]; simpl; [repeat split|].
    destruct (truthy ok); simpl; [repeat split|].
    destruct (read j "message"); simpl; repeat split.
  - destruct (read j "success") as [thrown | ok]; simpl; [repeat split|].
    destruct (truthy ok); simpl; [repeat split|].
    destruct (read j "message"); simpl; repeat split.
  - destruct (read j "detail"); simpl; repeat split.
  - destruct (read j "detail"); simpl; repeat split.
  - destruct (read j "detail"); simpl; repeat split.
Qed.

Lemma handleFileSelect_photo (file : File) (url : string) (s : State) :
  photo_accepted s -> photo_accepted (handleFileSelect file url s).
Proof.
  unfold photo_accepted, handleFileSelect.
  destruct (valid (validateFile file)) eqn:Hv; simpl; intros H; assumption.
Qed.

Lemma handle_keeps_photo_accepted (p : Props) (c : Component) (e : Event) :
  photo_accepted (state c) -> photo_accepted (state (fst (handle p c e))).
Proof.
  intros H. destruct e as [files url | | r thrown | studentId st | | r |]; simpl.
  - destruct files as [|file rest]; simpl; [exact H|].
    apply handleFileSelect_photo. exact H.
  - exact I.
  - unfold photo_accepted in *.
    destruct (classPhoto (state c)) as [photo|] eqn:Hp.
    + rewrite (processClassPhoto_unfold p c r thrown photo Hp). cbn [fst].
      destruct (processClassPhoto_try_cells
                  (on_state (setProgress 25)
                     (on_state
                        (fun s =>
                           setError None
                             (setCurrentStep Processing
                                (setProgress 0 (setProcessing true s)))) c))
                  r thrown)
        as (Hc & _).
      rewrite Hc. simpl. rewrite Hp. exact H.
    + unfold processClassPhoto. rewrite Hp. simpl. rewrite Hp. exact I.
  - destruct (edited_known c); exact H.
  - exact H.
  - unfold photo_accepted in *.
    destruct (saveAttendance_keeps_lists p (state c) r) as (Hc & _).
    rewrite Hc. exact H.
  - exact H.
Qed.

(** A handler sends the photo the component holds. *)
Lemma handle_posts_held_photo (p : Props) (c : Component) (e : Event)
    (url : string) (d : AttendanceData) (f : File) :
  In (PostForm url d f) (snd (handle p c e)) -> classPhoto (state c) = Some f.
Proof.
  destruct e as [files u | | r thrown | studentId st | | r |]; simpl.
  - intros [].
  - intros [].
  - destruct (classPhoto (state c)) as [photo|] eqn:Hp.
    + rewrite (processClassPhoto_unfold p c r thrown photo Hp). cbn [snd].
      intros [H | H].
      * inversion H. reflexivity.
      * exfalso.
        destruct (processClassPhoto_try_cells
                    (on_state (setProgress 25)
                       (on_state
                          (fun s =>
                             setError None
                               (setCurrentStep Processing
                                  (setProgress 0 (setProcessing true s)))) c))
                    r thrown)
          as (_ & _ & _ & _ & _ & Hn & _).
        assert (Hin : In (PostForm url d f)
                         (posts (snd (processClassPhoto_try
                            (on_state (setProgress 25)
                               (on_state
                                  (fun s =>
                                     setError None
                                       (setCurrentStep Processing
                                          (setProgress 0 (setProcessing true s))))
                                  c))
                            r thrown)))).
        { apply filter_In. split; [exact H | reflexivity]. }
        rewrite Hn in Hin. destruct Hin.
    + unfold processClassPhoto. rewrite Hp. intros [].
  - destruct (edited_known c); intros [].
  - intros [].
  - intros H. apply in_map_iff in H. destruct H as (x & Hx & _).
    destruct (edited_known c); [discriminate|].
    destruct x; discriminate.
  - intros [H | []]. discriminate.
Qed.

Lemma session_posts_accepted_photo (p : Props) (events : list Event) :
  forall c url d f,
    photo_accepted (state c) ->
    In (PostForm url d f) (snd (session p c events)) ->
    valid (validateFile f) = true.
Proof.
  induction events as [|e rest IH]; intros c url d f Hs Hin; simpl in Hin.
  - destruct Hin.
  - destruct (handle p c e) as [c1 effects1] eqn:He.
    destruct (session p c1 rest) as [c2 effects2] eqn:Hr.
    simpl in Hin. apply in_app_or in Hin. destruct Hin as [Hin | Hin].
    + assert (Hp : classPhoto (state c) = Some f).
      { apply (handle_posts_held_photo p c e url d). rewrite He. exact Hin. }
      unfold photo_accepted in Hs. rewrite Hp in Hs. exact Hs.
    + apply (IH c1 url d f).
      * pose proof (handle_keeps_photo_accepted p c e Hs) as H.
        rewrite He in H. exact H.
      * rewrite Hr. exact Hin.
Qed.

(** Whatever is done with the component from the moment it is mounted, and
    whatever the service answers, every request to the recognition endpoint
    carries a photo that passed [validateFile]: one of the three accepted
    types and at most 20 * 1024 * 1024 bytes. *)
Theorem recognition_request_carries_accepted_photo (p : Props)
    (events : list Event) (url : string) (d : AttendanceData) (f : File) :
  In (PostForm url d f) (snd (session p mounted events)) ->
  In (file_type f) ["image/jpeg"; "image/jpg"; "image/png"] /\
  file_size f <= 20 * 1024 * 1024.
Proof.
  intros H. apply validateFile_accepts.
  apply (session_posts_accepted_photo p events mounted url d f); [exact I | exact H].
Qed.

Lemma same_students_refl (l : list Student) : same_students l l.
Proof.
  induction l as [|a l IH]; constructor; [|exact IH].
  repeat split.
Qed.







(** When the recognition does not succeed (the request is rejected, the
    response is not ok, its body does not parse or its [success] is falsy),
    the component is back in the upload step with an error message, the
    processing flag cleared and the progress at zero; the photo, its preview
    and both result lists are as they were, and one request was sent. *)
Theorem failed_recognition_returns_to_upload (p : Props) (c : Component)
    (r : FetchResult) (thrown : string) (photo : File) :
  classPhoto (state c) = Some photo ->
  recognition_succeeded r = false ->
  let s := state c in
  let s' := state (fst (processClassPhoto p c r thrown)) in
  let effects := snd (processClassPhoto p c r thrown) in
  currentStep s' = Upload /\
  (exists m, error s' = Some m) /\
  processing s' = false /\
  progress s' = 0 /\
  classPhoto s' = Some photo /\
  photoPreview s' = photoPreview s /\
  attendanceResults s' = attendanceResults s /\
  editedResults s' = editedResults s /\
  saving s' = saving s /\
  posts effects =
    [PostForm (FACE_RECOGNITION_API_URL ++ "/mass-recognition")
              (mkAttendanceData (classId p) (subject p) (classType p) (date p)
                                (facultyId p) (facultyName p))
              photo] /\
  results_known (fst (processClassPhoto p c r thrown)) = results_known c /\
  edited_known (fst (processClassPhoto p c r thrown)) = edited_known c.
Proof.
  intros Hp Hr. cbn zeta.
  rewrite (processClassPhoto_unfold p c r thrown photo Hp). cbn [fst snd].
  destruct (processClassPhoto_try_cells
              (on_state (setProgress 25)
                 (on_state
                    (fun s =>
                       setError None
                         (setCurrentStep Processing
                            (setProgress 0 (setProcessing true s)))) c))
              r thrown)
    as (Hc & Hv & Hs & Hg & Hz & Hn & Hl & _).
  destruct (Hl Hr) as (Ha & He & Hrk & Hek & Hu & Hm).
  split; [exact Hu|]. split; [exact Hm|]. split; [exact Hg|].
  split; [exact Hz|]. split; [rewrite Hc; exact Hp|].
  split; [exact Hv|]. split; [exact Ha|]. split; [exact He|].
  split; [exact Hs|].
  split; [cbn [posts filter]; f_equal; exact Hn|].
  split; [exact Hrk | exact Hek].
Qed.

Lemma counts_partition (l : list Student) :
  List.length (filter (has_status present) l)
  + List.length (filter (has_status absent) l)
  + List.length (filter (has_status late) l) = List.length l.
Proof.
  induction l as [|a l IH]; [reflexivity|].
  unfold has_status in *. simpl. destruct (status a); simpl; lia.
Qed.

Lemma same_students_detected (l1 l2 : list Student) :
  same_students l1 l2 ->
  List.length l1 = List.length l2 /\
  List.length (filter detected l1) = List.length (filter detected l2).
Proof.
  intros H. induction H as [|a b l1 l2 Hab H IH]; [split; reflexivity|].
  destruct IH as [IH1 IH2]. destruct Hab as (_ & _ & _ & Hd).
  simpl. rewrite Hd. split; [congruence|].
  destruct (detected b); simpl; congruence.
Qed.

Lemma session_of_edits (p : Props) (l : list (string * Status)) :
  forall c,
    edited_known c = true ->
    let c' := fst (session p c (edits l)) in
    same_students (editedResults (state c')) (editedResults (state c)) /\
    currentStep (state c') = currentStep (state c) /\
    attendanceResults (state c') = attendanceResults (state c) /\
    edited_known c' = true /\
    snd (session p c (edits l)) = [].
Proof.
  induction l as [|[studentId st] l IH]; intros c Hk; cbn zeta; simpl.
  - split; [apply same_students_refl|]. repeat split. exact Hk.
  - rewrite Hk.
    specialize (IH (on_state (updateStudentStatus studentId st) c) Hk).
    cbn zeta in IH.
    destruct (session p (on_state (updateStudentStatus studentId st) c) (edits l))
      as [c2 effects2].
    simpl in *. destruct IH as (H1 & H2 & H3 & H4 & H5).
    split; [|split; [exact H2 | split; [exact H3 | split; [exact H4 | exact H5]]]].
    clear - H1. unfold same_students in *.
    revert H1. generalize (editedResults (state c2)).
    generalize (editedResults (state c)).
    intros l1. induction l1 as [|a l1 IHl]; intros l2 H; simpl in H.
    + exact H.
    + inversion H as [|x y lx ly Hxy Hrest]; subst. constructor.
      * destruct (String.eqb (student_id a) studentId); [|exact Hxy].
        destruct Hxy as (E1 & E2 & E3 & E4). repeat split; assumption.
      * apply IHl. exact Hrest.
Qed.

(** After an answer with a truthy [success] whose rows are of the declared
    type, and any number of manual edits, the component is in the review
    step, the three status counts of its summary add up to the number of
    students the service answered with, and the auto-detected count is still
    the number the recognition reported: edits move students between the
    three status counts and nowhere else. *)
Theorem review_summary_adds_up (p : Props) (c : Component) (r : FetchResult)
    (thrown : string) (ar : list Student) (photo : File)
    (l : list (string * Status)) :
  classPhoto (state c) = Some photo ->
  recognised_rows r = Some ar ->
  let s' := state (fst (session p c (StartFaceRecognition r thrown :: edits l))) in
  currentStep s' = Review /\
  presentCount s' + absentCount s' + lateCount s' = List.length ar /\
  detectedCount s' = List.length (filter detected ar) /\
  map student_id (editedResults s') = map student_id ar.
Proof.
  intros Hp Hr. cbn zeta. simpl.
  rewrite (processClassPhoto_unfold p c r thrown photo Hp).
  destruct (processClassPhoto_try_cells
              (on_state (setProgress 25)
                 (on_state
                    (fun s =>
                       setError None
                         (setCurrentStep Processing
                            (setProgress 0 (setProcessing true s)))) c))
              r thrown)
    as (_ & _ & _ & _ & _ & _ & _ & Hl).
  rewrite Hr in Hl. destruct Hl as (Ha & He & _ & Hk & Hu & _).
  set (c1 := fst (processClassPhoto_try _ r thrown)) in *.
  pose proof (session_of_edits p l c1 Hk) as Hs. cbn zeta in Hs.
  destruct (session p c1 (edits l)) as [c2 effects2]. simpl in *.
  destruct Hs as (H1 & H2 & H3 & _).
  rewrite He in H1.
  destruct (same_students_detected _ _ H1) as [Hlen Hdet].
  split; [congruence|].
  split; [|split].
  - unfold presentCount, absentCount, lateCount.
    rewrite counts_partition. exact Hlen.
  - exact Hdet.
  - clear - H1. induction H1 as [|a b l1 l2 Hab H IH]; [reflexivity|].
    simpl. destruct Hab as (E & _). congruence.
Qed.

End PhotoFacts.

(** ** The marking sheet *)

Module SheetFacts.

Import Ascii Db AttendancePage AttendanceSheet.

Lemma key_eqb_eq (a b : AttendanceRecord.Key) :
  AttendanceRecord.key_eqb a b = true <-> a = b.
Proof.
  destruct a as [a1 a2 a3 a4], b as [b1 b2 b3 b4].
  unfold AttendanceRecord.key_eqb. simpl.
  rewrite !andb_true_iff, !String.eqb_eq. split.
  - intros [[[-> ->] ->] ->]. reflexivity.
  - intros H. inversion H. repeat split.
Qed.

(** *** From the review to the sheet *)

(** What a successful save leaves on the page. *)
Lemma handed_over (p : MassFaceRecognition.Props)
    (s : MassFaceRecognition.State) (r : MassFaceRecognition.FetchResult)
    (pg : Page) (now : Time) :
  MassFaceRecognition.save_succeeded r = true ->
  attendance (callbacks now (snd (MassFaceRecognition.saveAttendance p s r)) pg)
  = map (convert_result pg now) (MassFaceRecognition.editedResults s).
Proof.
  intros H. rewrite ComponentFacts.saveAttendance_unfold.
  destruct r as [message | [|] [message | j]]; simpl in H; try discriminate.
  cbn [MassFaceRecognition.saveAttendance_try fst snd].
  destruct (read j "success") as [thrown | success]; [discriminate|].
  rewrite H. reflexivity.
Qed.

(** The manual corrections of a review never reach the recognition columns
    of the records: after any number of status edits and a successful save,
    the records on the page carry the statuses as edited, while their
    [marked_via] and [face_recognition_confidence] are those of the rows as
    they were before the edits.  A student whom the recognizer matched and
    the teacher then set to absent is recorded as absent, marked via face
    recognition. *)
Theorem review_edits_keep_marked_via (p : MassFaceRecognition.Props)
    (s : MassFaceRecognition.State) (l : list (string * Status))
    (r : MassFaceRecognition.FetchResult) (pg : Page) (now : Time) :
  MassFaceRecognition.save_succeeded r = true ->
  let s1 :=
    ClassPhoto.state
      (fst (ClassPhoto.session p (ClassPhoto.known s) (ClassPhoto.edits l))) in
  let pg' := callbacks now (snd (MassFaceRecognition.saveAttendance p s1 r)) pg in
  map AttendanceRecord.marked_via (attendance pg')
  = map (fun x => Some (if js_gt_zero (MassFaceRecognition.confidence x)
                        then face_recognition else manual))
        (MassFaceRecognition.editedResults s) /\
  map AttendanceRecord.face_recognition_confidence (attendance pg')
  = map (fun x => Some (MassFaceRecognition.confidence x))
        (MassFaceRecognition.editedResults s) /\
  map AttendanceRecord.user_id (attendance pg')
  = map MassFaceRecognition.student_id (MassFaceRecognition.editedResults s) /\
  map AttendanceRecord.status (attendance pg')
  = map MassFaceRecognition.status (MassFaceRecognition.editedResults s1).
Proof.
  intros H. cbn zeta. rewrite (handed_over _ _ _ _ _ H).
  destruct (PhotoFacts.session_of_edits p l (ClassPhoto.known s) eq_refl)
    as (Hs & _).
  cbn [ClassPhoto.known ClassPhoto.state] in Hs.
  rewrite !map_map. cbn [convert_result AttendanceRecord.marked_via
    AttendanceRecord.face_recognition_confidence AttendanceRecord.user_id
    AttendanceRecord.status].
  split; [|split; [|split; [|reflexivity]]].
  - induction Hs as [|a b l1 l2 Hab Hs IH]; [reflexivity|].
    simpl. destruct Hab as (_ & _ & Hc & _). rewrite Hc, IH. reflexivity.
  - induction Hs as [|a b l1 l2 Hab Hs IH]; [reflexivity|].
    simpl. destruct Hab as (_ & _ & Hc & _). rewrite Hc, IH. reflexivity.
  - induction Hs as [|a b l1 l2 Hab Hs IH]; [reflexivity|].
    simpl. destruct Hab as (Hi & _). rewrite Hi, IH. reflexivity.
Qed.

Lemma status_is_converted (pg : Page) (now : Time) (x : Status)
    (l : list MassFaceRecognition.Student) :
  List.length (filter (status_is x) (map (convert_result pg now) l))
  = List.length (filter (ClassPhoto.has_status x) l).
Proof.
  induction l as [|a l IH]; [reflexivity|].
  simpl. unfold status_is at 1, ClassPhoto.has_status at 1. simpl.
  destruct (MassFaceRecognition.status a), x; simpl; rewrite IH; reflexivity.
Qed.

(** The statistics the page shows after a successful save are the numbers
    the summary of the review showed when the save was started, and its
    total is the sum of the three. *)
Theorem page_stats_match_review_summary (p : MassFaceRecognition.Props)
    (s : MassFaceRecognition.State) (r : MassFaceRecognition.FetchResult)
    (pg : Page) (now : Time) :
  MassFaceRecognition.save_succeeded r = true ->
  let pg' := callbacks now (snd (MassFaceRecognition.saveAttendance p s r)) pg in
  getAttendanceStats pg'
  = Stats.mk (ClassPhoto.presentCount s) (ClassPhoto.absentCount s)
             (ClassPhoto.lateCount s)
             (List.length (MassFaceRecognition.editedResults s)) /\
  Stats.total (getAttendanceStats pg')
  = Stats.present (getAttendanceStats pg') + Stats.absent (getAttendanceStats pg')
    + Stats.late (getAttendanceStats pg').
Proof.
  intros H. cbn zeta.
  assert (E : getAttendanceStats
                (callbacks now (snd (MassFaceRecognition.saveAttendance p s r)) pg)
              = Stats.mk (ClassPhoto.presentCount s) (ClassPhoto.absentCount s)
                         (ClassPhoto.lateCount s)
                         (List.length (MassFaceRecognition.editedResults s))).
  { unfold getAttendanceStats. rewrite (handed_over _ _ _ _ _ H).
    unfold ClassPhoto.presentCount, ClassPhoto.absentCount, ClassPhoto.lateCount.
    destruct (MassFaceRecognition.editedResults s) as [|a l] eqn:El;
      [reflexivity|].
    rewrite <- El. rewrite !status_is_converted, List.length_map.
    destruct (map (convert_result pg now) (MassFaceRecognition.editedResults s))
      eqn:Em; [rewrite El in Em; discriminate|].
    reflexivity. }
  split; [exact E|]. rewrite E. cbn [Stats.total Stats.present Stats.absent Stats.late].
  unfold ClassPhoto.presentCount, ClassPhoto.absentCount, ClassPhoto.lateCount.
  symmetry. apply PhotoFacts.counts_partition.
Qed.

(** *** [saveAllAttendance] *)

Section AnyBackend.

Variable B : Backend AttendanceRecord.t AttendanceRecord.Key AttendanceRecord.Patch.

Lemma count_unsaved_calls (pg : Page) (records : list AttendanceRecord.t) :
  forall (acc : nat) (w : world B),
    snd (run B (count_unsaved pg records acc) w)
    = map (fun record => Select (check_key pg record)) records.
Proof.
  induction records as [|record rest IH]; intros acc w; [reflexivity|].
  cbn [count_unsaved run].
  destruct (respond B (Select (check_key pg record)) w) as [r w1].
  specialize (IH (match data r with Some _ => acc | None => S acc end) w1).
  destruct (run B (count_unsaved pg rest _) w1) as [[x w2] calls].
  simpl in *. rewrite IH. reflexivity.
Qed.

Lemma ready_guard (pg : Page) :
  ready pg = true ->
  exists a1 s1 a2 s2 c,
    selectedSubject pg = String a1 s1 /\
    selectedClassType pg = String a2 s2 /\
    selectedClass pg = Some c.
Proof.
  unfold ready. intros H.
  destruct (selectedSubject pg) as [|a1 s1]; [discriminate|].
  destruct (selectedClassType pg) as [|a2 s2]; [discriminate|].
  destruct (selectedClass pg) as [c|]; [|discriminate].
  exists a1, s1, a2, s2, c. repeat split.
Qed.

Lemma not_ready_guard (pg : Page) :
  ready pg = false ->
  saveAllAttendance pg =
  Ret [Notify (mkToast "Missing Information"
         [Text "Please select class, subject and class type before saving."]
         true)].
Proof.
  unfold ready, saveAllAttendance. intros H.
  destruct (selectedSubject pg) as [|a1 s1]; [reflexivity|].
  destruct (selectedClassType pg) as [|a2 s2]; [reflexivity|].
  destruct (selectedClass pg) as [c|]; [discriminate | reflexivity].
Qed.

(** [saveAllAttendance] saves nothing: whatever answers its calls, it issues
    no insert and no update.  When subject, class type and class are chosen
    it reads once per local record, looking for the student of the record
    under the date and the subject chosen on the page; otherwise it issues
    no call at all. *)
Theorem saveAllAttendance_only_reads (pg : Page) (w : world B) :
  let calls := snd (run B (saveAllAttendance pg) w) in
  filter is_write calls = [] /\
  calls = if ready pg
          then map (fun record =>
                      Select (AttendanceRecord.mkKey
                                (AttendanceRecord.user_id record)
                                (selectedDate pg) (selectedSubject pg)
                                (marked_by_filter pg)))
                   (attendance pg)
          else [].
Proof.
  cbn zeta.
  assert (E : snd (run B (saveAllAttendance pg) w)
              = if ready pg
                then map (fun record => Select (check_key pg record)) (attendance pg)
                else []).
  { destruct (ready pg) eqn:Hr.
    - destruct (ready_guard pg Hr) as (a1 & s1 & a2 & s2 & c & E1 & E2 & E3).
      unfold saveAllAttendance. rewrite E1, E2, E3.
      destruct (attendance pg) as [|a l] eqn:Ea; [reflexivity|].
      rewrite DbFacts.run_bind. cbn [snd run].
      rewrite count_unsaved_calls. apply app_nil_r.
    - rewrite (not_ready_guard pg Hr). reflexivity. }
  split; [|exact E].
  rewrite E. clear E. destruct (ready pg); [|reflexivity].
  induction (attendance pg) as [|a l IH]; [reflexivity | exact IH].
Qed.

End AnyBackend.

Lemma respond_quiet (c : Call AttendanceRecord.t AttendanceRecord.Key
                             AttendanceRecord.Patch)
    (t : list AttendanceRecord.t) (n : nat) :
  respond attendance_table c (mkStore t n quiet)
  = (fst (execute AttendanceRecord.key_of AttendanceRecord.key_eqb
                  AttendanceRecord.apply_patch c t),
     mkStore (snd (execute AttendanceRecord.key_of AttendanceRecord.key_eqb
                           AttendanceRecord.apply_patch c t))
             (S n) quiet).
Proof.
  cbn. destruct (execute _ _ _ c t) as [r t']. reflexivity.
Qed.

Lemma select_on_unique (k : AttendanceRecord.Key) (t : list AttendanceRecord.t) :
  NoDup (map AttendanceRecord.key_of t) ->
  snd (select_row AttendanceRecord.key_of AttendanceRecord.key_eqb k t) = t /\
  (has_key AttendanceRecord.key_of AttendanceRecord.key_eqb k t = true ->
   exists row, data (fst (select_row AttendanceRecord.key_of
                                      AttendanceRecord.key_eqb k t)) = Some row) /\
  (has_key AttendanceRecord.key_of AttendanceRecord.key_eqb k t = false ->
   data (fst (select_row AttendanceRecord.key_of AttendanceRecord.key_eqb k t))
   = None).
Proof.
  intros Hnd. unfold select_row. split; [|split].
  - destruct (matching _ _ k t) as [|r [|r' rest]]; reflexivity.
  - intros Hk.
    destruct (DbFacts.matching_unique _ _ AttendanceRecord.key_of
                AttendanceRecord.key_eqb key_eqb_eq k t Hnd Hk) as (r & Hm & _).
    rewrite Hm. exists r. reflexivity.
  - intros Hk.
    rewrite (DbFacts.matching_absent _ _ AttendanceRecord.key_of
               AttendanceRecord.key_eqb k t Hk).
    reflexivity.
Qed.

Lemma count_unsaved_quiet (pg : Page) (t : list AttendanceRecord.t)
    (records : list AttendanceRecord.t) :
  NoDup (map AttendanceRecord.key_of t) ->
  forall (acc n : nat),
    fst (run attendance_table (count_unsaved pg records acc) (mkStore t n quiet))
    = (acc + List.length
               (filter (fun record =>
                          negb (has_key AttendanceRecord.key_of
                                        AttendanceRecord.key_eqb
                                        (check_key pg record) t)) records),
       mkStore t (n + List.length records) quiet).
Proof.
  intros Hnd. induction records as [|record rest IH]; intros acc n.
  - simpl. rewrite !Nat.add_0_r. reflexivity.
  - cbn [count_unsaved run]. rewrite respond_quiet. cbn [execute fst snd].
    destruct (select_on_unique (check_key pg record) t Hnd) as (Ht & Hyes & Hno).
    rewrite Ht.
    specialize (IH (match data (fst (select_row AttendanceRecord.key_of
                                       AttendanceRecord.key_eqb
                                       (check_key pg record) t)) with
                    | Some _ => acc
                    | None => S acc
                    end) (S n)).
    destruct (run attendance_table (count_unsaved pg rest _) (mkStore t (S n) quiet))
      as [[x w2] calls].
    cbn [fst] in *. rewrite IH. cbn [filter List.length].
    destruct (has_key AttendanceRecord.key_of AttendanceRecord.key_eqb
                      (check_key pg record) t) eqn:Hk.
    + destruct (Hyes eq_refl) as (row & Hrow). rewrite Hrow. simpl.
      f_equal. f_equal. lia.
    + rewrite (Hno eq_refl). simpl. f_equal; [lia|]. f_equal. lia.
Qed.

(** On a table that keeps its key unique and is not disturbed,
    [saveAllAttendance] reports success exactly when every local record has
    a row under the key (student of the record, date and subject chosen on
    the page, faculty member); otherwise it warns with the number of records
    that have none.  It refreshes the history only on success, clears the
    loading flag in both cases and leaves the table as it was. *)
Theorem saveAllAttendance_reports_missing_rows (pg : Page)
    (t : list AttendanceRecord.t) (n : nat) :
  ready pg = true ->
  attendance pg <> [] ->
  NoDup (map AttendanceRecord.key_of t) ->
  let out := run attendance_table (saveAllAttendance pg) (mkStore t n quiet) in
  table (snd (fst out)) = t /\
  fst (fst out)
  = SetLoading true ::
    match missing pg t with
    | [] => [RefreshHistory; Notify (saved_toast pg)]
    | _ => [Notify (warning_toast (List.length (missing pg t)))]
    end ++ [SetLoading false].
Proof.
  intros Hr Hne Hnd. cbn zeta.
  destruct (ready_guard pg Hr) as (a1 & s1 & a2 & s2 & c & E1 & E2 & E3).
  unfold saveAllAttendance. rewrite E1, E2, E3.
  destruct (attendance pg) as [|a l] eqn:Ea; [congruence|].
  rewrite <- Ea. rewrite DbFacts.run_bind.
  rewrite (count_unsaved_quiet pg t (attendance pg) Hnd 0 n).
  cbn [fst snd run table]. split; [reflexivity|].
  unfold missing. cbn [Nat.add].
  destruct (filter _ (attendance pg)) as [|m ms]; reflexivity.
Qed.

(** *** [getDepartments] *)

Lemma distinct_spec (l : list string) :
  forall seen,
    NoDup (distinct seen l) /\
    forall d, In d (distinct seen l) <-> In d l /\ ~ In d seen.
Proof.
  induction l as [|x rest IH]; intros seen.
  - simpl. split; [constructor|]. intros d. split; [intros [] | intros [[] _]].
  - simpl. destruct (existsb (String.eqb x) seen) eqn:E.
    + apply existsb_exists in E. destruct E as (y & Hy & Hxy).
      apply String.eqb_eq in Hxy. subst y.
      destruct (IH seen) as [Hnd Hin]. split; [exact Hnd|].
      intros d. rewrite Hin. split.
      * intros [H1 H2]. split; [right; exact H1 | exact H2].
      * intros [[H1 | H1] H2]; [subst d; contradiction | split; assumption].
    + assert (Hx : ~ In x seen).
      { intros Hx. assert (existsb (String.eqb x) seen = true) as H.
        { apply existsb_exists. exists x. split; [exact Hx | apply String.eqb_refl]. }
        congruence. }
      destruct (IH (x :: seen)) as [Hnd Hin]. split.
      * constructor; [|exact Hnd]. intros H. apply Hin in H.
        destruct H as [_ H]. apply H. left. reflexivity.
      * intros d. simpl. rewrite Hin. simpl. split.
        -- intros [H | [H1 H2]].
           ++ subst d. split; [left; reflexivity | exact Hx].
           ++ split; [right; exact H1 | intros H; apply H2; right; exact H].
        -- intros [[H | H] H2].
           ++ left. exact H.
           ++ destruct (string_dec x d) as [E1 | E1]; [left; exact E1|].
              right. split; [exact H|]. intros [H3 | H3]; contradiction.
Qed.

(** [trim] is not cut short by its fuel: what [strip_all] returns on a fuel
    of the length of its argument starts with none of the characters. *)
Lemma strip_prefix_shorter (p l l' : list nat) :
  p <> [] -> strip_prefix p l = Some l' -> List.length l' < List.length l.
Proof.
  revert l. induction p as [|a p IH]; intros l Hp H; [contradiction|].
  destruct l as [|b l]; [discriminate|]. simpl in H.
  destruct (Nat.eqb a b); [|discriminate].
  destruct p as [|a' p].
  - inversion H; subst. simpl. lia.
  - assert (Hl : List.length l' < List.length l)
      by (apply IH; [discriminate | exact H]).
    simpl. lia.
Qed.

Lemma strip_any_shorter (ps : list (list nat)) (l l' : list nat) :
  Forall (fun p => p <> []) ps ->
  strip_any ps l = Some l' -> List.length l' < List.length l.
Proof.
  intros Hps. induction Hps as [|p ps Hp Hps IH]; intros H; [discriminate|].
  simpl in H. destruct (strip_prefix p l) as [l1|] eqn:E.
  - inversion H; subst. exact (strip_prefix_shorter p l l' Hp E).
  - exact (IH H).
Qed.

Lemma strip_all_done (ps : list (list nat)) (fuel : nat) :
  Forall (fun p => p <> []) ps ->
  forall l, List.length l <= fuel -> strip_any ps (strip_all ps fuel l) = None.
Proof.
  intros Hps. induction fuel as [|fuel IH]; intros l Hl.
  - destruct l as [|b l]; [|simpl in Hl; lia]. simpl.
    clear Hl. induction Hps as [|p ps Hp Hps IHp]; [reflexivity|].
    simpl. destruct p as [|a p]; [contradiction|]. exact IHp.
  - simpl. destruct (strip_any ps l) as [l'|] eqn:E; [|exact E].
    apply IH. pose proof (strip_any_shorter ps l l' Hps E). lia.
Qed.

Lemma trim_start_done (l : list nat) :
  strip_any WHITE_SPACE (trim_start l) = None.
Proof.
  apply strip_all_done; [|apply le_n].
  repeat constructor; discriminate.
Qed.

(** The department filter offers every department of the class list once,
    whatever the number of classes that name it, and never a department
    whose name is empty or consists of white space. *)
Theorem getDepartments_distinct_and_named (classes : list ClassDetail.t) :
  NoDup (getDepartments classes) /\
  forall d,
    In d (getDepartments classes) <->
    (exists c, In c classes /\ ClassDetail.department c = d) /\ trim d <> "".
Proof.
  unfold getDepartments.
  destruct (distinct_spec (map ClassDetail.department classes) []) as [Hnd Hin].
  split; [apply NoDup_filter; exact Hnd|].
  intros d. rewrite filter_In, Hin, in_map_iff, andb_true_iff, !negb_true_iff.
  split.
  - intros [[(c & Hc & Hi) _] [_ Ht]]. split; [exists c; split; assumption|].
    intros E. rewrite E in Ht. discriminate.
  - intros [(c & Hi & Hc) Ht]. split; [split; [exists c; split; assumption | intros []]|].
    split.
    + destruct (String.eqb_spec d "") as [E | E]; [|reflexivity]. exfalso.
      rewrite E in Ht. apply Ht. reflexivity.
    + destruct (String.eqb_spec (trim d) ""); [contradiction | reflexivity].
Qed.

(** *** The heading of a history card *)

Lemma split_on_sep_free (sep : ascii) (s : string) :
  ~ In sep (list_ascii_of_string s) -> split_on sep s = [s].
Proof.
  induction s as [|a s IH]; intros H; [reflexivity|].
  simpl in *. destruct (Ascii.eqb_spec a sep) as [E | E].
  - exfalso. apply H. left. exact E.
  - rewrite IH; [reflexivity|]. intros Hin. apply H. right. exact Hin.
Qed.

Lemma split_on_append (sep : ascii) (s rest : string) :
  ~ In sep (list_ascii_of_string s) ->
  split_on sep (s ++ String sep rest) = s :: split_on sep rest.
Proof.
  induction s as [|a s IH]; intros H; simpl.
  - rewrite Ascii.eqb_refl. reflexivity.
  - simpl in H. destruct (Ascii.eqb_spec a sep) as [E | E].
    + exfalso. apply H. left. exact E.
    + rewrite IH; [reflexivity|]. intros Hin. apply H. right. exact Hin.
Qed.

(** A history card shows the date, the subject and the class type of its
    records whenever none of the three contains an underscore: the key the
    records are grouped by then splits back into them. *)
Theorem card_heading_round_trip (record : AttendanceRecord.t) :
  ~ In "_"%char (list_ascii_of_string (AttendanceRecord.date record)) ->
  ~ In "_"%char (list_ascii_of_string (AttendanceRecord.subject record)) ->
  ~ In "_"%char (list_ascii_of_string (AttendanceRecord.class_type record)) ->
  card_heading (group_key record)
  = (Some (AttendanceRecord.date record),
     Some (AttendanceRecord.subject record),
     Some (AttendanceRecord.class_type record)).
Proof.
  intros Hd Hs Hc. unfold card_heading, group_key.
  change ("_" ++ AttendanceRecord.subject record ++ "_"
              ++ AttendanceRecord.class_type record)%string
    with (String "_" (AttendanceRecord.subject record
                        ++ String "_" (AttendanceRecord.class_type record))).
  rewrite (split_on_append _ _ _ Hd), (split_on_append _ _ _ Hs),
          (split_on_sep_free _ _ Hc).
  reflexivity.
Qed.

End SheetFacts.

(** ** Marking on an undisturbed table *)

Module MarkingFacts.

Import Db AttendancePage AttendanceSheet.

(** The search loop of [findIndex]. *)
Local Abbreviation scan pg studentId :=
  (fix go (l : list AttendanceRecord.t) (i : nat) {struct l} : option nat :=
     match l with
     | [] => None
     | a :: rest =>
         if String.eqb (AttendanceRecord.user_id a) studentId &&
            String.eqb (AttendanceRecord.date a) (selectedDate pg) &&
            String.eqb (AttendanceRecord.subject a) (selectedSubject pg)
         then Some i else go rest (S i)
     end).

Lemma scan_from (pg : Page) (studentId : string) (l : list AttendanceRecord.t) :
  forall k i, scan pg studentId l k = Some i -> k <= i.
Proof.
  induction l as [|a rest IH]; intros k i H; simpl in H; [discriminate|].
  destruct (String.eqb (AttendanceRecord.user_id a) studentId &&
            String.eqb (AttendanceRecord.date a) (selectedDate pg) &&
            String.eqb (AttendanceRecord.subject a) (selectedSubject pg)).
  - inversion H. lia.
  - apply IH in H. lia.
Qed.

Lemma run_await {X : Type}
    (B : Backend AttendanceRecord.t AttendanceRecord.Key AttendanceRecord.Patch)
    (c : Call AttendanceRecord.t AttendanceRecord.Key AttendanceRecord.Patch)
    (k : Single AttendanceRecord.t -> Program X) (w : world B) :
  run B (Await c k) w
  = (fst (fst (run B (k (fst (respond B c w))) (snd (respond B c w)))),
     snd (fst (run B (k (fst (respond B c w))) (snd (respond B c w)))),
     c :: snd (run B (k (fst (respond B c w))) (snd (respond B c w)))).
Proof.
  simpl. destruct (respond B c w) as [r w1]. cbn [fst snd].
  destruct (run B (k r) w1) as [[x w2] calls]. reflexivity.
Qed.

Lemma ready_chosen (pg : Page) :
  ready pg = true ->
  selectedSubject pg <> "" /\ selectedClassType pg <> "" /\
  exists c, selectedClass pg = Some c.
Proof.
  intros H.
  destruct (SheetFacts.ready_guard pg H) as (a1 & s1 & a2 & s2 & c & E1 & E2 & E3).
  rewrite E1, E2. split; [discriminate|]. split; [discriminate|].
  exists c. exact E3.
Qed.

Lemma markAttendance_not_ready (pg : Page) (now : Time) (studentId : string)
    (status : Status) :
  ready pg = false ->
  markAttendance pg now studentId status
  = Ret (pg, [ShowToast (mkToast "Missing Information"
                [Text "Please select class, subject and class type."] true)]).
Proof.
  unfold ready, markAttendance. intros H.
  destruct (selectedSubject pg) as [|a1 s1]; [reflexivity|].
  destruct (selectedClassType pg) as [|a2 s2]; [reflexivity|].
  destruct (selectedClass pg) as [c|]; [discriminate | reflexivity].
Qed.

Lemma markAttendance_unknown (pg : Page) (now : Time) (studentId : string)
    (status : Status) :
  ready pg = true ->
  find_student pg studentId = None ->
  markAttendance pg now studentId status
  = Ret (pg, [ShowToast (mkToast "Student Not Found"
                [Text "Could not find student record."] true)]).
Proof.
  intros Hr Hf.
  destruct (SheetFacts.ready_guard pg Hr) as (a1 & s1 & a2 & s2 & c & E1 & E2 & E3).
  unfold markAttendance. rewrite E1, E2, E3, Hf. reflexivity.
Qed.

Lemma markAttendance_updates (pg : Page) (now : Time) (studentId : string)
    (status : Status) (c : ClassDetail.t) (student : Student.t) (i : nat) :
  ready pg = true ->
  selectedClass pg = Some c ->
  find_student pg studentId = Some student ->
  findIndex pg studentId = Some i ->
  markAttendance pg now studentId status =
  Await (Update (the_patch pg now status) (the_key pg studentId))
    (fun r =>
       match error r with
       | Some _ =>
           markAttendance_catch pg student studentId status [Console "Update error:"]
       | None =>
           Ret (markAttendance_done pg student status
                  (set_nth i
                     (match data r with
                      | Some d => d
                      | None =>
                          AttendanceRecord.apply_patch (the_patch pg now status)
                            (nth i (attendance pg)
                                 (attendanceRecord pg c student studentId status))
                      end)
                     (attendance pg)) [])
       end).
Proof.
  intros Hr Hc Hf Hi.
  destruct (SheetFacts.ready_guard pg Hr) as (a1 & s1 & a2 & s2 & c' & E1 & E2 & E3).
  unfold markAttendance. rewrite E1, E2, Hc, Hf, Hi. reflexivity.
Qed.

Section OneSheet.

Variables (pg : Page) (studentId : string).

(** Every local record of the student is one for the date and the subject
    chosen on the page. *)
Hypothesis one_sheet :
  forall a, In a (attendance pg) ->
    AttendanceRecord.user_id a = studentId ->
    AttendanceRecord.date a = selectedDate pg /\
    AttendanceRecord.subject a = selectedSubject pg.

Lemma replaced_is_first (x : AttendanceRecord.t) (l : list AttendanceRecord.t) :
  (forall a, In a l -> In a (attendance pg)) ->
  AttendanceRecord.user_id x = studentId ->
  forall k i,
    scan pg studentId l k = Some i ->
    find (fun a => String.eqb (AttendanceRecord.user_id a) studentId)
         (set_nth (i - k) x l) = Some x.
Proof.
  intros Hsub Hx. induction l as [|a rest IH]; intros k i H; simpl in H;
    [discriminate|].
  destruct (String.eqb (AttendanceRecord.user_id a) studentId &&
            String.eqb (AttendanceRecord.date a) (selectedDate pg) &&
            String.eqb (AttendanceRecord.subject a) (selectedSubject pg)) eqn:E.
  - inversion H. subst i. rewrite Nat.sub_diag. simpl.
    rewrite Hx, String.eqb_refl. reflexivity.
  - pose proof (scan_from pg studentId rest (S k) i H) as Hle.
    replace (i - k) with (S (i - S k)) by lia. simpl.
    destruct (String.eqb_spec (AttendanceRecord.user_id a) studentId) as [Ea | Ea].
    + exfalso. destruct (one_sheet a (Hsub a (or_introl eq_refl)) Ea) as [Hd Hs].
      rewrite Hd, Hs, !String.eqb_refl in E. discriminate.
    + apply IH; [|exact H]. intros b Hb. apply Hsub. right. exact Hb.
Qed.

Lemma appended_is_first (x : AttendanceRecord.t) (l : list AttendanceRecord.t) :
  (forall a, In a l -> In a (attendance pg)) ->
  AttendanceRecord.user_id x = studentId ->
  forall k,
    scan pg studentId l k = None ->
    find (fun a => String.eqb (AttendanceRecord.user_id a) studentId)
         (l ++ [x]) = Some x.
Proof.
  intros Hsub Hx. induction l as [|a rest IH]; intros k H; simpl in *.
  - rewrite Hx, String.eqb_refl. reflexivity.
  - destruct (String.eqb (AttendanceRecord.user_id a) studentId &&
              String.eqb (AttendanceRecord.date a) (selectedDate pg) &&
              String.eqb (AttendanceRecord.subject a) (selectedSubject pg)) eqn:E;
      [discriminate|].
    destruct (String.eqb_spec (AttendanceRecord.user_id a) studentId) as [Ea | Ea].
    + exfalso. destruct (one_sheet a (Hsub a (or_introl eq_refl)) Ea) as [Hd Hs].
      rewrite Hd, Hs, !String.eqb_refl in E. discriminate.
    + apply (IH (fun b Hb => Hsub b (or_intror Hb)) (S k)). exact H.
Qed.

Variables (now : Time) (status : Status).
Variables (t : list AttendanceRecord.t) (n : nat).

Local Abbreviation key := (the_key pg studentId).
Local Abbreviation patch := (the_patch pg now status).

Lemma matched_row_is_of_student (r : AttendanceRecord.t)
    (rest : list AttendanceRecord.t) :
  matching AttendanceRecord.key_of AttendanceRecord.key_eqb key t = r :: rest ->
  AttendanceRecord.user_id (AttendanceRecord.apply_patch patch r) = studentId /\
  AttendanceRecord.status (AttendanceRecord.apply_patch patch r) = status.
Proof.
  intros Hm. split; [|reflexivity].
  assert (Hin : In r (matching AttendanceRecord.key_of AttendanceRecord.key_eqb key t)).
  { rewrite Hm. left. reflexivity. }
  unfold matching in Hin. apply filter_In in Hin. destruct Hin as [_ Hk].
  apply SheetFacts.key_eqb_eq in Hk.
  change (AttendanceRecord.user_id (AttendanceRecord.apply_patch patch r))
    with (AttendanceRecord.k_user_id (AttendanceRecord.key_of r)).
  rewrite Hk. reflexivity.
Qed.

(** The check read of the [catch] block after an update that found no
    single row: on the same table it finds none either, and the failure is
    reported. *)
Lemma catch_after_failed_update (student : Student.t) (log : list Effect) (m : nat) :
  (forall r, matching AttendanceRecord.key_of AttendanceRecord.key_eqb key t <> [r]) ->
  reported_success log = false ->
  reported_success
    (snd (fst (fst (run attendance_table
                      (markAttendance_catch pg student studentId status log)
                      (mkStore t m quiet))))) = false.
Proof.
  intros Hm Hlog. unfold markAttendance_catch. rewrite run_await.
  rewrite SheetFacts.respond_quiet. cbn [execute fst snd run]. unfold select_row.
  destruct (matching AttendanceRecord.key_of AttendanceRecord.key_eqb key t)
    as [|r [|r' rest]] eqn:Em.
  - cbn [fst snd data]. unfold reported_success in *. rewrite existsb_app, Hlog.
    reflexivity.
  - exfalso. exact (Hm r eq_refl).
  - cbn [fst snd data]. unfold reported_success in *. rewrite existsb_app, Hlog.
    reflexivity.
Qed.

Lemma done_reports_success (student : Student.t)
    (updated : list AttendanceRecord.t) (log : list Effect) :
  reported_success (snd (markAttendance_done pg student status updated log)) = true /\
  attendance (fst (markAttendance_done pg student status updated log)) = updated.
Proof.
  split; [|reflexivity].
  unfold markAttendance_done, reported_success. cbn [snd].
  rewrite !existsb_app. cbn. rewrite !orb_true_r. reflexivity.
Qed.

(** Round trip of a mark on an undisturbed table: when [markAttendance]
    reports success, the sheet shows the status just given for the student,
    provided every local record of the student is one for the date and the
    subject chosen on the page.  (Without that, [getAttendanceStatus] may
    find an older record of the student first.) *)
Theorem marked_status_is_shown :
  let out :=
    fst (fst (run attendance_table (markAttendance pg now studentId status)
                  (mkStore t n quiet))) in
  reported_success (snd out) = true ->
  getAttendanceStatus (fst out) studentId = status_text status.
Proof.
  cbn zeta.
  destruct (ready pg) eqn:Hr;
    [|rewrite (markAttendance_not_ready pg now studentId status Hr);
      cbn; discriminate].
  destruct (find_student pg studentId) as [student|] eqn:E4;
    [|rewrite (markAttendance_unknown pg now studentId status Hr E4);
      cbn; discriminate].
  destruct (ready_chosen pg Hr) as (Hsub & Hct & c & E3).
  destruct (findIndex pg studentId) as [i|] eqn:E5.
  - (* the student is in the local list: update *)
    rewrite (markAttendance_updates pg now studentId status c student i Hr E3 E4 E5).
    rewrite run_await, SheetFacts.respond_quiet. cbn [execute]. unfold update_rows.
    destruct (matching AttendanceRecord.key_of AttendanceRecord.key_eqb key t)
      as [|r [|r' rest]] eqn:Em; cbn [fst snd error data].
    + intros H. exfalso.
      rewrite (catch_after_failed_update student [Console "Update error:"] (S n)) in H;
        [discriminate | | reflexivity].
      intros r. rewrite Em. discriminate.
    + intros _. cbn [run fst snd]. unfold markAttendance_done, setAttendance.
      unfold getAttendanceStatus. cbn [fst attendance].
      destruct (matched_row_is_of_student r [] Em) as [Hu Hs].
      pose proof (replaced_is_first (AttendanceRecord.apply_patch patch r)
                    (attendance pg) (fun a H => H) Hu 0 i E5) as Hf.
      rewrite Nat.sub_0_r in Hf. rewrite Hf. reflexivity.
    + intros H. exfalso.
      rewrite (catch_after_failed_update student [Console "Update error:"] (S n)) in H;
        [discriminate | | reflexivity].
      intros r0. rewrite Em. discriminate.
  - (* the student is not in the local list: insert *)
    rewrite (PageFacts.markAttendance_inserts pg now studentId status c student
               Hsub Hct E3 E4 E5).
    rewrite run_await, SheetFacts.respond_quiet. cbn [execute]. unfold insert_row.
    destruct (has_key AttendanceRecord.key_of AttendanceRecord.key_eqb
                (AttendanceRecord.key_of
                   (attendanceRecord pg c student studentId status)) t) eqn:Hk;
      cbn [fst snd error data].
    + (* duplicate key: update *)
      change (String.eqb (code unique_violation) "23505") with true. cbn iota.
      rewrite run_await, SheetFacts.respond_quiet. cbn [execute]. unfold update_rows.
      destruct (matching AttendanceRecord.key_of AttendanceRecord.key_eqb key t)
        as [|r [|r' rest]] eqn:Em; cbn [fst snd error data].
      * intros H. exfalso.
        rewrite (catch_after_failed_update student
                   [Console "Duplicate record detected, trying to update instead..."]
                   (S (S n))) in H;
          [discriminate | | reflexivity].
        intros r. rewrite Em. discriminate.
      * intros _. cbn [run fst snd]. unfold markAttendance_done, setAttendance.
        unfold getAttendanceStatus. cbn [fst attendance].
        destruct (matched_row_is_of_student r [] Em) as [Hu Hs].
        rewrite (appended_is_first (AttendanceRecord.apply_patch patch r)
                   (attendance pg) (fun a H => H) Hu 0 E5).
        reflexivity.
      * intros H. exfalso.
        rewrite (catch_after_failed_update student
                   [Console "Duplicate record detected, trying to update instead..."]
                   (S (S n))) in H;
          [discriminate | | reflexivity].
        intros r0. rewrite Em. discriminate.
    + intros _. cbn [run fst snd]. unfold markAttendance_done, setAttendance.
      unfold getAttendanceStatus. cbn [fst attendance].
      rewrite (appended_is_first (attendanceRecord pg c student studentId status)
                 (attendance pg) (fun a H => H) eq_refl 0 E5).
      reflexivity.
Qed.

End OneSheet.

(** *** What is marked is found by [saveAllAttendance] *)

Lemma nothing_missing (pg : Page) (t : list AttendanceRecord.t) :
  missing pg t = [] <->
  forall record, In record (attendance pg) ->
    has_key AttendanceRecord.key_of AttendanceRecord.key_eqb
            (check_key pg record) t = true.
Proof.
  unfold missing. split.
  - intros H record Hin.
    destruct (has_key _ _ (check_key pg record) t) eqn:E; [reflexivity|].
    assert (Hf : In record
                   (filter (fun record =>
                              negb (has_key AttendanceRecord.key_of
                                            AttendanceRecord.key_eqb
                                            (check_key pg record) t))
                           (attendance pg))).
    { apply filter_In. split; [exact Hin | rewrite E; reflexivity]. }
    rewrite H in Hf. destruct Hf.
  - intros H. induction (attendance pg) as [|a l IH]; [reflexivity|].
    simpl. rewrite (H a (or_introl eq_refl)). simpl.
    apply IH. intros record Hin. apply H. right. exact Hin.
Qed.

Lemma set_nth_has {A : Type} (i : nat) (x : A) (l : list A) (y : A) :
  In y (set_nth i x l) -> y = x \/ In y l.
Proof.
  revert i. induction l as [|a l IH]; intros i H; [destruct i; destruct H|].
  destruct i as [|i]; simpl in H.
  - destruct H as [H | H]; [left; symmetry; exact H | right; right; exact H].
  - destruct H as [H | H]; [right; left; exact H|].
    destruct (IH i H) as [E | Hin]; [left; exact E | right; right; exact Hin].
Qed.

Lemma patched_keys (p : AttendanceRecord.Patch) (k : AttendanceRecord.Key)
    (t : list AttendanceRecord.t) :
  map AttendanceRecord.key_of
      (map (fun x => if AttendanceRecord.key_eqb (AttendanceRecord.key_of x) k
                     then AttendanceRecord.apply_patch p x else x) t)
  = map AttendanceRecord.key_of t.
Proof.
  rewrite map_map. apply map_ext. intros x.
  destruct (AttendanceRecord.key_eqb (AttendanceRecord.key_of x) k); reflexivity.
Qed.

Lemma has_key_by_keys (k : AttendanceRecord.Key) (t t' : list AttendanceRecord.t) :
  (forall x, In x (map AttendanceRecord.key_of t) ->
             In x (map AttendanceRecord.key_of t')) ->
  has_key AttendanceRecord.key_of AttendanceRecord.key_eqb k t = true ->
  has_key AttendanceRecord.key_of AttendanceRecord.key_eqb k t' = true.
Proof.
  intros Hsub H.
  apply (DbFacts.has_key_in _ _ AttendanceRecord.key_of AttendanceRecord.key_eqb
           SheetFacts.key_eqb_eq).
  apply Hsub.
  apply (DbFacts.has_key_in _ _ AttendanceRecord.key_of AttendanceRecord.key_eqb
           SheetFacts.key_eqb_eq).
  exact H.
Qed.

Section Saved.

Variables (pg : Page) (now : Time) (studentId : string) (status : Status).
Variables (t : list AttendanceRecord.t) (n : nat).

(** A faculty member is logged in. *)
Hypothesis logged_in : userData pg <> None.
(** The table keeps its key unique. *)
Hypothesis unique : NoDup (map AttendanceRecord.key_of t).
(** Every local record has its row. *)
Hypothesis all_saved : missing pg t = [].

Local Abbreviation key := (the_key pg studentId).
Local Abbreviation patch := (the_patch pg now status).

Lemma key_of_filter (c : ClassDetail.t) (student : Student.t) :
  AttendanceRecord.key_of (attendanceRecord pg c student studentId status) = key.
Proof.
  unfold AttendanceRecord.key_of, the_key, attendanceRecord, marked_by_value,
    marked_by_filter.
  cbn [AttendanceRecord.user_id AttendanceRecord.date AttendanceRecord.subject
       AttendanceRecord.marked_by].
  destruct (userData pg) as [u|]; [reflexivity | contradiction].
Qed.

(** The outcome of the [catch] block when the update found no single
    row. *)
Lemma catch_changes_nothing (student : Student.t) (log : list Effect) (m : nat) :
  (forall r, matching AttendanceRecord.key_of AttendanceRecord.key_eqb key t <> [r]) ->
  fst (run attendance_table
           (markAttendance_catch pg student studentId status log)
           (mkStore t m quiet))
  = ((pg, log ++ [Console "Error marking attendance:"; error_toast]),
     mkStore t (S m) quiet).
Proof.
  intros Hm. unfold markAttendance_catch. rewrite run_await.
  rewrite SheetFacts.respond_quiet. cbn [execute fst snd run]. unfold select_row.
  destruct (matching AttendanceRecord.key_of AttendanceRecord.key_eqb key t)
    as [|r [|r' rest]] eqn:Em; try reflexivity.
  exfalso. exact (Hm r eq_refl).
Qed.

(** The state after an update that matched the single row [r]. *)
Lemma sheet_after_update (r : AttendanceRecord.t)
    (updated : list AttendanceRecord.t) :
  matching AttendanceRecord.key_of AttendanceRecord.key_eqb key t = [r] ->
  (forall a, In a updated ->
     a = AttendanceRecord.apply_patch patch r \/ In a (attendance pg)) ->
  NoDup (map AttendanceRecord.key_of
           (map (fun x => if AttendanceRecord.key_eqb (AttendanceRecord.key_of x) key
                          then AttendanceRecord.apply_patch patch x else x) t)) /\
  missing (setAttendance updated pg)
          (map (fun x => if AttendanceRecord.key_eqb (AttendanceRecord.key_of x) key
                         then AttendanceRecord.apply_patch patch x else x) t) = [].
Proof.
  intros Hm Hup. rewrite patched_keys. split; [exact unique|].
  apply nothing_missing. intros record Hin.
  apply (has_key_by_keys _ t); [rewrite patched_keys; intros x Hx; exact Hx|].
  cbn [attendance setAttendance] in Hin.
  change (check_key (setAttendance updated pg) record) with (check_key pg record).
  destruct (Hup record Hin) as [E | Hold].
  - subst record.
    destruct (matched_row_is_of_student pg studentId now status t r [] Hm) as [Hu _].
    unfold check_key. rewrite Hu.
    destruct (has_key AttendanceRecord.key_of AttendanceRecord.key_eqb key t) eqn:Hk;
      [exact Hk|].
    rewrite (DbFacts.matching_absent _ _ AttendanceRecord.key_of
               AttendanceRecord.key_eqb key t Hk) in Hm.
    discriminate.
  - apply (proj1 (nothing_missing pg t) all_saved). exact Hold.
Qed.

(** On an undisturbed table with a unique key, [markAttendance] keeps the
    sheet saved: if every local record had its row before, so it has after the
    call, whether the call reported success or failure, and the key is still
    unique.  Marks made one after the other on a sheet that started empty are
    therefore all found by [saveAllAttendance]. *)
Theorem mark_keeps_sheet_saved :
  let out := fst (run attendance_table (markAttendance pg now studentId status)
                      (mkStore t n quiet)) in
  NoDup (map AttendanceRecord.key_of (table (snd out))) /\
  missing (fst (fst out)) (table (snd out)) = [] /\
  userData (fst (fst out)) = userData pg.
Proof.
  cbn zeta.
  destruct (ready pg) eqn:Hr;
    [|rewrite (markAttendance_not_ready pg now studentId status Hr);
      cbn [run fst snd table]; repeat split; assumption].
  destruct (find_student pg studentId) as [student|] eqn:E4;
    [|rewrite (markAttendance_unknown pg now studentId status Hr E4);
      cbn [run fst snd table]; repeat split; assumption].
  destruct (ready_chosen pg Hr) as (Hsub & Hct & c & E3).
  destruct (findIndex pg studentId) as [i|] eqn:E5.
  - rewrite (markAttendance_updates pg now studentId status c student i Hr E3 E4 E5).
    rewrite run_await, SheetFacts.respond_quiet. cbn [execute]. unfold update_rows.
    destruct (matching AttendanceRecord.key_of AttendanceRecord.key_eqb key t)
      as [|r [|r' rest]] eqn:Em; cbn [fst snd error data].
    + rewrite catch_changes_nothing; [|intros r; rewrite Em; discriminate].
      cbn [fst snd table]. repeat split; assumption.
    + cbn [run fst snd table]. unfold markAttendance_done. cbn [fst].
      destruct (sheet_after_update r
                  (set_nth i (AttendanceRecord.apply_patch patch r) (attendance pg))
                  Em (set_nth_has i _ (attendance pg)))
        as [H1 H2].
      split; [exact H1|]. split; [exact H2 | reflexivity].
    + rewrite catch_changes_nothing; [|intros r0; rewrite Em; discriminate].
      cbn [fst snd table]. repeat split; assumption.
  - rewrite (PageFacts.markAttendance_inserts pg now studentId status c student
               Hsub Hct E3 E4 E5).
    rewrite run_await, SheetFacts.respond_quiet. cbn [execute]. unfold insert_row.
    rewrite (key_of_filter c student).
    destruct (has_key AttendanceRecord.key_of AttendanceRecord.key_eqb key t) eqn:Hk;
      cbn [fst snd error data].
    + change (String.eqb (code unique_violation) "23505") with true. cbn iota.
      rewrite run_await, SheetFacts.respond_quiet. cbn [execute]. unfold update_rows.
      destruct (matching AttendanceRecord.key_of AttendanceRecord.key_eqb key t)
        as [|r [|r' rest]] eqn:Em; cbn [fst snd error data].
      * rewrite catch_changes_nothing; [|intros r; rewrite Em; discriminate].
        cbn [fst snd table]. repeat split; assumption.
      * cbn [run fst snd table]. unfold markAttendance_done. cbn [fst].
        destruct (sheet_after_update r
                    (attendance pg ++ [AttendanceRecord.apply_patch patch r]) Em)
          as [H1 H2].
        { intros a Ha. apply in_app_or in Ha.
          destruct Ha as [Ha | [Ha | []]]; [right; exact Ha | left; symmetry; exact Ha]. }
        split; [exact H1|]. split; [exact H2 | reflexivity].
      * rewrite catch_changes_nothing; [|intros r0; rewrite Em; discriminate].
        cbn [fst snd table]. repeat split; assumption.
    + cbn [run fst snd table]. unfold markAttendance_done. cbn [fst].
      split; [|split; [|reflexivity]].
      * rewrite map_app. cbn [map]. rewrite (key_of_filter c student).
        apply NoDup_app; [exact unique | constructor; [intros [] | constructor] |].
        intros x Hx [E | []]. subst x.
        apply (DbFacts.has_key_in _ _ AttendanceRecord.key_of
                 AttendanceRecord.key_eqb SheetFacts.key_eqb_eq) in Hx.
        congruence.
      * apply nothing_missing. intros record Hin.
        cbn [attendance setAttendance] in Hin.
        change (check_key (setAttendance
                             (attendance pg
                              ++ [attendanceRecord pg c student studentId status]) pg)
                          record)
          with (check_key pg record).
        apply in_app_or in Hin. destruct Hin as [Hin | [Hin | []]].
        -- apply (has_key_by_keys _ t).
           ++ intros x Hx. rewrite map_app. apply in_or_app. left. exact Hx.
           ++ apply (proj1 (nothing_missing pg t) all_saved). exact Hin.
        -- subst record.
           apply (DbFacts.has_key_in _ _ AttendanceRecord.key_of
                    AttendanceRecord.key_eqb SheetFacts.key_eqb_eq).
           rewrite map_app. apply in_or_app. right. left.
           rewrite (key_of_filter c student). reflexivity.
Qed.

End Saved.

(** *** [markAllPresent] *)

Section WholeClass.

Variables (pg : Page) (clock : nat -> Time) (c : ClassDetail.t).

Hypothesis subject_chosen : selectedSubject pg <> "".
Hypothesis class_type_chosen : selectedClassType pg <> "".
Hypothesis class_chosen : selectedClass pg = Some c.

Local Abbreviation record_of :=
  (fun student : Student.t =>
     attendanceRecord pg c student (Student.user_id student) present).

Local Abbreviation reports_of :=
  (fun student : Student.t =>
     (if String.eqb (activeTab pg) "view" then [FetchAttendanceHistory] else [])
     ++ [success_toast student present]).

Lemma find_in_distinct_roster (roster : list Student.t) (student : Student.t) :
  NoDup (map Student.user_id roster) ->
  In student roster ->
  find (fun s => String.eqb (Student.user_id s) (Student.user_id student)) roster
  = Some student.
Proof.
  induction roster as [|a rest IH]; intros Hnd Hin; [destruct Hin|].
  simpl. inversion Hnd as [|x xs Hnotin Hnd']; subst.
  destruct Hin as [E | Hin].
  - subst a. rewrite String.eqb_refl. reflexivity.
  - destruct (String.eqb_spec (Student.user_id a) (Student.user_id student)) as [E | E].
    + exfalso. apply Hnotin. rewrite E. apply in_map. exact Hin.
    + apply IH; assumption.
Qed.

Lemma free_key (student : Student.t) (t : list AttendanceRecord.t) :
  (forall row, In row t -> AttendanceRecord.user_id row <> Student.user_id student) ->
  has_key AttendanceRecord.key_of AttendanceRecord.key_eqb
          (AttendanceRecord.key_of (record_of student)) t = false.
Proof.
  intros H. unfold has_key.
  destruct (existsb _ t) eqn:E; [|reflexivity].
  apply existsb_exists in E. destruct E as (row & Hin & Hk).
  apply SheetFacts.key_eqb_eq in Hk. exfalso. apply (H row Hin).
  change (AttendanceRecord.k_user_id (AttendanceRecord.key_of row)
          = AttendanceRecord.k_user_id (AttendanceRecord.key_of (record_of student))).
  rewrite Hk. reflexivity.
Qed.

Lemma markAll_loop_inserts (roster : list Student.t) :
  (forall s, In s roster -> find_student pg (Student.user_id s) = Some s) ->
  (forall s, In s roster -> findIndex pg (Student.user_id s) = None) ->
  NoDup (map Student.user_id roster) ->
  forall (i : nat) (shown : Page) (log : list Effect)
         (t : list AttendanceRecord.t) (n : nat),
    (forall row s, In row t -> In s roster ->
       AttendanceRecord.user_id row <> Student.user_id s) ->
    run attendance_table (markAll_loop pg clock i roster shown log)
        (mkStore t n quiet)
    = ((match rev roster with
        | [] => shown
        | z :: _ => setAttendance (attendance pg ++ [record_of z]) shown
        end,
        log ++ flat_map reports_of roster),
       mkStore (t ++ map record_of roster) (n + List.length roster) quiet,
       map (fun s => Insert (record_of s)) roster).
Proof.
  intros Hfind Hidx Hnd. induction roster as [|s rest IH];
    intros i shown log t n Hfree.
  - simpl. rewrite !app_nil_r, Nat.add_0_r. reflexivity.
  - cbn [markAll_loop]. rewrite DbFacts.run_bind.
    rewrite (PageFacts.markAttendance_inserts pg (clock i) (Student.user_id s)
               present c s subject_chosen class_type_chosen class_chosen
               (Hfind s (or_introl eq_refl)) (Hidx s (or_introl eq_refl))).
    rewrite run_await, SheetFacts.respond_quiet. cbn [execute]. unfold insert_row.
    rewrite (free_key s t (fun row Hrow => Hfree row s Hrow (or_introl eq_refl))).
    cbn [fst snd error data run].
    destruct (done_reports_success pg present s
                (attendance pg ++ [record_of s]) []) as [Hrep Hatt].
    rewrite Hrep, Hatt.
    inversion Hnd as [|x xs Hnotin Hnd']; subst.
    rewrite (IH (fun s' H' => Hfind s' (or_intror H'))
                (fun s' H' => Hidx s' (or_intror H')) Hnd'
                (S i) _ _ (t ++ [record_of s]) (S n)).
    + cbn [fst snd].
      repeat match goal with |- (_, _) = (_, _) => apply f_equal2 end.
      * cbn [rev]. destruct (rev rest) as [|z q]; reflexivity.
      * cbn [flat_map markAttendance_done snd]. rewrite <- !app_assoc.
        reflexivity.
      * cbn [map List.length]. rewrite <- app_assoc. f_equal. lia.
      * reflexivity.
    + intros row s' Hrow Hs'. apply in_app_or in Hrow.
      destruct Hrow as [Hrow | [Hrow | []]].
      * apply (Hfree row s' Hrow). right. exact Hs'.
      * subst row. cbn [attendanceRecord AttendanceRecord.user_id].
        intros E. apply Hnotin. rewrite E. apply in_map. exact Hs'.
Qed.

Hypothesis distinct_students : NoDup (map Student.user_id (students pg)).
Hypothesis none_marked :
  forall s, In s (students pg) -> findIndex pg (Student.user_id s) = None.

Variables (t : list AttendanceRecord.t) (n : nat).

Hypothesis no_rows_yet :
  forall row s, In row t -> In s (students pg) ->
    AttendanceRecord.user_id row <> Student.user_id s.

Lemma markAllPresent_runs :
  run attendance_table (markAllPresent pg clock) (mkStore t n quiet)
  = ((match rev (students pg) with
      | [] => pg
      | z :: _ => setAttendance (attendance pg ++ [record_of z]) pg
      end,
      flat_map reports_of (students pg)),
     mkStore (t ++ map record_of (students pg))
             (n + List.length (students pg)) quiet,
     map (fun s => Insert (record_of s)) (students pg)).
Proof.
  unfold markAllPresent. rewrite class_chosen.
  apply (markAll_loop_inserts (students pg)).
  - intros s Hs. unfold find_student.
    apply find_in_distinct_roster; assumption.
  - exact none_marked.
  - exact distinct_students.
  - exact no_rows_yet.
Qed.

(** On an undisturbed table that holds no row of the class yet,
    [markAllPresent] writes one row per student of the roster, each by a
    single insert of the student's record with status present, in roster
    order, and reports success once per student. *)
Theorem markAllPresent_inserts_every_student :
  let out := run attendance_table (markAllPresent pg clock) (mkStore t n quiet) in
  snd out = map (fun s => Insert (record_of s)) (students pg) /\
  table (snd (fst out)) = t ++ map record_of (students pg) /\
  snd (fst (fst out)) = flat_map reports_of (students pg) /\
  Forall (fun r => AttendanceRecord.status r = present)
         (map record_of (students pg)).
Proof.
  cbn zeta. rewrite markAllPresent_runs. cbn [fst snd table].
  repeat split. apply Forall_forall. intros r Hr.
  apply in_map_iff in Hr. destruct Hr as (s & E & _). subst r. reflexivity.
Qed.

(** The local list after [markAllPresent]: every call of the loop appends
    to the list of the render in which the button was clicked, so of the
    rows written only the one of the last student of the roster is in the
    list the page shows afterwards; nothing else of the page changes. *)
Theorem markAllPresent_lists_last_student_only :
  let shown :=
    fst (fst (fst (run attendance_table (markAllPresent pg clock)
                       (mkStore t n quiet)))) in
  shown = setAttendance (attendance shown) pg /\
  attendance shown
  = attendance pg ++ match rev (students pg) with
                     | [] => []
                     | z :: _ => [record_of z]
                     end.
Proof.
  cbn zeta. rewrite markAllPresent_runs. cbn [fst].
  destruct (rev (students pg)) as [|z q].
  - rewrite app_nil_r. split; [destruct pg|]; reflexivity.
  - split; reflexivity.
Qed.

End WholeClass.

End MarkingFacts.

(** ** From the review to the sheet and the history *)

Module FlowFacts.

Import Db AttendancePage AttendanceSheet.

(** *** Marking a student whose record came from the review *)

Lemma handed_over_is_found (pg : Page) (now : Time) (studentId : string)
    (results : list MassFaceRecognition.Student) :
  In studentId (map MassFaceRecognition.student_id results) ->
  exists i,
    findIndex (fst (handleFaceRecognitionResults pg now results)) studentId
    = Some i.
Proof.
  unfold findIndex, handleFaceRecognitionResults.
  cbn [fst setShowFaceRecognition setAttendance attendance selectedDate
       selectedSubject].
  generalize 0. induction results as [|x rest IH]; intros k Hin; [destruct Hin|].
  cbn [map]. cbn [convert_result AttendanceRecord.user_id AttendanceRecord.date
                  AttendanceRecord.subject].
  rewrite !String.eqb_refl, !andb_true_r.
  destruct (String.eqb_spec (MassFaceRecognition.student_id x) studentId) as [E | E].
  - exists k. reflexivity.
  - destruct Hin as [Hin | Hin]; [contradiction|]. apply (IH (S k) Hin).
Qed.

(** A student whose record came from the review is written by an update,
    never by an insert.  On an undisturbed table that has no row under the
    student's key, marking the student therefore fails: the update and the
    check read find nothing, the table and the page stay as they were, and the
    error toast is shown. *)
Theorem mark_after_handover_needs_the_row (pg : Page) (now later : Time)
    (results : list MassFaceRecognition.Student) (studentId : string)
    (status : Status) (student : Student.t) (t : list AttendanceRecord.t)
    (n : nat) :
  ready pg = true ->
  find_student pg studentId = Some student ->
  In studentId (map MassFaceRecognition.student_id results) ->
  has_key AttendanceRecord.key_of AttendanceRecord.key_eqb
          (the_key pg studentId) t = false ->
  let pg' := fst (handleFaceRecognitionResults pg now results) in
  let out := run attendance_table (markAttendance pg' later studentId status)
                 (mkStore t n quiet) in
  snd out = [Update (the_patch pg later status) (the_key pg studentId);
             Select (the_key pg studentId)] /\
  table (snd (fst out)) = t /\
  fst (fst (fst out)) = pg' /\
  snd (fst (fst out))
  = [Console "Update error:"; Console "Error marking attendance:"; error_toast].
Proof.
  intros Hr Hs Hin Hk. cbn zeta.
  destruct (handed_over_is_found pg now studentId results Hin) as [i Hi].
  destruct (MarkingFacts.ready_chosen pg Hr) as (_ & _ & c & Hc).
  rewrite (MarkingFacts.markAttendance_updates
             (fst (handleFaceRecognitionResults pg now results)) later studentId
             status c student i Hr Hc Hs Hi).
  change (the_key (fst (handleFaceRecognitionResults pg now results)) studentId)
    with (the_key pg studentId).
  change (the_patch (fst (handleFaceRecognitionResults pg now results)) later status)
    with (the_patch pg later status).
  rewrite MarkingFacts.run_await, SheetFacts.respond_quiet.
  cbn [execute]. unfold update_rows.
  rewrite (DbFacts.matching_absent _ _ AttendanceRecord.key_of
             AttendanceRecord.key_eqb (the_key pg studentId) t Hk).
  cbn [fst snd error]. unfold markAttendance_catch.
  change (the_key (fst (handleFaceRecognitionResults pg now results)) studentId)
    with (the_key pg studentId).
  rewrite MarkingFacts.run_await, SheetFacts.respond_quiet.
  cbn [execute]. unfold select_row.
  rewrite (DbFacts.matching_absent _ _ AttendanceRecord.key_of
             AttendanceRecord.key_eqb (the_key pg studentId) t Hk).
  cbn [fst snd data run table app]. repeat split.
Qed.

(** *** The request of a save and the records the page lists after it *)

(** When the page renders the component and a save succeeds, the records
    the page lists afterwards agree with the request the component sent: they
    carry the date, the subject, the class type, the class id, the faculty id
    and the faculty name of its [attendance_data], and the students and
    statuses of its [attendance_results], in order. *)
Theorem handed_over_records_match_request (pg : Page)
    (p : MassFaceRecognition.Props) (s : MassFaceRecognition.State)
    (r : MassFaceRecognition.FetchResult) (now : Time) :
  componentProps pg = Some p ->
  MassFaceRecognition.save_succeeded r = true ->
  let effects := snd (MassFaceRecognition.saveAttendance p s r) in
  let pg' := callbacks now effects pg in
  exists url d results,
    MassFaceRecognition.requests effects = [MassFaceRecognition.Post url d results] /\
    Forall (fun a =>
              AttendanceRecord.date a = MassFaceRecognition.ad_date d /\
              AttendanceRecord.subject a = MassFaceRecognition.ad_subject d /\
              AttendanceRecord.class_type a = MassFaceRecognition.class_type d /\
              AttendanceRecord.class_id a = MassFaceRecognition.class_id d /\
              AttendanceRecord.marked_by a = MassFaceRecognition.faculty_id d /\
              AttendanceRecord.faculty_name a
              = Some (MassFaceRecognition.faculty_name d))
           (attendance pg') /\
    map AttendanceRecord.user_id (attendance pg')
    = map MassFaceRecognition.student_id results /\
    map AttendanceRecord.status (attendance pg')
    = map MassFaceRecognition.status results.
Proof.
  intros Hp Hr. cbn zeta.
  rewrite ComponentFacts.saveAttendance_requests.
  rewrite (SheetFacts.handed_over p s r pg now Hr).
  unfold componentProps in Hp.
  destruct (modal_shown pg); [|discriminate].
  destruct (selectedClass pg) as [c|] eqn:Hc; [|discriminate].
  inversion Hp; subst p; clear Hp.
  eexists. eexists. eexists. split; [reflexivity|].
  cbn [MassFaceRecognition.ad_date MassFaceRecognition.ad_subject
       MassFaceRecognition.class_type MassFaceRecognition.class_id
       MassFaceRecognition.faculty_id MassFaceRecognition.faculty_name
       MassFaceRecognition.classId MassFaceRecognition.subject
       MassFaceRecognition.classType MassFaceRecognition.date
       MassFaceRecognition.facultyId MassFaceRecognition.facultyName].
  split; [|split].
  - apply Forall_forall. intros a Ha. apply in_map_iff in Ha.
    destruct Ha as (x & E & _). subst a.
    unfold convert_result. rewrite Hc.
    cbn [AttendanceRecord.date AttendanceRecord.subject AttendanceRecord.class_type
         AttendanceRecord.class_id AttendanceRecord.marked_by
         AttendanceRecord.faculty_name].
    repeat split.
  - rewrite map_map. reflexivity.
  - rewrite map_map. reflexivity.
Qed.

(** *** The cards of the history tab *)

Local Abbreviation Groups := (list (string * list AttendanceRecord.t)).

(** The records filed under a key. *)
Local Abbreviation filed key groups :=
  (match find (fun g : string * list AttendanceRecord.t => String.eqb (fst g) key)
              groups with
   | Some g => snd g
   | None => []
   end).

Lemma push_to_keys (key : string) (record : AttendanceRecord.t) (groups : Groups) :
  map fst (push_to key record groups)
  = if existsb (String.eqb key) (map fst groups)
    then map fst groups
    else map fst groups ++ [key].
Proof.
  induction groups as [|[k records] rest IH]; [reflexivity|].
  cbn [push_to map fst existsb]. rewrite (String.eqb_sym key k).
  destruct (String.eqb k key); [reflexivity|].
  cbn [map fst orb]. rewrite IH.
  destruct (existsb (String.eqb key) (map fst rest)); reflexivity.
Qed.

Lemma push_to_filed (key : string) (record : AttendanceRecord.t) (groups : Groups)
    (k : string) :
  filed k (push_to key record groups)
  = filed k groups ++ (if String.eqb key k then [record] else []).
Proof.
  induction groups as [|[k0 records] rest IH].
  - cbn [push_to find fst snd]. rewrite (String.eqb_sym key k).
    destruct (String.eqb k key); reflexivity.
  - cbn [push_to]. destruct (String.eqb_spec k0 key) as [E | E].
    + subst k0. cbn [find fst snd].
      destruct (String.eqb key k); [reflexivity|].
      rewrite app_nil_r. reflexivity.
    + cbn [find fst snd]. destruct (String.eqb_spec k0 k) as [E' | E'].
      * subst k0. destruct (String.eqb_spec key k) as [E2 | E2];
          [congruence | rewrite app_nil_r; reflexivity].
      * exact IH.
Qed.

Lemma distinct_same_seen (l : list string) :
  forall seen seen',
    (forall x, In x seen <-> In x seen') ->
    distinct seen l = distinct seen' l.
Proof.
  induction l as [|x rest IH]; intros seen seen' H; [reflexivity|].
  cbn [distinct].
  assert (E : existsb (String.eqb x) seen = existsb (String.eqb x) seen').
  { destruct (existsb (String.eqb x) seen) eqn:E1;
      destruct (existsb (String.eqb x) seen') eqn:E2; try reflexivity.
    - apply existsb_exists in E1. destruct E1 as (y & Hy & Hxy).
      apply H in Hy.
      assert (existsb (String.eqb x) seen' = true) as E3
        by (apply existsb_exists; exists y; split; assumption).
      congruence.
    - apply existsb_exists in E2. destruct E2 as (y & Hy & Hxy).
      apply H in Hy.
      assert (existsb (String.eqb x) seen = true) as E3
        by (apply existsb_exists; exists y; split; assumption).
      congruence. }
  rewrite E. destruct (existsb (String.eqb x) seen').
  - apply IH. exact H.
  - f_equal. apply IH. intros y. simpl. rewrite H. reflexivity.
Qed.

Lemma group_records_spec (history : list AttendanceRecord.t) :
  (forall record, In record history -> ~ In (group_key record) inherited) ->
  forall groups : Groups,
  exists cards,
    group_records history groups = Some cards /\
    map fst cards
    = map fst groups ++ distinct (map fst groups) (map group_key history) /\
    forall k,
      filed k cards
      = filed k groups
        ++ filter (fun record => String.eqb (group_key record) k) history.
Proof.
  induction history as [|record rest IH]; intros Hok groups.
  - exists groups. split; [reflexivity|]. split.
    + simpl. rewrite app_nil_r. reflexivity.
    + intros k. simpl. rewrite app_nil_r. reflexivity.
  - cbn [group_records].
    destruct (existsb (String.eqb (group_key record)) inherited) eqn:Ei.
    + exfalso. apply existsb_exists in Ei. destruct Ei as (x & Hx & E).
      apply String.eqb_eq in E. subst x.
      exact (Hok record (or_introl eq_refl) Hx).
    + destruct (IH (fun r Hr => Hok r (or_intror Hr))
                   (push_to (group_key record) record groups))
        as (cards & Hc & Hkeys & Hfiled).
      exists cards. split; [exact Hc|]. split.
      * rewrite Hkeys, push_to_keys. cbn [map distinct].
        destruct (existsb (String.eqb (group_key record)) (map fst groups)) eqn:E.
        -- reflexivity.
        -- rewrite <- app_assoc. cbn [app]. f_equal. f_equal.
           apply distinct_same_seen. intros x. rewrite in_app_iff. simpl.
           tauto.
      * intros k. rewrite Hfiled, push_to_filed. cbn [filter].
        rewrite <- app_assoc.
        destruct (String.eqb (group_key record) k); reflexivity.
Qed.

Lemma filed_entry (cards : Groups) (k : string) (records : list AttendanceRecord.t) :
  NoDup (map fst cards) -> In (k, records) cards -> filed k cards = records.
Proof.
  induction cards as [|[k0 rs] rest IH]; intros Hnd Hin; [destruct Hin|].
  inversion Hnd as [|x xs Hnotin Hnd']; subst.
  cbn [find fst snd]. destruct Hin as [E | Hin].
  - inversion E; subst. rewrite String.eqb_refl. reflexivity.
  - destruct (String.eqb_spec k0 k) as [E | E].
    + exfalso. subst k0. apply Hnotin.
      change k with (fst (k, records)). apply in_map. exact Hin.
    + apply IH; assumption.
Qed.

(** The history tab shows one card per group key, in the order in which the
    keys first appear in the history, and a card holds exactly the records of
    its key, in the order of the history: no record is dropped, none is shown
    on two cards.  (The reducer throws only on a key that is a property name
    inherited by the object literal.) *)
Theorem history_cards_partition (history : list AttendanceRecord.t) :
  (forall record, In record history -> ~ In (group_key record) inherited) ->
  exists cards,
    history_cards history = Some cards /\
    map fst cards = distinct [] (map group_key history) /\
    forall k records,
      In (k, records) cards ->
      records = filter (fun record => String.eqb (group_key record) k) history /\
      records <> [].
Proof.
  intros Hok. unfold history_cards.
  destruct (group_records_spec history Hok []) as (cards & Hc & Hkeys & Hfiled).
  assert (Hk0 : map fst cards = distinct [] (map group_key history))
    by exact Hkeys.
  clear Hkeys.
  exists cards. split; [exact Hc|]. split; [exact Hk0|].
  intros k records Hin.
  assert (Hnd : NoDup (map fst cards)).
  { rewrite Hk0. apply (SheetFacts.distinct_spec (map group_key history) []). }
  assert (E : records
              = filter (fun record => String.eqb (group_key record) k) history).
  { rewrite <- (filed_entry cards k records Hnd Hin). apply Hfiled. }
  split; [exact E|].
  assert (Hk : In k (map group_key history)).
  { destruct (SheetFacts.distinct_spec (map group_key history) []) as [_ Hd].
    apply (proj1 (Hd k)). rewrite <- Hk0.
    change k with (fst (k, records)). apply in_map. exact Hin. }
  apply in_map_iff in Hk. destruct Hk as (record & Ek & Hrec).
  intros Hnil. rewrite E in Hnil.
  assert (Hf : In record
                  (filter (fun record => String.eqb (group_key record) k) history)).
  { apply filter_In. split; [exact Hrec|]. rewrite Ek. apply String.eqb_refl. }
  rewrite Hnil in Hf. destruct Hf.
Qed.

End FlowFacts.

(** ** Face training *)

Module TrainingFacts.

Import FaceTrainingStatus.

(** The state after a check without a storable answer is the previous one
    with the loading flag cleared and one of the two error texts. *)
Lemma unanswered_check (studentId : string) (prev : TrainingStatus)
    (r : MassFaceRecognition.FetchResult) :
  check_answered r = false ->
  exists m,
    fst (checkTrainingStatus studentId prev r)
    = mkStatus (trained prev) false (Some m) (training_date prev)
               (embedding_available prev).
Proof.
  intros H.
  destruct r as [message | [|] [message | data]]; simpl in *;
    try (eexists; reflexivity).
  destruct (read data "trained") as [thrown | t]; [|discriminate].
  eexists; reflexivity.
Qed.

(** A status check that gets no answer it can store (the request is
    rejected, the response is not ok, or its body does not parse) leaves what
    the card knows about the training as it was: it only clears the loading
    flag and sets an error text, so the badge is the one shown before the
    check. *)
Theorem failed_check_keeps_training_data (studentId : string)
    (prev : TrainingStatus) (r : MassFaceRecognition.FetchResult) :
  check_answered r = false ->
  let s := fst (checkTrainingStatus studentId prev r) in
  trained s = trained prev /\
  training_date s = training_date prev /\
  embedding_available s = embedding_available prev /\
  loading s = false /\
  (exists m, error s = Some m) /\
  badge s = (if truthy (trained prev) then Trained else NotTrained).
Proof.
  intros H. cbn zeta.
  destruct (unanswered_check studentId prev r H) as [m E]. rewrite E.
  repeat split. exists m. reflexivity.
Qed.

Lemma checkTrainingStatus_requests (studentId : string) (prev : TrainingStatus)
    (r : MassFaceRecognition.FetchResult) :
  gets (snd (checkTrainingStatus studentId prev r))
  = [Get (MassFaceRecognition.FACE_RECOGNITION_API_URL ++ "/students/"
          ++ studentId ++ "/face-training-status")] /\
  deletes (snd (checkTrainingStatus studentId prev r)) = [].
Proof.
  destruct r as [message | [|] [message | data]]; simpl; try (split; reflexivity).
  destruct (read data "trained") as [thrown | t]; split; reflexivity.
Qed.

(** [deleteTrainingData] sends nothing unless the user confirms; confirmed,
    it sends the DELETE request once, and only an ok answer to it is
    followed by a status check.  The card's training data changes only
    through that check: a refused delete leaves the card as it was, and so
    does, but for the error text, an acknowledged delete whose status check
    gets no answer. *)
Theorem deleteTrainingData_asks_first (studentId : string)
    (prev : TrainingStatus) (confirmed : bool)
    (del refresh : MassFaceRecognition.FetchResult) :
  let s := fst (deleteTrainingData studentId prev confirmed del refresh) in
  let effects := snd (deleteTrainingData studentId prev confirmed del refresh) in
  deletes effects
  = (if confirmed
     then [Delete (MassFaceRecognition.FACE_RECOGNITION_API_URL ++ "/students/"
                   ++ studentId ++ "/face-data")]
     else []) /\
  gets effects
  = (if confirmed && delete_ok del
     then [Get (MassFaceRecognition.FACE_RECOGNITION_API_URL ++ "/students/"
                ++ studentId ++ "/face-training-status")]
     else []) /\
  (confirmed = false -> s = prev /\ effects = []) /\
  (delete_ok del = false -> s = prev) /\
  (check_answered refresh = false ->
     trained s = trained prev /\ training_date s = training_date prev).
Proof.
  cbn zeta. unfold deleteTrainingData.
  destruct confirmed; simpl.
  - destruct del as [message | [|] body]; simpl.
    + repeat split; discriminate.
    + destruct (checkTrainingStatus_requests studentId prev refresh) as [Hg Hd].
      pose proof (unanswered_check studentId prev refresh) as Hk.
      destruct (checkTrainingStatus studentId prev refresh) as [s effects].
      simpl in *. rewrite Hg, Hd.
      split; [reflexivity|]. split; [reflexivity|]. split; [discriminate|].
      split; [discriminate|]. intros H. destruct (Hk H) as [m E].
      rewrite E. split; reflexivity.
    + repeat split; discriminate.
  - repeat split.
Qed.

End TrainingFacts.

Module UploadFacts.

Import MassFaceRecognition FaceUpload.

Lemma validateFile_passes (f : File) :
  validateFile f = None <-> accepted f.
Proof.
  unfold validateFile, accepted.
  destruct (existsb (String.eqb (file_type f)) ACCEPTED_TYPES) eqn:Ht; simpl.
  - apply existsb_exists in Ht. destruct Ht as (x & Hin & Hx).
    apply String.eqb_eq in Hx. subst x.
    destruct (Nat.ltb MAX_FILE_SIZE (file_size f)) eqn:Hs.
    + apply Nat.ltb_lt in Hs. split; [discriminate|]. intros [_ H]. lia.
    + apply Nat.ltb_ge in Hs. split; [intros _; split; assumption | reflexivity].
  - split; [discriminate|]. intros [Hin _]. exfalso.
    assert (H : existsb (String.eqb (file_type f)) ACCEPTED_TYPES = true).
    { apply existsb_exists. exists (file_type f). split; [exact Hin|].
      apply String.eqb_refl. }
    congruence.
Qed.

Local Abbreviation checked :=
  (fun img : UploadedImage => is_valid img = true -> accepted (file img)).

Lemma select_loop_adds (held : nat) (clock : nat -> Time) (url : nat -> string)
    (files : list File) :
  forall (i : nat) (acc : list UploadedImage),
    held + List.length acc <= MAX_IMAGES ->
    Forall checked acc ->
    held + List.length (select_loop held clock url i files acc) <= MAX_IMAGES /\
    Forall checked (select_loop held clock url i files acc) /\
    List.length (select_loop held clock url i files acc)
    = Nat.min (MAX_IMAGES - held) (List.length acc + List.length files).
Proof.
  induction files as [|f rest IH]; intros i acc Hlen Hacc;
    cbn [select_loop List.length].
  - split; [exact Hlen|]. split; [exact Hacc|]. lia.
  - destruct (Nat.ltb (held + List.length acc) MAX_IMAGES) eqn:E.
    + apply Nat.ltb_lt in E.
      destruct (IH (S i)
                  (acc ++ [mkImage (clock i, i) f (url i)
                             (match validateFile f with
                              | None => valid
                              | Some _ => invalid
                              end) (validateFile f)])) as (H1 & H2 & H3).
      * rewrite List.length_app. simpl. lia.
      * apply Forall_app. split; [exact Hacc|]. constructor; [|constructor].
        unfold is_valid. simpl.
        destruct (validateFile f) eqn:Ev; [discriminate|].
        intros _. apply validateFile_passes. exact Ev.
      * split; [exact H1|]. split; [exact H2|].
        rewrite H3, List.length_app. simpl. lia.
    + apply Nat.ltb_ge in E. split; [exact Hlen|]. split; [exact Hacc|]. lia.
Qed.

(** [handleFileSelect] fills the form up to [MAX_IMAGES] images, counting
    the invalid files it adds as well, and shows its warning exactly when a
    file was left out. *)
Theorem handleFileSelect_warns_when_files_are_left_out (clock : nat -> Time)
    (url : nat -> string) (files : list File) (s : State) :
  List.length (images s) <= MAX_IMAGES ->
  let s' := fst (handleFileSelect clock url files s) in
  let effects := snd (handleFileSelect clock url files s) in
  List.length (images s')
  = Nat.min MAX_IMAGES (List.length (images s) + List.length files) /\
  (effects = [] <->
   List.length (images s') = List.length (images s) + List.length files) /\
  (exists rest, images s' = images s ++ rest).
Proof.
  intros H. cbn zeta. unfold handleFileSelect. cbn [fst snd images].
  destruct (select_loop_adds (List.length (images s)) clock url files 0 [])
    as (_ & _ & Hn).
  - simpl. lia.
  - constructor.
  - rewrite List.length_app, Hn. cbn [List.length Nat.add].
    change MAX_IMAGES with 5 in *.
    split; [lia|]. split; [|eexists; reflexivity].
    destruct (Nat.ltb 5 (List.length files + List.length (images s))) eqn:E.
    + apply Nat.ltb_lt in E. split; [discriminate | lia].
    + apply Nat.ltb_ge in E. split; [lia | reflexivity].
Qed.

Lemma handleUpload_try_images (p : Props) (s : State) (r : FetchResult) :
  images (fst (handleUpload_try p s r)) = images s \/
  images (fst (handleUpload_try p s r)) = [].
Proof.
  destruct r as [message | [|] [message | j]]; simpl; try (left; reflexivity).
  - destruct (read j "success") as [thrown | ok]; simpl; [left; reflexivity|].
    destruct (truthy ok); simpl; [right; reflexivity|].
    destruct (read j "message"); left; reflexivity.
  - destruct (read j "detail"); left; reflexivity.
Qed.

Lemma handleUpload_try_sends_nothing (p : Props) (s : State) (r : FetchResult)
    (url : string) (d : StudentData) (imgs : list File) :
  ~ In (PostForm url d imgs) (snd (handleUpload_try p s r)).
Proof.
  assert (Hc : forall s0 m, ~ In (PostForm url d imgs) (snd (handleUpload_catch s0 m))).
  { intros s0 m [H | [H | []]]; discriminate. }
  destruct r as [message | [|] [message | j]]; cbn [handleUpload_try];
    try apply Hc.
  - destruct (read j "success") as [thrown | ok]; [apply Hc|].
    destruct (truthy ok).
    + cbn [snd]. intros H. apply in_app_or in H. destruct H as [[H | []] | H];
        [discriminate|].
      apply in_app_or in H. destruct H as [H | H].
      * apply in_map_iff in H. destruct H as (x & Hx & _). discriminate.
      * destruct (onTrainingComplete p); [destruct H as [H | []]; discriminate|].
        destruct H.
    + destruct (read j "message"); apply Hc.
  - destruct (read j "detail"); apply Hc.
Qed.

Lemma handleUpload_sends_valid_images (p : Props) (s : State) (r : FetchResult)
    (url : string) (d : StudentData) (imgs : list File) :
  In (PostForm url d imgs) (snd (handleUpload p s r)) ->
  imgs = map file (filter is_valid (images s)) /\
  2 <= List.length (filter is_valid (images s)).
Proof.
  unfold handleUpload.
  destruct (filter is_valid (images s)) as [|a [|b rest]] eqn:E; cbn [snd].
  - intros [].
  - intros [].
  - destruct (handleUpload_try p _ r) as [s' effects] eqn:Et. cbn [snd].
    intros [H | H].
    + inversion H. split; [reflexivity | simpl; lia].
    + exfalso.
      apply (handleUpload_try_sends_nothing p
               (mkState (images s) true 0 None (success s)) r url d imgs).
      rewrite Et. exact H.
Qed.

Lemma handle_keeps_well_formed (p : Props) (s : State) (e : Event) :
  well_formed s -> well_formed (fst (handle p s e)).
Proof.
  intros Hw. pose proof Hw as [H1 H2].
  assert (Hsel : forall clock url files,
             well_formed (fst (handleFileSelect clock url files s))).
  { intros clock url files. unfold well_formed, handleFileSelect. cbn [fst images].
    destruct (select_loop_adds (List.length (images s)) clock url files 0 [])
      as (Ha & Hb & _); [simpl; lia | constructor |].
    split; [rewrite List.length_app; exact Ha|].
    apply Forall_app. split; assumption. }
  destruct e as [clock url files | clock url files | i | | | r]; simpl.
  - apply Hsel.
  - destruct files as [|f rest]; [exact Hw | apply Hsel].
  - unfold well_formed. cbn [images]. split.
    + pose proof (filter_length_le (fun img => negb (id_eqb (id img) i)) (images s)).
      lia.
    + apply Forall_forall. intros img Hi. apply filter_In in Hi.
      rewrite Forall_forall in H2. apply H2. apply Hi.
  - split; [simpl; unfold MAX_IMAGES; lia | constructor].
  - exact Hw.
  - unfold handleUpload.
    destruct (filter is_valid (images s)) as [|a [|b rest]]; cbn [fst];
      try exact Hw.
    pose proof (handleUpload_try_images p
                  (mkState (images s) true 0 None (success s)) r) as Hi.
    destruct (handleUpload_try p _ r) as [s' effects]. cbn [fst images] in *.
    unfold well_formed. destruct Hi as [Hi | Hi]; rewrite Hi.
    + exact Hw.
    + split; [simpl; unfold MAX_IMAGES; lia | constructor].
Qed.

Lemma handle_sends_valid_images (p : Props) (s : State) (e : Event)
    (url : string) (d : StudentData) (imgs : list File) :
  In (PostForm url d imgs) (snd (handle p s e)) ->
  imgs = map file (filter is_valid (images s)) /\
  2 <= List.length (filter is_valid (images s)).
Proof.
  assert (Hsel : forall clock u files,
             In (PostForm url d imgs) (snd (handleFileSelect clock u files s)) ->
             False).
  { intros clock u files. unfold handleFileSelect. cbn [snd].
    match goal with |- context [if ?b then _ else _] => destruct b end;
      [intros [H | []]; discriminate | intros []]. }
  destruct e as [clock u files | clock u files | i | | | r];
    cbn [handle handleDrop removeImage clearAll trainMore snd].
  - intros H. destruct (Hsel _ _ _ H).
  - destruct files as [|f rest]; [intros []|]. intros H. destruct (Hsel _ _ _ H).
  - destruct (find _ (images s)); [intros [H | []]; discriminate | intros []].
  - intros H. apply in_map_iff in H. destruct H as (x & Hx & _). discriminate.
  - intros [].
  - apply handleUpload_sends_valid_images.
Qed.

Lemma session_sends_valid_images (p : Props) (events : list Event) :
  forall s url d imgs,
    well_formed s ->
    In (PostForm url d imgs) (snd (session p s events)) ->
    2 <= List.length imgs <= MAX_IMAGES /\ Forall accepted imgs.
Proof.
  induction events as [|e rest IH]; intros s url d imgs Hw Hin; simpl in Hin.
  - destruct Hin.
  - destruct (handle p s e) as [s1 effects1] eqn:He.
    destruct (session p s1 rest) as [s2 effects2] eqn:Hr.
    simpl in Hin. apply in_app_or in Hin. destruct Hin as [Hin | Hin].
    + destruct (handle_sends_valid_images p s e url d imgs) as [Hi Hn].
      { rewrite He. exact Hin. }
      destruct Hw as [H1 H2]. subst imgs. rewrite List.length_map.
      split.
      * split; [exact Hn|].
        pose proof (filter_length_le is_valid (images s)). lia.
      * apply Forall_forall. intros f Hf. apply in_map_iff in Hf.
        destruct Hf as (img & Ef & Himg). apply filter_In in Himg.
        destruct Himg as [Himg Hv]. rewrite Forall_forall in H2.
        subst f. apply (H2 img Himg Hv).
    + apply (IH s1 url d imgs).
      * pose proof (handle_keeps_well_formed p s e Hw) as H.
        rewrite He in H. exact H.
      * rewrite Hr. exact Hin.
Qed.

(** Whatever is done with the upload form from the moment it is mounted,
    every training request carries at least two and at most five images,
    each of them of one of the three accepted types and of at most
    10 * 1024 * 1024 bytes: the files marked invalid stay in the form and are
    never sent. *)
Theorem training_request_carries_valid_images (p : Props)
    (events : list Event) (url : string) (d : StudentData) (imgs : list File) :
  In (PostForm url d imgs) (snd (session p mounted events)) ->
  2 <= List.length imgs <= 5 /\
  Forall (fun f => In (file_type f) ["image/jpeg"; "image/jpg"; "image/png"] /\
                   file_size f <= 10 * 1024 * 1024) imgs.
Proof.
  intros H.
  apply (session_sends_valid_images p events mounted url d imgs); [|exact H].
  split; [simpl; unfold MAX_IMAGES; lia | constructor].
Qed.

End UploadFacts.

(** ** The photo, the sheet and the training form on the sample data *)

Module MoreChecks.

Import Samples MoreSamples.

(** A photo of exactly 20 * 1024 * 1024 bytes passes [validateFile], one
    byte more does not, and neither does a file of another type. *)
Example validateFile_at_the_limit :
  ClassPhoto.valid
    (ClassPhoto.validateFile
       (MassFaceRecognition.mkFile "image/jpeg" ClassPhoto.MAX_FILE_SIZE)) = true /\
  ClassPhoto.valid
    (ClassPhoto.validateFile
       (MassFaceRecognition.mkFile "image/jpeg" (S ClassPhoto.MAX_FILE_SIZE))) = false /\
  ClassPhoto.validateFile (MassFaceRecognition.mkFile "image/gif" 500)
  = ClassPhoto.mkValidation false (Some "Only JPEG and PNG images are allowed").
Proof.
  split; [|split].
  - apply PhotoFacts.validateFile_accepts. split; [left; reflexivity | apply le_n].
  - destruct (ClassPhoto.valid _) eqn:E; [|reflexivity].
    apply PhotoFacts.validateFile_accepts in E. destruct E as [_ E].
    exfalso. exact (Nat.nle_succ_diag_l _ E).
  - reflexivity.
Qed.

(** The request of a recognition started on a dropped photo. *)
Lemma recognition_request_carries_accepted_photo_witness :
  In (ClassPhoto.PostForm
        (MassFaceRecognition.FACE_RECOGNITION_API_URL ++ "/mass-recognition")
        (MassFaceRecognition.mkAttendanceData "CE-5A" "Data Structures" "Theory"
           "2025-01-15" "F001" "Prof Shah")
        photo0)
     (snd (ClassPhoto.session props0 ClassPhoto.mounted drop_and_start)) /\
  In (MassFaceRecognition.file_type photo0)
     ["image/jpeg"; "image/jpg"; "image/png"] /\
  MassFaceRecognition.file_size photo0 <= 20 * 1024 * 1024.
Proof.
  assert (H : In (ClassPhoto.PostForm
                    (MassFaceRecognition.FACE_RECOGNITION_API_URL
                       ++ "/mass-recognition")
                    (MassFaceRecognition.mkAttendanceData "CE-5A" "Data Structures"
                       "Theory" "2025-01-15" "F001" "Prof Shah")
                    photo0)
                 (snd (ClassPhoto.session props0 ClassPhoto.mounted drop_and_start))).
  { lazy. left. reflexivity. }
  split; [exact H|].
  exact (PhotoFacts.recognition_request_carries_accepted_photo
           props0 drop_and_start _ _ _ H).
Defined.

(** A save after a recognition and two edits: the rows sent are those of
    the answer with the two statuses changed. *)
Example save_after_edits :
  ClassPhoto.saves
    (snd (ClassPhoto.handle props0
            (fst (ClassPhoto.session props0 (ClassPhoto.known chosen0)
                    [ClassPhoto.StartFaceRecognition recognised type_error;
                     ClassPhoto.SetStatus "B" late;
                     ClassPhoto.SetStatus "A" absent]))
            (ClassPhoto.SaveAttendance saved)))
  = [ClassPhoto.Other
       (MassFaceRecognition.Post
          (MassFaceRecognition.FACE_RECOGNITION_API_URL ++ "/save-attendance")
          (MassFaceRecognition.mkAttendanceData "CE-5A" "Data Structures" "Theory"
             "2025-01-15" "F001" "Prof Shah")
          [MassFaceRecognition.mkStudent "A" "Asha" (Some 0.9%Q) absent true;
           MassFaceRecognition.mkStudent "B" "Bhavin" (Some 0%Q) late false;
           row_C])].
Proof. reflexivity. Qed.

(** An answer that reports a success and has no rows: the spread throws,
    and the component is back in the upload step with the message of the
    engine; [attendanceResults] no longer holds a list, the rows under
    review are as they were. *)
Example answer_without_rows_returns_to_upload :
  let c := fst (ClassPhoto.processClassPhoto props0 (ClassPhoto.known chosen0)
                  success_without_rows type_error) in
  ClassPhoto.recognition_succeeded success_without_rows = true /\
  ClassPhoto.recognised_rows success_without_rows = None /\
  MassFaceRecognition.currentStep (ClassPhoto.state c)
  = MassFaceRecognition.Upload /\
  MassFaceRecognition.error (ClassPhoto.state c) = Some (Text type_error) /\
  ClassPhoto.results_known c = false /\
  ClassPhoto.edited_known c = true /\
  MassFaceRecognition.editedResults (ClassPhoto.state c) = [].
Proof. cbv zeta. repeat split. Qed.

(** An answer whose rows hold a [null]: the rows are stored, the count of
    the toast throws, and a save would send rows that are not of the
    declared type. *)
Example answer_with_null_row_returns_to_upload :
  let c := fst (ClassPhoto.processClassPhoto props0 (ClassPhoto.known chosen0)
                  success_with_null_row type_error) in
  MassFaceRecognition.currentStep (ClassPhoto.state c)
  = MassFaceRecognition.Upload /\
  MassFaceRecognition.error (ClassPhoto.state c)
  = Some (CannotRead "detected") /\
  ClassPhoto.results_known c = false /\
  ClassPhoto.edited_known c = false /\
  ClassPhoto.saves
    (snd (ClassPhoto.handle props0 c (ClassPhoto.SaveAttendance saved)))
  = [ClassPhoto.PostUnknown
       (MassFaceRecognition.FACE_RECOGNITION_API_URL ++ "/save-attendance")
       (MassFaceRecognition.mkAttendanceData "CE-5A" "Data Structures" "Theory"
          "2025-01-15" "F001" "Prof Shah")].
Proof. cbv zeta. repeat split. Qed.


(** The recognition service is down. *)
Lemma failed_recognition_returns_to_upload_witness :
  MassFaceRecognition.classPhoto (ClassPhoto.state (ClassPhoto.known chosen0))
  = Some photo0 /\
  ClassPhoto.recognition_succeeded service_down = false /\
  MassFaceRecognition.currentStep
    (ClassPhoto.state
       (fst (ClassPhoto.processClassPhoto props0 (ClassPhoto.known chosen0)
               service_down type_error)))
  = MassFaceRecognition.Upload /\
  MassFaceRecognition.classPhoto
    (ClassPhoto.state
       (fst (ClassPhoto.processClassPhoto props0 (ClassPhoto.known chosen0)
               service_down type_error)))
  = Some photo0.
Proof.
  assert (H1 : MassFaceRecognition.classPhoto
                 (ClassPhoto.state (ClassPhoto.known chosen0)) = Some photo0)
    by reflexivity.
  assert (H2 : ClassPhoto.recognition_succeeded service_down = false) by reflexivity.
  split; [exact H1|]. split; [exact H2|].
  destruct (PhotoFacts.failed_recognition_returns_to_upload
              props0 (ClassPhoto.known chosen0) service_down type_error photo0
              H1 H2)
    as (Hstep & _ & _ & _ & Hphoto & _).
  split; [exact Hstep | exact Hphoto].
Defined.

(** Three students recognised, one of them detected; one edit. *)
Lemma review_summary_adds_up_witness :
  MassFaceRecognition.classPhoto (ClassPhoto.state (ClassPhoto.known chosen0))
  = Some photo0 /\
  ClassPhoto.recognised_rows recognised = Some [row_A; row_B; row_C] /\
  ClassPhoto.presentCount
    (ClassPhoto.state
       (fst (ClassPhoto.session props0 (ClassPhoto.known chosen0)
               (ClassPhoto.StartFaceRecognition recognised type_error
                :: ClassPhoto.edits [("B", late)]))))
  + ClassPhoto.absentCount
      (ClassPhoto.state
         (fst (ClassPhoto.session props0 (ClassPhoto.known chosen0)
                 (ClassPhoto.StartFaceRecognition recognised type_error
                  :: ClassPhoto.edits [("B", late)]))))
  + ClassPhoto.lateCount
      (ClassPhoto.state
         (fst (ClassPhoto.session props0 (ClassPhoto.known chosen0)
                 (ClassPhoto.StartFaceRecognition recognised type_error
                  :: ClassPhoto.edits [("B", late)]))))
  = 3 /\
  ClassPhoto.detectedCount
    (ClassPhoto.state
       (fst (ClassPhoto.session props0 (ClassPhoto.known chosen0)
               (ClassPhoto.StartFaceRecognition recognised type_error
                :: ClassPhoto.edits [("B", late)]))))
  = 1.
Proof.
  assert (H1 : MassFaceRecognition.classPhoto
                 (ClassPhoto.state (ClassPhoto.known chosen0)) = Some photo0)
    by reflexivity.
  assert (H2 : ClassPhoto.recognised_rows recognised = Some [row_A; row_B; row_C])
    by reflexivity.
  split; [exact H1|]. split; [exact H2|].
  destruct (PhotoFacts.review_summary_adds_up
              props0 (ClassPhoto.known chosen0) recognised type_error
              [row_A; row_B; row_C] photo0 [("B", late)] H1 H2)
    as (_ & Hsum & Hdet & _).
  split; [exact Hsum | exact Hdet].
Defined.

(** The teacher sets the matched student A to absent and saves. *)
Lemma review_edits_keep_marked_via_witness :
  MassFaceRecognition.save_succeeded saved = true /\
  map AttendanceRecord.marked_via
      (AttendancePage.attendance
         (AttendancePage.callbacks 7
            (snd (MassFaceRecognition.saveAttendance props0
                    (ClassPhoto.state
                       (fst (ClassPhoto.session props0 (ClassPhoto.known review0)
                               (ClassPhoto.edits [("A", absent)]))))
                    saved))
            page0))
  = [Some face_recognition; Some manual; Some manual] /\
  map AttendanceRecord.status
      (AttendancePage.attendance
         (AttendancePage.callbacks 7
            (snd (MassFaceRecognition.saveAttendance props0
                    (ClassPhoto.state
                       (fst (ClassPhoto.session props0 (ClassPhoto.known review0)
                               (ClassPhoto.edits [("A", absent)]))))
                    saved))
            page0))
  = [absent; absent; absent].
Proof.
  assert (H : MassFaceRecognition.save_succeeded saved = true) by reflexivity.
  split; [exact H|].
  destruct (SheetFacts.review_edits_keep_marked_via
              props0 review0 [("A", absent)] saved page0 7 H)
    as (Hvia & _ & _ & Hstatus).
  split; [exact Hvia | exact Hstatus].
Defined.

(** The page after the save of the review [review0]. *)
Lemma page_stats_match_review_summary_witness :
  MassFaceRecognition.save_succeeded saved = true /\
  AttendanceSheet.getAttendanceStats
    (AttendancePage.callbacks 7
       (snd (MassFaceRecognition.saveAttendance props0 review0 saved)) page0)
  = Stats.mk 1 2 0 3.
Proof.
  assert (H : MassFaceRecognition.save_succeeded saved = true) by reflexivity.
  split; [exact H|].
  exact (proj1 (SheetFacts.page_stats_match_review_summary
                  props0 review0 saved page0 7 H)).
Defined.

(** [saveAllAttendance] on the sheet that lists the row of student A: with
    the row in the table it reports success. *)
Lemma saveAllAttendance_reports_missing_rows_witness :
  AttendanceSheet.ready page1 = true /\
  fst (fst (Db.run AttendancePage.attendance_table
              (AttendanceSheet.saveAllAttendance page1)
              (Db.mkStore [rival_row] 0 Db.quiet)))
  = [AttendanceSheet.SetLoading true;
     AttendanceSheet.RefreshHistory;
     AttendanceSheet.Notify (AttendanceSheet.saved_toast page1);
     AttendanceSheet.SetLoading false].
Proof.
  assert (H1 : AttendanceSheet.ready page1 = true) by reflexivity.
  assert (H2 : AttendancePage.attendance page1 <> []) by discriminate.
  assert (H3 : NoDup (map AttendanceRecord.key_of [rival_row])).
  { constructor; [intros [] | constructor]. }
  split; [exact H1|].
  exact (proj2 (SheetFacts.saveAllAttendance_reports_missing_rows
                  page1 [rival_row] 0 H1 H2 H3)).
Defined.

(** The same sheet against an empty table: one record is reported as not
    saved, and nothing is written. *)
Example saveAllAttendance_warns :
  Db.run AttendancePage.attendance_table
         (AttendanceSheet.saveAllAttendance page1) (Db.mkStore [] 0 Db.quiet)
  = ([AttendanceSheet.SetLoading true;
      AttendanceSheet.Notify (AttendanceSheet.warning_toast 1);
      AttendanceSheet.SetLoading false],
     Db.mkStore [] 1 Db.quiet,
     [Db.Select (AttendanceRecord.mkKey "A" "2025-01-15" "Data Structures" "F001")]).
Proof. reflexivity. Qed.

(** Departments that are empty or made of white space, ASCII or not, are
    not offered; a name keeps the blank at its end. *)
Example getDepartments_drops_blank_names :
  AttendanceSheet.getDepartments
    [class_of "Computer"; class_of ""; class_of (" " ++ no_break_space);
     class_of "Computer"; class_of ideographic_space; class_of "IT "]
  = ["Computer"; "IT "] /\
  trim (no_break_space ++ " Asha Patel" ++ ideographic_space) = "Asha Patel".
Proof. split; reflexivity. Qed.

(** The heading of the card of a row without underscores. *)
Lemma card_heading_round_trip_witness :
  AttendanceSheet.card_heading (AttendanceSheet.group_key rival_row)
  = (Some "2025-01-15", Some "Data Structures", Some "Practical").
Proof.
  apply (SheetFacts.card_heading_round_trip rival_row);
    simpl; intros H;
    repeat (destruct H as [H | H]; [discriminate H|]); exact H.
Defined.

(** A subject with an underscore is cut at it, and the class type shown is
    the rest of the subject. *)
Example card_heading_with_underscore :
  AttendanceSheet.card_heading (AttendanceSheet.group_key underscored_row)
  = (Some "2025-01-15", Some "Data", Some "Structures").
Proof. reflexivity. Qed.

(** Student A is marked late on an empty sheet and an empty table. *)
Lemma marked_status_is_shown_witness :
  AttendanceSheet.reported_success
    (snd (fst (fst (Db.run AttendancePage.attendance_table
                      (AttendancePage.markAttendance page0 7 "A" late)
                      (Db.mkStore [] 0 Db.quiet))))) = true /\
  AttendanceSheet.getAttendanceStatus
    (fst (fst (fst (Db.run AttendancePage.attendance_table
                      (AttendancePage.markAttendance page0 7 "A" late)
                      (Db.mkStore [] 0 Db.quiet)))))
    "A" = "late".
Proof.
  assert (H : AttendanceSheet.reported_success
                (snd (fst (fst (Db.run AttendancePage.attendance_table
                                  (AttendancePage.markAttendance page0 7 "A" late)
                                  (Db.mkStore [] 0 Db.quiet))))) = true)
    by reflexivity.
  split; [exact H|].
  exact (MarkingFacts.marked_status_is_shown page0 "A"
           (fun a (Hin : In a []) _ => match Hin with end) 7 late [] 0 H).
Defined.

(** With a record of an earlier date in the local list the mark succeeds
    and the row is written, but the sheet goes on showing the earlier
    status. *)
Example earlier_record_is_shown_first :
  AttendanceSheet.reported_success
    (snd (fst (fst (Db.run AttendancePage.attendance_table
                      (AttendancePage.markAttendance page3 7 "A" late)
                      (Db.mkStore [] 0 Db.quiet))))) = true /\
  map AttendanceRecord.status
      (Db.table (snd (fst (Db.run AttendancePage.attendance_table
                             (AttendancePage.markAttendance page3 7 "A" late)
                             (Db.mkStore [] 0 Db.quiet)))))
  = [late] /\
  AttendanceSheet.getAttendanceStatus
    (fst (fst (fst (Db.run AttendancePage.attendance_table
                      (AttendancePage.markAttendance page3 7 "A" late)
                      (Db.mkStore [] 0 Db.quiet)))))
    "A" = "absent".
Proof. repeat split. Qed.

(** Student A is marked late on an empty sheet; [saveAllAttendance] then
    finds the row. *)
Lemma mark_keeps_sheet_saved_witness :
  AttendancePage.userData page0 <> None /\
  AttendanceSheet.missing
    (fst (fst (fst (Db.run AttendancePage.attendance_table
                      (AttendancePage.markAttendance page0 7 "A" late)
                      (Db.mkStore [] 0 Db.quiet)))))
    (Db.table (snd (fst (Db.run AttendancePage.attendance_table
                           (AttendancePage.markAttendance page0 7 "A" late)
                           (Db.mkStore [] 0 Db.quiet)))))
  = [].
Proof.
  assert (H : AttendancePage.userData page0 <> None) by discriminate.
  split; [exact H|].
  exact (proj1 (proj2 (MarkingFacts.mark_keeps_sheet_saved
                         page0 7 "A" late [] 0 H (NoDup_nil _) eq_refl))).
Defined.

Example mark_then_save_all :
  fst (fst (Db.run AttendancePage.attendance_table
              (AttendanceSheet.saveAllAttendance
                 (fst (fst (fst (Db.run AttendancePage.attendance_table
                                   (AttendancePage.markAttendance page0 7 "A" late)
                                   (Db.mkStore [] 0 Db.quiet))))))
              (snd (fst (Db.run AttendancePage.attendance_table
                           (AttendancePage.markAttendance page0 7 "A" late)
                           (Db.mkStore [] 0 Db.quiet))))))
  = [AttendanceSheet.SetLoading true;
     AttendanceSheet.RefreshHistory;
     AttendanceSheet.Notify
       (mkToast "Attendance Saved Successfully"
          [Text "Total: "; CountOf 1; Text " students - "; CountOf 0;
           Text " present, "; CountOf 0; Text " absent, "; CountOf 1;
           Text " late."] false);
     AttendanceSheet.SetLoading false].
Proof. reflexivity. Qed.

(** Without user data the row is written with an empty [marked_by] and
    looked up under the text [undefined]: the mark succeeds and
    [saveAllAttendance] warns. *)
Example mark_without_user_is_not_found :
  map AttendanceRecord.marked_by
      (Db.table (snd (fst (Db.run AttendancePage.attendance_table
                             (AttendancePage.markAttendance page4 7 "A" late)
                             (Db.mkStore [] 0 Db.quiet)))))
  = [""] /\
  fst (fst (Db.run AttendancePage.attendance_table
              (AttendanceSheet.saveAllAttendance
                 (fst (fst (fst (Db.run AttendancePage.attendance_table
                                   (AttendancePage.markAttendance page4 7 "A" late)
                                   (Db.mkStore [] 0 Db.quiet))))))
              (snd (fst (Db.run AttendancePage.attendance_table
                           (AttendancePage.markAttendance page4 7 "A" late)
                           (Db.mkStore [] 0 Db.quiet))))))
  = [AttendanceSheet.SetLoading true;
     AttendanceSheet.Notify (AttendanceSheet.warning_toast 1);
     AttendanceSheet.SetLoading false].
Proof. split; reflexivity. Qed.

(** Student A comes from the review; the table has no row of A. *)
Lemma mark_after_handover_needs_the_row_witness :
  AttendanceSheet.ready page0 = true /\
  snd (Db.run AttendancePage.attendance_table
         (AttendancePage.markAttendance
            (fst (AttendancePage.handleFaceRecognitionResults page0 7
                    [row_A; row_B; row_C]))
            9 "A" late)
         (Db.mkStore [] 0 Db.quiet))
  = [Db.Update (AttendanceRecord.mkPatch late "Theory" 9)
               (AttendanceRecord.mkKey "A" "2025-01-15" "Data Structures" "F001");
     Db.Select (AttendanceRecord.mkKey "A" "2025-01-15" "Data Structures" "F001")].
Proof.
  assert (H : AttendanceSheet.ready page0 = true) by reflexivity.
  split; [exact H|].
  exact (proj1 (FlowFacts.mark_after_handover_needs_the_row
                  page0 7 9 [row_A; row_B; row_C] "A" late student0 [] 0
                  H eq_refl (or_introl eq_refl) eq_refl)).
Defined.

(** The review rendered by [page0] is saved. *)
Lemma handed_over_records_match_request_witness :
  AttendanceSheet.componentProps page0 = Some page0_props /\
  MassFaceRecognition.save_succeeded saved = true /\
  map AttendanceRecord.user_id
      (AttendancePage.attendance
         (AttendancePage.callbacks 7
            (snd (MassFaceRecognition.saveAttendance page0_props review0 saved))
            page0))
  = ["A"; "B"; "C"].
Proof.
  assert (H1 : AttendanceSheet.componentProps page0 = Some page0_props)
    by reflexivity.
  assert (H2 : MassFaceRecognition.save_succeeded saved = true) by reflexivity.
  split; [exact H1|]. split; [exact H2|].
  destruct (FlowFacts.handed_over_records_match_request
              page0 page0_props review0 saved 7 H1 H2)
    as (url & d & results & Hreq & _ & Hids & _).
  rewrite Hids. rewrite ComponentFacts.saveAttendance_requests in Hreq.
  inversion Hreq. reflexivity.
Defined.

(** Three history rows of two sessions give two cards. *)
Lemma history_cards_partition_witness :
  exists cards,
    AttendanceSheet.history_cards [rival_row; earlier_row; rival_row] = Some cards /\
    map fst cards
    = ["2025-01-15_Data Structures_Practical"; "2025-01-14_Data Structures_Theory"].
Proof.
  destruct (FlowFacts.history_cards_partition [rival_row; earlier_row; rival_row])
    as (cards & Hc & Hk & _).
  - intros record [E | [E | [E | []]]]; subst record; simpl; intros H;
      repeat (destruct H as [H | H]; [discriminate H|]); exact H.
  - exists cards. split; [exact Hc | exact Hk].
Defined.

(** A row with an empty date and subject whose class type is [proto__]
    makes the reducer throw. *)
Example history_with_inherited_key :
  AttendanceSheet.group_key odd_row = "__proto__" /\
  AttendanceSheet.history_cards [rival_row; odd_row] = None.
Proof. split; reflexivity. Qed.

(** A class of two on an empty table. *)
Lemma markAllPresent_inserts_every_student_witness :
  map AttendanceRecord.user_id
      (Db.table (snd (fst (Db.run AttendancePage.attendance_table
                             (AttendanceSheet.markAllPresent page2 (fun _ => 7))
                             (Db.mkStore [] 0 Db.quiet)))))
  = ["A"; "B"] /\
  List.length
    (snd (Db.run AttendancePage.attendance_table
            (AttendanceSheet.markAllPresent page2 (fun _ => 7))
            (Db.mkStore [] 0 Db.quiet)))
  = 2.
Proof.
  destruct (MarkingFacts.markAllPresent_inserts_every_student
              page2 (fun _ => 7) class0
              ltac:(discriminate) ltac:(discriminate) eq_refl
              ltac:(repeat constructor; simpl; intros H;
                    repeat (destruct H as [H | H]; [discriminate H|]); exact H)
              (fun s _ => eq_refl) [] 0
              (fun row s (Hin : In row []) _ => match Hin with end))
    as (Hcalls & Htable & _).
  split.
  - rewrite Htable. reflexivity.
  - rewrite Hcalls. reflexivity.
Defined.

(** The same class: both rows are written, the local list ends with the
    row of student B alone. *)
Lemma markAllPresent_lists_last_student_only_witness :
  map AttendanceRecord.user_id
      (AttendancePage.attendance
         (fst (fst (fst (Db.run AttendancePage.attendance_table
                           (AttendanceSheet.markAllPresent page2 (fun _ => 7))
                           (Db.mkStore [] 0 Db.quiet))))))
  = ["B"].
Proof.
  destruct (MarkingFacts.markAllPresent_lists_last_student_only
              page2 (fun _ => 7) class0
              ltac:(discriminate) ltac:(discriminate) eq_refl
              ltac:(repeat constructor; simpl; intros H;
                    repeat (destruct H as [H | H]; [discriminate H|]); exact H)
              (fun s _ => eq_refl) [] 0
              (fun row s (Hin : In row []) _ => match Hin with end))
    as (_ & Hlist).
  rewrite Hlist. reflexivity.
Defined.

(** The status check of a trained student while the service is down. *)
Lemma failed_check_keeps_training_data_witness :
  FaceTrainingStatus.check_answered service_down = false /\
  FaceTrainingStatus.badge
    (fst (FaceTrainingStatus.checkTrainingStatus "A" trained0 service_down))
  = FaceTrainingStatus.Trained /\
  FaceTrainingStatus.error
    (fst (FaceTrainingStatus.checkTrainingStatus "A" trained0 service_down))
  = Some "Face recognition service unavailable".
Proof.
  assert (H : FaceTrainingStatus.check_answered service_down = false)
    by reflexivity.
  split; [exact H|].
  destruct (TrainingFacts.failed_check_keeps_training_data "A" trained0
              service_down H)
    as (_ & _ & _ & _ & _ & Hbadge).
  split; [exact Hbadge | reflexivity].
Defined.

(** A delete that the service acknowledges while the status check that
    follows gets no answer: the card reports the deletion and goes on showing
    the student as trained. *)
Example acknowledged_delete_without_refresh :
  FaceTrainingStatus.badge
    (fst (FaceTrainingStatus.deleteTrainingData "A" trained0 true
            (MassFaceRecognition.Response true (inl "")) service_down))
  = FaceTrainingStatus.Trained /\
  exists rest,
    snd (FaceTrainingStatus.deleteTrainingData "A" trained0 true
           (MassFaceRecognition.Response true (inl "")) service_down)
    = FaceTrainingStatus.Delete "http://localhost:8000/students/A/face-data"
      :: FaceTrainingStatus.ShowToast
           (mkToast "Training Data Deleted"
              [Text "Face recognition training data has been removed."] false)
      :: rest.
Proof. split; [reflexivity | eexists; reflexivity]. Qed.

(** Six files are selected for an empty form: five are added, the warning
    is shown. *)
Lemma handleFileSelect_warns_when_files_are_left_out_witness :
  List.length (FaceUpload.images FaceUpload.mounted) <= FaceUpload.MAX_IMAGES /\
  List.length
    (FaceUpload.images
       (fst (FaceUpload.handleFileSelect (fun _ => 7) (fun _ => "blob:2")
               [portrait 1; portrait 2; animation; portrait 3; portrait 4;
                portrait 5]
               FaceUpload.mounted)))
  = 5 /\
  snd (FaceUpload.handleFileSelect (fun _ => 7) (fun _ => "blob:2")
         [portrait 1; portrait 2; animation; portrait 3; portrait 4; portrait 5]
         FaceUpload.mounted)
  <> [].
Proof.
  assert (H : List.length (FaceUpload.images FaceUpload.mounted)
              <= FaceUpload.MAX_IMAGES) by (apply Nat.le_0_l).
  split; [exact H|].
  destruct (UploadFacts.handleFileSelect_warns_when_files_are_left_out
              (fun _ => 7) (fun _ => "blob:2")
              [portrait 1; portrait 2; animation; portrait 3; portrait 4;
               portrait 5]
              FaceUpload.mounted H)
    as (Hlen & Hiff & _).
  split; [exact Hlen|].
  intros E. apply Hiff in E. rewrite Hlen in E. discriminate E.
Defined.

(** Two portraits and an animation are selected and uploaded: the request
    carries the two portraits. *)
Lemma training_request_carries_valid_images_witness :
  In (FaceUpload.PostForm "http://localhost:8000/train-student"
        (FaceUpload.mkStudentData "Asha Patel" "A" "Unknown" "student")
        [portrait 1000; portrait 2000])
     (snd (FaceUpload.session upload_props FaceUpload.mounted select_and_upload)) /\
  2 <= List.length [portrait 1000; portrait 2000] <= 5.
Proof.
  assert (H : In (FaceUpload.PostForm "http://localhost:8000/train-student"
                    (FaceUpload.mkStudentData "Asha Patel" "A" "Unknown" "student")
                    [portrait 1000; portrait 2000])
                 (snd (FaceUpload.session upload_props FaceUpload.mounted
                         select_and_upload))).
  { lazy. left. reflexivity. }
  split; [exact H|].
  exact (proj1 (UploadFacts.training_request_carries_valid_images
                  upload_props select_and_upload _ _ _ H)).
Defined.

End MoreChecks.
